(** * Customer-support RAG bot: retrieval, confidence and fallback

    A shallow embedding of the retrieval-and-grounding pipeline of the
    repository, and the properties its specification states about it.

    Sources embedded here:
    - [src/simple_rag_system.py]   lexical strategy  ([Module SimpleRAGSystem])
    - [src/src/rag_system.py]      lexical strategy, refactored ([Module RAGSystem])
    - the retrieval of these two, on the stored objects ([Module Objects])
    - [src/rag_system.py]          dense strategy    ([Module DenseRAGSystem])
    - [src/knowledge_base.py]      document store    ([Module KnowledgeBase],
                                                      [Module KnowledgeBaseStore])
    - [src/src/knowledge_base.py]  document store, refactored
                                                     ([Module RefactoredKnowledgeBase])
    - [src/metrics.py]             metrics tracker   ([Module MetricsTracker])
    - [src/app.py]                 chat turn         ([Module App])

    Modelling conventions.
    - Python [str] is [string], a character being a code point below 256
      (the Latin-1 range): [\w] of [re] and [str.lower] are those of Python
      3 on that range, where [str.lower] maps character by character. Text
      with other code points is not covered. A literal of this file holds
      the bytes of its UTF-8 encoding, not its code points: a text with a
      character above 127 is written [Examples.text "..."], or with
      [ascii_of_nat].
    - Python [int] is [Z]; Python [float] is idealised as an exact rational
      ([Qc]), so rounding is not modelled.
    - A document is a [dict]: a finite map from keys to JSON-like values.
      Where a property is about which object is written to, documents are
      references to objects on a heap ([Module Objects]); elsewhere they are
      their values.
    - An exception is a value: fallible code lives in the [result] monad and
      [try ... except Exception] is [try_except].
    - [print] and the loggers are not modelled. *)

From stdpp Require Import gmap strings list fin_maps numbers sorting.
From Stdlib Require Import QArith Qcanon Ascii Lqa.

Local Open Scope string_scope.
Local Open Scope list_scope.
Local Open Scope Z_scope.

(** ** The Python fragment the sources use *)

Module Py.

(** Exceptions, all of them subclasses of [Exception]. *)
Inductive exn :=
| KeyError
| AttributeError
| TypeError
| IndexError
| APIError
| Exception (msg : string).

Inductive result (A : Type) :=
| Ok (a : A)
| Raise (e : exn).
Global Arguments Ok {A} a.
Global Arguments Raise {A} e.

Global Instance result_ret : MRet result := λ A a, Ok a.
Global Instance result_bind : MBind result := λ A B f m,
  match m with
  | Ok a => f a
  | Raise e => Raise e
  end.
Global Instance result_fmap : FMap result := λ A B f m,
  match m with
  | Ok a => Ok (f a)
  | Raise e => Raise e
  end.

(** [try: body  except Exception as e: handler e]. *)
Definition try_except {A} (body : result A) (handler : exn → result A) : result A :=
  match body with
  | Ok a => Ok a
  | Raise e => handler e
  end.

(** The list comprehension [[f x for x in l]] with a fallible [f]: the first
    exception aborts it. *)
Fixpoint comprehension {A B} (f : A → result B) (l : list A) : result (list B) :=
  match l with
  | [] => Ok []
  | x :: l' => y ← f x; ys ← comprehension f l'; Ok (y :: ys)
  end.

(** *** Strings *)

(** The characters that [str.lower] changes: A-Z, and in the Latin-1 range
    the capital letters from À (192) to Þ (222), the sign × (215) apart.
    Each is 32 below its lower-case letter. *)
Definition is_upper (c : ascii) : bool :=
  let n := nat_of_ascii c in
  ((65 <=? n)%nat && (n <=? 90)%nat)
  || ((192 <=? n)%nat && (n <=? 214)%nat)
  || ((216 <=? n)%nat && (n <=? 222)%nat).

(** The class [\w] of a [str] pattern: the characters that are alphanumeric
    for Unicode, and the underscore. Below 128 these are the digits, the
    letters and [_]; from 128 to 255 they are ª (170), ² ³ (178, 179),
    µ (181), ¹ º (185, 186), ¼ ½ ¾ (188 to 190) and the letters from À (192)
    to ÿ (255), the signs × (215) and ÷ (247) apart. *)
Definition is_word_char (c : ascii) : bool :=
  let n := nat_of_ascii c in
  ((48 <=? n)%nat && (n <=? 57)%nat)
  || ((65 <=? n)%nat && (n <=? 90)%nat)
  || (n =? 95)%nat
  || ((97 <=? n)%nat && (n <=? 122)%nat)
  || (n =? 170)%nat
  || ((178 <=? n)%nat && (n <=? 179)%nat)
  || (n =? 181)%nat
  || ((185 <=? n)%nat && (n <=? 186)%nat)
  || ((188 <=? n)%nat && (n <=? 190)%nat)
  || ((192 <=? n)%nat && (n <=? 214)%nat)
  || ((216 <=? n)%nat && (n <=? 246)%nat)
  || ((248 <=? n)%nat && (n <=? 255)%nat).

Definition lower_char (c : ascii) : ascii :=
  if is_upper c then ascii_of_nat (nat_of_ascii c + 32) else c.

(** [s.lower()] *)
Fixpoint lower (s : string) : string :=
  match s with
  | EmptyString => EmptyString
  | String c s' => String (lower_char c) (lower s')
  end.

Definition flush (cur : string) : list string :=
  match cur with
  | EmptyString => []
  | _ => [cur]
  end.

(** [re.findall(r'\w+', s)]: the maximal runs of word characters, left to
    right; [cur] is the run being read. *)
Fixpoint findall_from (cur s : string) : list string :=
  match s with
  | EmptyString => flush cur
  | String c s' =>
      if is_word_char c then findall_from (cur +:+ String c EmptyString) s'
      else flush cur ++ findall_from EmptyString s'
  end.

Definition findall_w (s : string) : list string := findall_from EmptyString s.

(** [sub in s] on strings. *)
Fixpoint contains (sub s : string) : bool :=
  String.prefix sub s ||
  match s with
  | EmptyString => false
  | String _ s' => contains sub s'
  end.

(** [sep.join(l)] *)
Fixpoint join (sep : string) (l : list string) : string :=
  match l with
  | [] => EmptyString
  | [x] => x
  | x :: l' => x +:+ sep +:+ join sep l'
  end.

(** *** Numbers *)

(** [min(a, b)] and [max(a, b)]: the first argument wins a tie. *)
Definition min_ (a b : Qc) : Qc := if decide (b < a)%Qc then b else a.
Definition max_ (a b : Qc) : Qc := if decide (a < b)%Qc then b else a.

(** [sum(l) / len(l)], as [statistics.mean] on a non-empty list. *)
Definition mean (l : list Qc) : Qc :=
  (foldr Qcplus 0%Qc l / Qc_of_Z (Z.of_nat (length l)))%Qc.

(** *** Values and dicts *)

(** The values a document field can hold once loaded from JSON. A boolean
    counts as the number it is in arithmetic. [VOther] is any value that is
    neither a string nor a number ([None], a list, a dict). *)
Inductive pyval :=
| VStr (s : string)
| VNum (q : Qc)
| VOther.

Global Instance pyval_eq_dec : EqDecision pyval.
Proof. solve_decision. Defined.

Abbreviation pydict := (gmap string pyval).

(** [d.get(k, default)] *)
Definition dict_get (d : pydict) (k : string) (dflt : pyval) : pyval :=
  default dflt (d !! k).

(** [d[k]] *)
Definition dict_item (d : pydict) (k : string) : result pyval :=
  match d !! k with
  | Some v => Ok v
  | None => Raise KeyError
  end.

(** [v.lower()]: only a [str] has the method. *)
Definition str_lower (v : pyval) : result string :=
  match v with
  | VStr s => Ok (lower s)
  | _ => Raise AttributeError
  end.

(** A value used as a float operand ([min(v, 1.0)], [v * weight]). *)
Definition as_float (v : pyval) : result Qc :=
  match v with
  | VNum q => Ok q
  | _ => Raise TypeError
  end.

(** [{v}] inside an f-string. Only the string case is exact; the pipeline
    formats strings only. *)
Definition format_value (v : pyval) : string :=
  match v with
  | VStr s => s
  | VNum _ => "<number>"
  | VOther => "<object>"
  end.

(** [set(re.findall(r'\w+', s))] *)
Definition word_set (s : string) : gset string := list_to_set (findall_w s).

(** [len(s)] of a set. *)
Definition len_set (s : gset string) : Z := Z.of_nat (size s).

(** *** Slicing and sorting *)

(** [l[:k]]: a negative [k] counts from the end. *)
Definition slice_to {A} (l : list A) (k : Z) : list A :=
  if decide (0 ≤ k) then take (Z.to_nat k) l
  else take (length l - Z.to_nat (- k))%nat l.

(** [list.sort(key=..., reverse=True)] computes the key of every element
    first, then sorts the decorated list stably in descending key order. The
    stable order is written as an insertion sort: an element is put before
    the first element whose key is not greater than its own. *)
Fixpoint insert_desc {A} (x : Qc * A) (l : list (Qc * A)) : list (Qc * A) :=
  match l with
  | [] => [x]
  | y :: l' =>
      if decide (x.1 < y.1)%Qc then y :: insert_desc x l' else x :: y :: l'
  end.

Fixpoint sort_desc {A} (l : list (Qc * A)) : list (Qc * A) :=
  match l with
  | [] => []
  | x :: l' => insert_desc x (sort_desc l')
  end.

Definition sort_by_key_reverse {A} (key : A → result Qc) (l : list A) : result (list A) :=
  keys ← comprehension key l;
  Ok ((sort_desc (zip keys l)).*2).

End Py.

Import Py.

(** ** The document store: [src/knowledge_base.py], [src/src/knowledge_base.py] *)

Module KnowledgeBase.

(** What [_load_data] finds on disk: no file, a file that does not parse (or
    is not an object), or an object with or without a ["documents"] key. *)
Inductive data_file :=
| Missing
| Malformed
| Data (docs : option (list pydict)).

Record t := { documents : list pydict }.

Definition _load_data (f : data_file) : list pydict :=
  match f with
  | Data (Some docs) => docs
  | Data None => []
  | Missing => []
  | Malformed => []
  end.

Definition __init__ (f : data_file) : t := {| documents := _load_data f |}.

Definition get_all_documents (self : t) : list pydict := documents self.

Definition get_document_count (self : t) : Z := Z.of_nat (length (documents self)).

End KnowledgeBase.

(** ** Code that the three [rag_system] files repeat *)

Module Shared.

Definition nl : string := String (ascii_of_nat 10) EmptyString.

(** One chat-completion request and the external endpoint: it answers with
    the text of the first choice, or the call (or reading the response)
    raises. *)
Record chat_request := {
  model : string;
  system_content : string;
  user_content : string;
  max_tokens : Z;
  temperature : Qc
}.

Abbreviation chat_client := (chat_request → result string).

Record source := {
  source_title : pyval;
  source_score : pyval;
  source_category : pyval
}.

Record response := {
  answer : string;
  confidence : Qc;
  sources : list source
}.

(** [[{"title": doc["title"], "score": doc["score"], "category":
    doc.get("category", "General")} for doc in context_docs]] *)
Definition sources_of (context_docs : list pydict) : result (list source) :=
  comprehension (λ doc,
    title ← dict_item doc "title";
    score ← dict_item doc "score";
    Ok {| source_title := title;
          source_score := score;
          source_category := dict_get doc "category" (VStr "General") |})
    context_docs.

(** [total_score / max(len(query_words), 1)] *)
Definition normalized (total_score : Z) (query_words : gset string) : Qc :=
  (Qc_of_Z total_score / Qc_of_Z (Z.max (len_set query_words) 1))%Qc.

(** [doc_copy = doc.copy(); doc_copy['score'] = score] *)
Definition with_score (doc : pydict) (score : Qc) : pydict :=
  <["score" := VNum score]> doc.

(** The scoring loop of the lexical retrievers, [total_score] being what
    the file at hand computes for one document:
[[
    for doc in documents:
        total_score = ...
        if total_score > 0:
            doc_copy = doc.copy()
            doc_copy['score'] = total_score / max(len(query_words), 1)
            scored_docs.append(doc_copy)
]] *)
Fixpoint score_loop (total_score : pydict → result Z) (query_words : gset string)
    (docs scored_docs : list pydict) : result (list pydict) :=
  match docs with
  | [] => Ok scored_docs
  | doc :: docs' =>
      total ← total_score doc;
      if decide (total > 0) then
        let doc_copy := with_score doc (normalized total query_words) in
        score_loop total_score query_words docs' (scored_docs ++ [doc_copy])
      else score_loop total_score query_words docs' scored_docs
  end.

(** [lambda x: x['score']] as a sort key. *)
Definition score_key (x : pydict) : result Qc :=
  v ← dict_item x "score"; as_float v.

(** [[
    scored_docs.sort(key=lambda x: x['score'], reverse=True)
    return scored_docs[:top_k]
]] *)
Definition sort_and_cut (scored_docs : list pydict) (top_k : Z) : result (list pydict) :=
  scored_docs ← sort_by_key_reverse score_key scored_docs;
  Ok (slice_to scored_docs top_k).

(** [_calculate_confidence]; [cap] is what the loop does to one score before
    it is weighted: [min(score, 1.0)] in the lexical files, nothing in the
    dense file. *)
Definition weights : list Qc := [1; Qc_of_Z 7 / Qc_of_Z 10; 1 / 2]%Qc.

Definition weight_at (i : nat) : Qc :=
  if decide (i < length weights)%nat then default 0%Qc (weights !! i)
  else (Qc_of_Z 3 / Qc_of_Z 10)%Qc.

Fixpoint confidence_loop (cap : Qc → Qc) (i : nat) (docs : list pydict)
    (weighted_score total_weight : Qc) : result (Qc * Qc) :=
  match docs with
  | [] => Ok (weighted_score, total_weight)
  | doc :: docs' =>
      let weight := weight_at i in
      v ← dict_item doc "score";
      score ← as_float v;
      confidence_loop cap (S i) docs'
        (weighted_score + cap score * weight)%Qc (total_weight + weight)%Qc
  end.

Definition calculate_confidence (cap : Qc → Qc) (context_docs : list pydict) : result Qc :=
  match context_docs with
  | [] => Ok 0%Qc
  | _ =>
      '(weighted_score, total_weight) ←
        confidence_loop cap 0 (slice_to context_docs 3) 0%Qc 0%Qc;
      let confidence :=
        if decide (0 < total_weight)%Qc then (weighted_score / total_weight)%Qc
        else 0%Qc in
      Ok (min_ 1 (max_ 0 confidence))
  end.

End Shared.

Import Shared.

(** ** The lexical strategy: [src/simple_rag_system.py] *)

Module SimpleRAGSystem.

(** [self.documents] is the very list object [self.knowledge_base] holds
    ([get_all_documents] returns it uncopied), so the object has one mutable
    field: that list. *)
Record t := {
  openai_client : chat_client;
  documents : list pydict
}.

(** A method takes [self] and gives back its outcome and [self] after it. *)
Definition method (A : Type) : Type := t → result A * t.

Definition _initialize_document_store (kb : KnowledgeBase.t) : result (list pydict) :=
  try_except
    (let documents := KnowledgeBase.get_all_documents kb in
     match documents with
     | [] => Raise (Exception "No documents found in knowledge base")
     | _ => Ok documents
     end)
    (λ e, Raise e).

Definition __init__ (client : chat_client) (kb : KnowledgeBase.t) : result t :=
  documents ← _initialize_document_store kb;
  Ok {| openai_client := client; documents := documents |}.

(** [[
    phrase_bonus = 0
    for word in query_words:
        if word in content_lower: phrase_bonus += 1
        if word in title_lower:   phrase_bonus += 2
]] *)
Definition phrase_bonus (query_words : gset string) (content_lower title_lower : string) : Z :=
  foldl (λ phrase_bonus word,
           let phrase_bonus :=
             if contains word content_lower then phrase_bonus + 1 else phrase_bonus in
           if contains word title_lower then phrase_bonus + 2 else phrase_bonus)
        0 (elements query_words).

Definition total_score (query_words : gset string) (doc : pydict) : result Z :=
  title_lower ← str_lower (dict_get doc "title" (VStr EmptyString));
  content_lower ← str_lower (dict_get doc "content" (VStr EmptyString));
  category_lower ← str_lower (dict_get doc "category" (VStr EmptyString));
  let title_words := word_set title_lower in
  let content_words := word_set content_lower in
  let category_words := word_set category_lower in
  let title_score := len_set (query_words ∩ title_words) * 3 in
  let content_score := len_set (query_words ∩ content_words) * 1 in
  let category_score := len_set (query_words ∩ category_words) * 2 in
  let phrase_bonus := phrase_bonus query_words content_lower title_lower in
  Ok (title_score + content_score + category_score + phrase_bonus).

Definition retrieve_body (documents : list pydict) (query : string) (top_k : Z)
    : result (list pydict) :=
  let query_lower := lower query in
  let query_words := word_set query_lower in
  scored_docs ← score_loop (total_score query_words) query_words documents [];
  sort_and_cut scored_docs top_k.

Definition _retrieve_relevant_documents (query : string) (top_k : Z)
    : method (list pydict) := λ self,
  (try_except (retrieve_body (documents self) query top_k) (λ _, Ok []), self).

Definition _calculate_confidence (context_docs : list pydict) : result Qc :=
  calculate_confidence (λ score, min_ score 1) context_docs.

Definition system_prompt : string :=
  "You are a helpful customer support AI assistant. Use the provided context to answer customer questions accurately and professionally. "
  +:+ nl +:+ nl +:+
  "Guidelines:" +:+ nl +:+
  "- Provide clear, concise, and helpful answers" +:+ nl +:+
  "- Use information from the context when available" +:+ nl +:+
  "- If the context doesn't contain relevant information, politely indicate that you need to escalate to a human agent" +:+ nl +:+
  "- Be empathetic and understanding" +:+ nl +:+
  "- Maintain a professional but friendly tone" +:+ nl +:+
  "- If asked about technical issues, provide step-by-step solutions when possible".

Definition user_prompt (context query : string) : string :=
  "Context Information:" +:+ nl +:+ context +:+ nl +:+ nl +:+
  "Customer Question: " +:+ query +:+ nl +:+ nl +:+
  "Please provide a helpful response based on the context above. If the context doesn't contain sufficient information to answer the question, let the customer know that you'll need to connect them with a human agent for further assistance.".

Definition context_of (context_docs : list pydict) : result string :=
  parts ← comprehension (λ doc,
    title ← dict_item doc "title";
    let category := dict_get doc "category" (VStr "General") in
    content ← dict_item doc "content";
    Ok ("Source: " +:+ format_value title +:+ nl +:+
        "Category: " +:+ format_value category +:+ nl +:+
        "Content: " +:+ format_value content)) context_docs;
  Ok (join (nl +:+ nl) parts).

(** The answer of the [except] branch of [_generate_response]. *)
Definition generation_fallback : response :=
  {| answer := "I apologize, but I'm experiencing technical difficulties. Please try again later or contact our human support team.";
     confidence := 0%Qc;
     sources := [] |}.

(** The answer of the [except] branch of [get_response]. *)
Definition outer_fallback : response :=
  {| answer := "I apologize, but I'm currently experiencing technical issues. Please try again later or contact our human support team for immediate assistance.";
     confidence := 0%Qc;
     sources := [] |}.

(** The arguments of [chat.completions.create]. *)
Definition request_of (context query : string) : chat_request :=
  {| model := "gpt-4o";
     system_content := system_prompt;
     user_content := user_prompt context query;
     max_tokens := 500;
     temperature := (Qc_of_Z 7 / Qc_of_Z 10)%Qc |}.

Definition generate_body (client : chat_client) (query : string)
    (context_docs : list pydict) : result response :=
  context ← context_of context_docs;
  answer ← client (request_of context query);
  confidence ← _calculate_confidence context_docs;
  sources ← sources_of context_docs;
  Ok {| answer := answer; confidence := confidence; sources := sources |}.

Definition _generate_response (query : string) (context_docs : list pydict)
    : method response := λ self,
  (try_except (generate_body (openai_client self) query context_docs)
     (λ _, Ok generation_fallback), self).

Definition get_response (query : string) : method response := λ self,
  let '(relevant_docs, self) := _retrieve_relevant_documents query 3 self in
  let '(response_data, self) :=
    match relevant_docs with
    | Ok relevant_docs => _generate_response query relevant_docs self
    | Raise e => (Raise e, self)
    end in
  (try_except response_data (λ _, Ok outer_fallback), self).

(** [self.documents.append(new_doc)]; nothing in the [try] can raise. *)
Definition add_to_knowledge_base (title content category : string) : method bool := λ self,
  let new_doc : pydict :=
    {[ "title" := VStr title; "content" := VStr content; "category" := VStr category ]} in
  (Ok true,
   {| openai_client := openai_client self;
      documents := documents self ++ [new_doc] |}).

End SimpleRAGSystem.

(** ** The lexical strategy, refactored: [src/src/rag_system.py] *)

Module RAGSystem.

(** [config.openai] of [src/config/settings.py]. *)
Record OpenAIConfig := {
  config_model : string;
  config_temperature : Qc;
  config_max_tokens : Z
}.

Definition config_openai : OpenAIConfig :=
  {| config_model := "gpt-4o";
     config_temperature := (Qc_of_Z 7 / Qc_of_Z 10)%Qc;
     config_max_tokens := 500 |}.

Record t := {
  client : chat_client;
  knowledge_base : KnowledgeBase.t
}.

Definition method (A : Type) : Type := t → result A * t.

(** No guard on an empty store here: the constructor only loads and logs. *)
Definition __init__ (c : chat_client) (knowledge_base_path : KnowledgeBase.data_file) : result t :=
  Ok {| client := c; knowledge_base := KnowledgeBase.__init__ knowledge_base_path |}.

Definition total_score (query_words : gset string) (doc : pydict) : result Z :=
  title_lower ← str_lower (dict_get doc "title" (VStr EmptyString));
  let title_words := word_set title_lower in
  content_lower ← str_lower (dict_get doc "content" (VStr EmptyString));
  let content_words := word_set content_lower in
  let title_score := len_set (query_words ∩ title_words) * 3 in
  let content_score := len_set (query_words ∩ content_words) * 1 in
  Ok (title_score + content_score).

Definition retrieve_body (documents : list pydict) (query : string) (top_k : Z)
    : result (list pydict) :=
  let query_words := word_set (lower query) in
  scored_docs ← score_loop (total_score query_words) query_words documents [];
  sort_and_cut scored_docs top_k.

Definition _retrieve_documents (query : string) (top_k : Z) : method (list pydict) := λ self,
  (try_except
     (retrieve_body (KnowledgeBase.get_all_documents (knowledge_base self)) query top_k)
     (λ _, Ok []), self).

Definition _calculate_confidence (context_docs : list pydict) : result Qc :=
  calculate_confidence (λ score, min_ score 1) context_docs.

Definition indent : string := "            ".

Definition system_prompt : string :=
  "You are a professional customer support assistant. " +:+ nl +:+
  indent +:+ "Use the provided context to answer questions accurately and helpfully." +:+ nl +:+
  indent +:+ nl +:+
  indent +:+ "Guidelines:" +:+ nl +:+
  indent +:+ "- Provide clear, concise answers" +:+ nl +:+
  indent +:+ "- Use information from the context when available" +:+ nl +:+
  indent +:+ "- If context is insufficient, recommend contacting human support" +:+ nl +:+
  indent +:+ "- Maintain a professional, helpful tone".

Definition user_prompt (context query : string) : string :=
  "Context:" +:+ nl +:+ context +:+ nl +:+ nl +:+
  "Question: " +:+ query +:+ nl +:+ nl +:+
  "Please provide a helpful response based on the context above.".

Definition context_of (context_docs : list pydict) : result string :=
  parts ← comprehension (λ doc,
    title ← dict_item doc "title";
    content ← dict_item doc "content";
    Ok ("Source: " +:+ format_value title +:+ nl +:+
        "Content: " +:+ format_value content)) context_docs;
  Ok (join (nl +:+ nl) parts).

Definition generation_fallback : response :=
  {| answer := "I apologize, but I'm experiencing technical difficulties. Please contact our support team for assistance.";
     confidence := 0%Qc;
     sources := [] |}.

Definition outer_fallback : response :=
  {| answer := "I'm currently experiencing technical issues. Please try again later or contact human support.";
     confidence := 0%Qc;
     sources := [] |}.

Definition request_of (context query : string) : chat_request :=
  {| model := config_model config_openai;
     system_content := system_prompt;
     user_content := user_prompt context query;
     max_tokens := config_max_tokens config_openai;
     temperature := config_temperature config_openai |}.

Definition generate_body (c : chat_client) (query : string)
    (context_docs : list pydict) : result response :=
  context ← context_of context_docs;
  answer ← c (request_of context query);
  confidence ← _calculate_confidence context_docs;
  sources ← sources_of context_docs;
  Ok {| answer := answer; confidence := confidence; sources := sources |}.

Definition _generate_response (query : string) (context_docs : list pydict)
    : method response := λ self,
  (try_except (generate_body (client self) query context_docs)
     (λ _, Ok generation_fallback), self).

Definition get_response (query : string) : method response := λ self,
  let '(relevant_docs, self) := _retrieve_documents query 3 self in
  let '(response_data, self) :=
    match relevant_docs with
    | Ok relevant_docs => _generate_response query relevant_docs self
    | Raise e => (Raise e, self)
    end in
  (try_except response_data (λ _, Ok outer_fallback), self).

End RAGSystem.

(** ** The dense strategy: [src/rag_system.py] *)

Module DenseRAGSystem.

(** The sentence-embedding model and the FAISS index are not code of this
    repository. An embedding is a vector of numbers; the index is the list of
    the vectors added to it, in order. [SentenceTransformer.encode] and
    [IndexFlatIP.search] are taken as given: [search] returns, for one query
    vector and [k], the pairs (score, position) of its hits, with position
    [-1] where it has none. *)
Abbreviation vec := (list Qc).

Record externals := {
  encode : list pyval → result (list vec);
  search : list vec → vec → Z → result (list (Qc * Z))
}.

Record t := {
  openai_client : chat_client;
  index : option (list vec);
  documents : list pydict
}.

Definition method (A : Type) : Type := t → result A * t.

(** [l[i]] on a list: a negative [i] counts from the end. *)
Definition list_item {A} (l : list A) (i : Z) : result A :=
  let j := if decide (0 ≤ i) then i else Z.of_nat (length l) + i in
  if decide (0 ≤ j) then
    match l !! Z.to_nat j with
    | Some x => Ok x
    | None => Raise IndexError
    end
  else Raise IndexError.

(** [faiss.normalize_L2(embeddings.astype('float32'))] normalises the copy
    that [astype] makes and drops it; what reaches [index.add] is
    [embeddings] as encoded. *)
Definition _initialize_vector_db (ext : externals) (kb : KnowledgeBase.t)
    : result (list pydict * list vec) :=
  try_except
    (let documents := KnowledgeBase.get_all_documents kb in
     match documents with
     | [] => Raise (Exception "No documents found in knowledge base")
     | _ =>
         texts ← comprehension (λ doc, dict_item doc "content") documents;
         embeddings ← encode ext texts;
         Ok (documents, embeddings)
     end)
    (λ e, Raise e).

Definition __init__ (ext : externals) (client : chat_client) (kb : KnowledgeBase.t) : result t :=
  '(documents, embeddings) ← _initialize_vector_db ext kb;
  Ok {| openai_client := client; index := Some embeddings; documents := documents |}.

Definition first_row (rows : list vec) : result vec :=
  match rows with
  | row :: _ => Ok row
  | [] => Raise IndexError
  end.

Fixpoint hits_loop (documents : list pydict) (hits : list (Qc * Z))
    (relevant_docs : list pydict) : result (list pydict) :=
  match hits with
  | [] => Ok relevant_docs
  | (score, idx) :: hits' =>
      if decide (idx ≠ -1) then
        doc ← list_item documents idx;
        hits_loop documents hits' (relevant_docs ++ [with_score doc score])
      else hits_loop documents hits' relevant_docs
  end.

Definition retrieve_body (ext : externals) (self : t) (query : string) (top_k : Z)
    : result (list pydict) :=
  query_embedding ← encode ext [VStr query];
  q ← first_row query_embedding;
  vectors ← match index self with
            | Some vectors => Ok vectors
            | None => Raise AttributeError
            end;
  hits ← search ext vectors q top_k;
  hits_loop (documents self) hits [].

Definition _retrieve_relevant_documents (ext : externals) (query : string) (top_k : Z)
    : method (list pydict) := λ self,
  (try_except (retrieve_body ext self query top_k) (λ _, Ok []), self).

(** The loop weights [doc['score']] as it is. *)
Definition _calculate_confidence (context_docs : list pydict) : result Qc :=
  calculate_confidence (λ score, score) context_docs.

(** The two prompts are, character for character, those of
    [src/simple_rag_system.py]; the context block has no category line. *)
Definition system_prompt : string := SimpleRAGSystem.system_prompt.

Definition user_prompt (context query : string) : string :=
  SimpleRAGSystem.user_prompt context query.

Definition context_of (context_docs : list pydict) : result string :=
  parts ← comprehension (λ doc,
    title ← dict_item doc "title";
    content ← dict_item doc "content";
    Ok ("Source: " +:+ format_value title +:+ nl +:+
        "Content: " +:+ format_value content)) context_docs;
  Ok (join (nl +:+ nl) parts).

Definition request_of (context query : string) : chat_request :=
  {| model := "gpt-4o";
     system_content := system_prompt;
     user_content := user_prompt context query;
     max_tokens := 500;
     temperature := (Qc_of_Z 7 / Qc_of_Z 10)%Qc |}.

Definition generation_fallback : response :=
  {| answer := "I apologize, but I'm experiencing technical difficulties. Please try again later or contact our human support team.";
     confidence := 0%Qc;
     sources := [] |}.

Definition outer_fallback : response :=
  {| answer := "I apologize, but I'm currently experiencing technical issues. Please try again later or contact our human support team for immediate assistance.";
     confidence := 0%Qc;
     sources := [] |}.

Definition generate_body (client : chat_client) (query : string)
    (context_docs : list pydict) : result response :=
  context ← context_of context_docs;
  answer ← client (request_of context query);
  confidence ← _calculate_confidence context_docs;
  sources ← sources_of context_docs;
  Ok {| answer := answer; confidence := confidence; sources := sources |}.

Definition _generate_response (query : string) (context_docs : list pydict)
    : method response := λ self,
  (try_except (generate_body (openai_client self) query context_docs)
     (λ _, Ok generation_fallback), self).

Definition get_response (ext : externals) (query : string) : method response := λ self,
  let '(relevant_docs, self) := _retrieve_relevant_documents ext query 3 self in
  let '(response_data, self) :=
    match relevant_docs with
    | Ok relevant_docs => _generate_response query relevant_docs self
    | Raise e => (Raise e, self)
    end in
  (try_except response_data (λ _, Ok outer_fallback), self).

(** [self.documents.append(new_doc)] happens before the embedding is made:
    if [encode] raises, the document stays appended, the index does not
    grow, and the method returns [False]. *)
Definition add_to_knowledge_base (ext : externals) (title content category : string)
    : method bool := λ self,
  let new_doc : pydict :=
    {[ "title" := VStr title; "content" := VStr content; "category" := VStr category ]} in
  let documents' := documents self ++ [new_doc] in
  match (new_embedding ← encode ext [VStr content];
         match index self with
         | Some vectors => Ok (vectors ++ new_embedding)
         | None => Raise AttributeError
         end) with
  | Ok vectors' =>
      (Ok true, {| openai_client := openai_client self;
                   index := Some vectors';
                   documents := documents' |})
  | Raise _ =>
      (Ok false, {| openai_client := openai_client self;
                    index := index self;
                    documents := documents' |})
  end.

End DenseRAGSystem.

(** ** The metrics tracker: [src/metrics.py] *)

Module MetricsTracker.

(** The timestamp of an interaction is left out. *)
Record interaction := {
  query : string;
  response_text : string;
  response_time : Qc;
  i_confidence : Qc;
  sources_count : Z;
  resolved : bool
}.

Record t := { interactions : list interaction }.

Record metrics := {
  accuracy : Qc;
  resolution_rate : Qc;
  total_queries : Z;
  avg_response_time : Qc;
  avg_confidence : Qc;
  resolved_queries : Z
}.

Definition __init__ : t := {| interactions := [] |}.

Definition _estimate_resolution (confidence : Qc) (sources_count : Z) : bool :=
  bool_decide (Qc_of_Z 7 / Qc_of_Z 10 < confidence)%Qc && bool_decide (sources_count > 0).

Definition add_interaction (q r : string) (rt c : Qc) (sc : Z) (self : t) : t :=
  {| interactions := interactions self ++
       [{| query := q; response_text := r; response_time := rt; i_confidence := c;
           sources_count := sc; resolved := _estimate_resolution c sc |}] |}.

Definition get_current_metrics (self : t) : metrics :=
  match interactions self with
  | [] =>
      {| accuracy := Qc_of_Z 92;
         resolution_rate := Qc_of_Z 65;
         total_queries := 0;
         avg_response_time := 0%Qc;
         avg_confidence := 0%Qc;
         resolved_queries := 0 |}
  | _ =>
      let total_queries := Z.of_nat (length (interactions self)) in
      let resolved_queries := Z.of_nat (length (filter (λ i, resolved i = true) (interactions self))) in
      let resolution_rate :=
        if decide (total_queries > 0)
        then (Qc_of_Z resolved_queries / Qc_of_Z total_queries * Qc_of_Z 100)%Qc
        else Qc_of_Z 65 in
      let avg_response_time := mean (response_time <$> interactions self) in
      let avg_confidence := mean (i_confidence <$> interactions self) in
      let accuracy := (avg_confidence * Qc_of_Z 100)%Qc in
      let accuracy :=
        if decide (accuracy < Qc_of_Z 92)%Qc
        then min_ (Qc_of_Z 92) (accuracy * (Qc_of_Z 12 / Qc_of_Z 10))%Qc
        else accuracy in
      {| accuracy := accuracy;
         resolution_rate := resolution_rate;
         total_queries := total_queries;
         avg_response_time := avg_response_time;
         avg_confidence := avg_confidence;
         resolved_queries := resolved_queries |}
  end.

End MetricsTracker.

(** ** The specification's formulas, written from its words *)

Module Spec.

(** "clamp the result to [0,1]" *)
Definition clamp_unit (x : Qc) : Qc :=
  if decide (x < 0)%Qc then 0%Qc else if decide (1 < x)%Qc then 1%Qc else x.

(** "clamped to at most 1.0" *)
Definition at_most_one (score : Qc) : Qc :=
  if decide (1 < score)%Qc then 1%Qc else score.

(** "position weights [1.0, 0.7, 0.5] (documents beyond position 3 use
    weight 0.3)" *)
Definition position_weight (position : nat) : Qc :=
  match position with
  | 0%nat => 1
  | 1%nat => Qc_of_Z 7 / Qc_of_Z 10
  | 2%nat => 1 / 2
  | _ => Qc_of_Z 3 / Qc_of_Z 10
  end%Qc.

(** [Σ f i x_i], positions counted from [i]. *)
Fixpoint sum_from (f : nat → Qc → Qc) (i : nat) (scores : list Qc) : Qc :=
  match scores with
  | [] => 0%Qc
  | s :: scores' => (f i s + sum_from f (S i) scores')%Qc
  end.

(** "confidence = Σ(clamped_score_i * weight_i) / Σ(weight_i), then clamp
    the result to [0,1]. Empty input → confidence 0.0", over the top 3
    scores; [cap] is what is done to a score before it is weighted. *)
Definition confidence_of (cap : Qc → Qc) (scores : list Qc) : Qc :=
  match scores with
  | [] => 0%Qc
  | _ =>
      let top := take 3 scores in
      clamp_unit (sum_from (λ i s, cap s * position_weight i) 0 top
                  / sum_from (λ i _, position_weight i) 0 top)%Qc
  end.

(** A ranked list of scored documents: documents, each with its score
    attached under the key ["score"]. *)
Definition scored_documents (l : list (pydict * Qc)) : list pydict :=
  (λ x, with_score x.1 x.2) <$> l.

(** A document as the data model has it: [title], [content] and [category]
    are strings where present. *)
Definition is_text (field : option pyval) : bool :=
  match field with
  | Some (VStr _) | None => true
  | Some _ => false
  end.

Definition well_formed (doc : pydict) : Prop :=
  is_text (doc !! "title") = true ∧
  is_text (doc !! "content") = true ∧
  is_text (doc !! "category") = true.

(** The lower-cased text of a field; an absent field reads as the empty
    string. *)
Definition field_lower (doc : pydict) (k : string) : string :=
  match doc !! k with
  | Some (VStr s) => lower s
  | _ => EmptyString
  end.

(** "adds 1 for each query word that is a substring of the lower-cased
    content and 2 for each that is a substring of the lower-cased title" *)
Definition substring_count (query_words : gset string) (text : string) : Z :=
  len_set (filter (λ word, contains word text = true) query_words).

Definition phrase_bonus_of (query_words : gset string) (doc : pydict) : Z :=
  1 * substring_count query_words (field_lower doc "content")
  + 2 * substring_count query_words (field_lower doc "title").

(** "score = 3*|query_words ∩ title_words| + 1*|query_words ∩ content_words|
    + 2*|query_words ∩ category_words| + phrase_bonus" *)
Definition lexical_total (query_words : gset string) (doc : pydict) : Z :=
  3 * len_set (query_words ∩ word_set (field_lower doc "title"))
  + 1 * len_set (query_words ∩ word_set (field_lower doc "content"))
  + 2 * len_set (query_words ∩ word_set (field_lower doc "category"))
  + phrase_bonus_of query_words doc.

(** The score of [src/src/rag_system.py]: title and content overlap only. *)
Definition title_content_total (query_words : gset string) (doc : pydict) : Z :=
  3 * len_set (query_words ∩ word_set (field_lower doc "title"))
  + 1 * len_set (query_words ∩ word_set (field_lower doc "content")).

(** "Normalize: score /= max(|query_words|, 1). Discard documents with
    score ≤ 0." *)
Definition normalized_score (total : Z) (query_words : gset string) : Qc :=
  (Qc_of_Z total / Qc_of_Z (Z.max (len_set query_words) 1))%Qc.

Definition ranked_entry (total : pydict → Z) (query_words : gset string)
    (doc : pydict) : option pydict :=
  let score := normalized_score (total doc) query_words in
  if decide (score ≤ 0)%Qc then None else Some (with_score doc score).

(** What the scoring loop has appended, with for each entry its key and the
    position of its document in the collection; positions count from [i]. *)
Fixpoint score_trace (total_score : pydict → result Z) (query_words : gset string)
    (i : nat) (docs : list pydict) : result (list (Qc * (nat * pydict))) :=
  match docs with
  | [] => Ok []
  | doc :: docs' =>
      total ← total_score doc;
      rest ← score_trace total_score query_words (S i) docs';
      Ok (if decide (total > 0)
          then (normalized total query_words,
                (i, with_score doc (normalized total query_words))) :: rest
          else rest)
  end.

(** A result entry is the document at a position of the collection, with its
    score attached. One entry ranks before another if its score is greater,
    or the scores are equal and its position is smaller. *)
Definition entry_of (documents : list pydict) (d : pydict) (e : Qc * nat) : Prop :=
  ∃ doc, documents !! e.2 = Some doc ∧ d = with_score doc e.1.

Definition ranks_before (a b : Qc * nat) : Prop :=
  (b.1 < a.1)%Qc ∨ (a.1 = b.1 ∧ (a.2 < b.2)%nat).

(** The same order on the entries of a list being sorted: [pos] gives the
    place an element had in the collection. An element is ranked before
    another if its key is greater, or the keys are equal and it came
    first. *)
Definition came_before {A} (pos : A → nat) (x y : Qc * A) : Prop :=
  (pos x.2 < pos y.2)%nat.

Definition ranked_before {A} (pos : A → nat) (x y : Qc * A) : Prop :=
  (y.1 < x.1)%Qc ∨ (x.1 = y.1 ∧ (pos x.2 < pos y.2)%nat).

(** An entry of the trace that starts at position [i] of [docs]. *)
Definition traced (docs : list pydict) (i : nat) (x : Qc * (nat * pydict)) : Prop :=
  (i ≤ x.2.1)%nat ∧
  ∃ doc, docs !! (x.2.1 - i)%nat = Some doc ∧ x.2.2 = with_score doc x.1.

(** The average confidence as a percentage: [avg_confidence * 100]. *)
Definition raw_accuracy (self : MetricsTracker.t) : Qc :=
  (mean (MetricsTracker.i_confidence <$> MetricsTracker.interactions self)
   * Qc_of_Z 100)%Qc.

(** The document that [add_to_knowledge_base] builds. *)
Definition new_document (title content category : string) : pydict :=
  {[ "title" := VStr title; "content" := VStr content; "category" := VStr category ]}.

End Spec.


(** ** Concrete collections and systems *)

Module Examples.

(** The text that a literal of this file spells. The literal holds the
    UTF-8 bytes of what is written, in which a code point from 128 to 191 is
    the byte 194 and then the code point, and a code point from 192 to 255
    is the byte 195 and then the code point less 64. *)
Fixpoint text (s : string) : string :=
  match s with
  | String c1 (String c2 s' as rest) =>
      if (nat_of_ascii c1 =? 194)%nat then String c2 (text s')
      else if (nat_of_ascii c1 =? 195)%nat
      then String (ascii_of_nat (nat_of_ascii c2 + 64)) (text s')
      else String c1 (text rest)
  | _ => s
  end.

Definition document (title content category : string) : pydict :=
  {[ "title" := VStr title; "content" := VStr content; "category" := VStr category ]}.

(** The two-document collection of the specification's scenario. *)
Definition reset_password : pydict :=
  document "Reset Password" "Click forgot password on login page" "Account".

Definition billing_cycle : pydict :=
  document "Billing Cycle" "Bills are generated monthly" "Billing".

Definition support_docs : list pydict := [reset_password; billing_cycle].

(** An endpoint that answers, and one that times out. *)
Definition answering : chat_client := λ _, Ok "Use the forgot password link.".
Definition timing_out : chat_client := λ _, Raise APIError.

Definition support_system : SimpleRAGSystem.t :=
  {| SimpleRAGSystem.openai_client := answering;
     SimpleRAGSystem.documents := support_docs |}.

Definition failing_system : SimpleRAGSystem.t :=
  {| SimpleRAGSystem.openai_client := timing_out;
     SimpleRAGSystem.documents := support_docs |}.

(** An endpoint that fails on the requests that mention a password, and
    answers the others. *)
Definition busy : chat_client := λ request,
  if contains "password" (user_content request) then Raise APIError
  else Ok "Use the forgot password link.".

Definition busy_system : SimpleRAGSystem.t :=
  {| SimpleRAGSystem.openai_client := busy;
     SimpleRAGSystem.documents := support_docs |}.

Definition empty_store : KnowledgeBase.t := KnowledgeBase.__init__ KnowledgeBase.Missing.

Definition empty_system : SimpleRAGSystem.t :=
  {| SimpleRAGSystem.openai_client := answering;
     SimpleRAGSystem.documents := [] |}.

(** Three documents titled "Y". *)
Definition titled_y (content : string) : pydict := document "Y" content "General".

Definition crowded_system : SimpleRAGSystem.t :=
  {| SimpleRAGSystem.openai_client := answering;
     SimpleRAGSystem.documents := [titled_y "a"; titled_y "b"; titled_y "c"] |}.

(** An embedding model that maps every text to the same unit vector, an
    index search that finds nothing, and a dense system over the
    two-document collection. *)
Definition constant_embedding : DenseRAGSystem.externals :=
  {| DenseRAGSystem.encode := λ texts, Ok ((λ _, [1%Qc]) <$> texts);
     DenseRAGSystem.search := λ _ _ _, Ok [] |}.

Definition dense_system : DenseRAGSystem.t :=
  {| DenseRAGSystem.openai_client := answering;
     DenseRAGSystem.index := Some [[1%Qc]; [1%Qc]];
     DenseRAGSystem.documents := support_docs |}.

(** A document that matches the query "billing" on its category only. *)
Definition plans : pydict := document "Plans" "Monthly and yearly" "Billing".

(** A tracker after one fallback answer (confidence 0), and one after an
    answer of confidence 1/2. *)
Definition one_fallback : MetricsTracker.t :=
  MetricsTracker.add_interaction "q" "r" 1%Qc 0%Qc 0 MetricsTracker.__init__.

Definition one_half : MetricsTracker.t :=
  MetricsTracker.add_interaction "q" "r" 1%Qc (1 / 2)%Qc 2 MetricsTracker.__init__.

End Examples.

(** ** The document store, searching: [src/knowledge_base.py] *)

Module KnowledgeBaseStore.

(** [[
    for doc in self.documents:
        if (keyword_lower in doc.get('title', '').lower() or
            keyword_lower in doc.get('content', '').lower()):
            results.append(doc)
]]
    The [or] does not look at the content once the title holds the
    keyword. *)
Fixpoint search_loop (keyword_lower : string) (docs results : list pydict)
    : result (list pydict) :=
  match docs with
  | [] => Ok results
  | doc :: docs' =>
      title_lower ← str_lower (dict_get doc "title" (VStr EmptyString));
      hit ← (if contains keyword_lower title_lower then Ok true
             else content_lower ← str_lower (dict_get doc "content" (VStr EmptyString));
                  Ok (contains keyword_lower content_lower));
      search_loop keyword_lower docs' (if hit : bool then results ++ [doc] else results)
  end.

Definition search_documents (keyword : string) (self : KnowledgeBase.t)
    : result (list pydict) :=
  let keyword_lower := lower keyword in
  search_loop keyword_lower (KnowledgeBase.documents self) [].

End KnowledgeBaseStore.

(** ** The document store, refactored: [src/src/knowledge_base.py] *)

Module RefactoredKnowledgeBase.

(** Here both fields are lower-cased before either is searched. *)
Fixpoint search_loop (keyword_lower : string) (docs results : list pydict)
    : result (list pydict) :=
  match docs with
  | [] => Ok results
  | doc :: docs' =>
      title ← str_lower (dict_get doc "title" (VStr EmptyString));
      content ← str_lower (dict_get doc "content" (VStr EmptyString));
      search_loop keyword_lower docs'
        (if contains keyword_lower title || contains keyword_lower content
         then results ++ [doc] else results)
  end.

Definition search_documents (keyword : string) (self : KnowledgeBase.t)
    : result (list pydict) :=
  let keyword_lower := lower keyword in
  search_loop keyword_lower (KnowledgeBase.documents self) [].

End RefactoredKnowledgeBase.

(** ** The chat turn of the application: [src/app.py] *)

Module App.

(** The display calls of Streamlit are not modelled; the session state is.
    [response_time] is what the clock gives for the turn. *)
Record metadata := {
  md_response_time : Qc;
  md_confidence : Qc;
  md_sources : list source
}.

Record message := {
  role : string;
  content : string;
  message_metadata : option metadata
}.

Record session_state := {
  messages : list message;
  rag_system : SimpleRAGSystem.t;
  metrics : MetricsTracker.t
}.

(** What the [try] of the chat turn can raise: an exception of the RAG
    system, or [NameError] for a name that is not bound. *)
Inductive raised :=
| FromRAG (e : exn)
| NameError (name : string).

(** [str(e)]; the message of an exception of the RAG system is carried only
    by [Exception]. *)
Definition str (e : raised) : string :=
  match e with
  | NameError name => "name '" +:+ name +:+ "' is not defined"
  | FromRAG (Exception msg) => msg
  | FromRAG _ => EmptyString
  end.

(** The names the script can have bound when the [try] block runs: its
    imports and its assignments up to there. The [e] of [except Exception as
    e] is bound in the handler only. *)
Definition bound_names : list string :=
  ["st"; "json"; "datetime"; "pd"; "SimpleRAGSystem"; "MetricsTracker"; "time";
   "metrics_data"; "col1"; "col2"; "message"; "metadata"; "i"; "source";
   "prompt"; "start_time"; "response_data"; "response_time"].

Definition name_bound (name : string) : bool := bool_decide (name ∈ bound_names).

(** The body of the [try]: the state it leaves and the exception it raised,
    if any. *)
Definition try_body (prompt : string) (response_time : Qc) (st : session_state)
    : option raised * session_state :=
  let '(response_data, rag) := SimpleRAGSystem.get_response prompt (rag_system st) in
  let st := {| messages := messages st; rag_system := rag; metrics := metrics st |} in
  match response_data with
  | Raise e => (Some (FromRAG e), st)
  | Ok response_data =>
      let metadata :=
        {| md_response_time := response_time;
           md_confidence := confidence response_data;
           md_sources := sources response_data |} in
      let st :=
        {| messages := messages st ++
             [{| role := "assistant"; content := answer response_data;
                 message_metadata := Some metadata |}];
           rag_system := rag_system st; metrics := metrics st |} in
      (* error_message = f"... Error: {str(e)}" *)
      if name_bound "e" then
        let st :=
          {| messages := messages st; rag_system := rag_system st;
             metrics := MetricsTracker.add_interaction prompt (answer response_data)
                          response_time (confidence response_data)
                          (Z.of_nat (length (sources response_data))) (metrics st) |} in
        (None, st)
      else (Some (NameError "e"), st)
  end.

Definition chat_turn (prompt : string) (response_time : Qc) (st : session_state)
    : session_state :=
  let st :=
    {| messages := messages st ++
         [{| role := "user"; content := prompt; message_metadata := None |}];
       rag_system := rag_system st; metrics := metrics st |} in
  let '(exception, st) := try_body prompt response_time st in
  match exception with
  | None => st
  | Some e =>
      let error_message :=
        "I apologize, but I'm experiencing technical difficulties. Please try again later. Error: "
        +:+ str e in
      {| messages := messages st ++
           [{| role := "assistant"; content := error_message; message_metadata := None |}];
         rag_system := rag_system st; metrics := metrics st |}
  end.

(** A conversation: one turn per prompt, each with its response time. *)
Definition conversation (turns : list (string * Qc)) (st : session_state) : session_state :=
  foldl (λ st turn, chat_turn turn.1 turn.2 st) st turns.

End App.

(** ** Notions used to state the further properties *)

Module Derived.

(** The source entry that a response lists for one retrieved document. *)
Definition source_of (doc : pydict) : source :=
  {| source_title := default VOther (doc !! "title");
     source_score := default VOther (doc !! "score");
     source_category := dict_get doc "category" (VStr "General") |}.

(** A source entry whose score is a number above zero. *)
Definition positive_score (s : source) : Prop :=
  ∃ q, source_score s = VNum q ∧ (0 < q)%Qc.

(** The response built from an answer of the endpoint when nothing was
    retrieved. *)
Definition ungrounded (answer : string) : response :=
  {| answer := answer; confidence := 0%Qc; sources := [] |}.

(** The facts that hold of every response of a lexical system. *)
Definition sound_response (r : response) : Prop :=
  (0 ≤ confidence r ≤ 1)%Qc ∧
  (length (sources r) ≤ 3)%nat ∧
  (confidence r = 0%Qc ↔ sources r = []) ∧
  Forall positive_score (sources r).

(** A stored document that has content but no title. *)
Definition untitled (content : string) : pydict := {[ "content" := VStr content ]}.

Definition untitled_system : SimpleRAGSystem.t :=
  {| SimpleRAGSystem.openai_client := Examples.answering;
     SimpleRAGSystem.documents := [untitled "Refund policy"] |}.

End Derived.

(** ** Notions used to state the properties of the store, the metrics, the
    dense index and the chat turn *)

Module Scenario.

(** A stored document whose title and content, where present, are strings. *)
Definition searchable (doc : pydict) : Prop :=
  Spec.is_text (doc !! "title") = true ∧ Spec.is_text (doc !! "content") = true.

(** The keyword, lower-cased, occurs in the lower-cased title or content. *)
Definition matches (keyword : string) (doc : pydict) : bool :=
  contains (lower keyword) (Spec.field_lower doc "title")
  || contains (lower keyword) (Spec.field_lower doc "content").

(** The arguments of one call of [add_interaction]. *)
Record call := {
  call_query : string;
  call_response : string;
  call_time : Qc;
  call_confidence : Qc;
  call_sources : Z
}.

Definition record (self : MetricsTracker.t) (c : call) : MetricsTracker.t :=
  MetricsTracker.add_interaction (call_query c) (call_response c) (call_time c)
    (call_confidence c) (call_sources c) self.

(** The entry that [add_interaction] appends for one call. *)
Definition interaction_of (c : call) : MetricsTracker.interaction :=
  {| MetricsTracker.query := call_query c;
     MetricsTracker.response_text := call_response c;
     MetricsTracker.response_time := call_time c;
     MetricsTracker.i_confidence := call_confidence c;
     MetricsTracker.sources_count := call_sources c;
     MetricsTracker.resolved :=
       bool_decide (Qc_of_Z 7 / Qc_of_Z 10 < call_confidence c)%Qc
       && bool_decide (call_sources c > 0) |}.

(** The tracker after the calls of [log], in order, on a new tracker. *)
Definition recorded (log : list call) : MetricsTracker.t :=
  foldl record MetricsTracker.__init__ log.

(** The rule of [_estimate_resolution]. *)
Definition resolved_call (c : call) : Prop :=
  (Qc_of_Z 7 / Qc_of_Z 10 < call_confidence c)%Qc ∧ call_sources c > 0.

Global Instance resolved_call_dec (c : call) : Decision (resolved_call c).
Proof. unfold resolved_call. apply _. Defined.

(** The document that a hit of the index stands for, as
    [self.documents[idx]] reads it: none for position [-1], which the loop
    skips; else the stored document at that position, counted from the end
    of the list when the position is negative, with the score of the hit. *)
Definition hit_document (documents : list pydict) (hit : Qc * Z) : option pydict :=
  if decide (hit.2 = -1) then None
  else if decide (0 ≤ hit.2)
  then (λ doc, with_score doc hit.1) <$> documents !! Z.to_nat hit.2
  else if decide (- Z.of_nat (length documents) ≤ hit.2)
  then (λ doc, with_score doc hit.1)
         <$> documents !! Z.to_nat (Z.of_nat (length documents) + hit.2)
  else None.

(** A hit that the loop can resolve: [-1], or a position that the list of
    documents has, from the front or from the end. *)
Definition in_range (documents : list pydict) (hit : Qc * Z) : Prop :=
  hit.2 = -1 ∨ - Z.of_nat (length documents) ≤ hit.2 < Z.of_nat (length documents).

(** A hit that makes [self.documents[idx]] raise. *)
Definition out_of_range (documents : list pydict) (hit : Qc * Z) : Prop :=
  hit.2 ≠ -1 ∧
  (Z.of_nat (length documents) ≤ hit.2 ∨ hit.2 < - Z.of_nat (length documents)).

(** The session state that [src/app.py] sets up on the first run. *)
Definition initial (rag : SimpleRAGSystem.t) : App.session_state :=
  {| App.messages := []; App.rag_system := rag; App.metrics := MetricsTracker.__init__ |}.

(** The three messages that one chat turn appends. *)
Definition turn_messages (prompt : string) (response_time : Qc) (r : response)
    : list App.message :=
  [ {| App.role := "user"; App.content := prompt; App.message_metadata := None |};
    {| App.role := "assistant"; App.content := answer r;
       App.message_metadata :=
         Some {| App.md_response_time := response_time;
                 App.md_confidence := confidence r;
                 App.md_sources := sources r |} |};
    {| App.role := "assistant";
       App.content :=
         "I apologize, but I'm experiencing technical difficulties. Please try again later. Error: name 'e' is not defined";
       App.message_metadata := None |} ].

(** An embedding model that fails on one text and embeds every other text as
    one fixed vector; an index whose search reports one hit at a fixed
    position. *)
Definition failing_on (text : string) (position : Z) : DenseRAGSystem.externals :=
  {| DenseRAGSystem.encode := λ texts,
       if decide (texts = [VStr text]) then Raise (Exception "out of memory")
       else Ok ((λ _, [1%Qc]) <$> texts);
     DenseRAGSystem.search := λ _ _ _, Ok [(1%Qc, position)] |}.

Definition one_document_index : DenseRAGSystem.t :=
  {| DenseRAGSystem.openai_client := Examples.answering;
     DenseRAGSystem.index := Some [[1%Qc]];
     DenseRAGSystem.documents := [Examples.reset_password] |}.

(** A stored document whose content is a number. *)
Definition numbered : pydict :=
  {[ "title" := VStr "Refund policy"; "content" := VNum (Qc_of_Z 30) ]}.

(** Three answers: one resolved, one of low confidence, one without
    sources. *)
Definition three_calls : list call :=
  [ {| call_query := "q1"; call_response := "a1"; call_time := 1%Qc;
       call_confidence := (Qc_of_Z 9 / Qc_of_Z 10)%Qc; call_sources := 2 |};
    {| call_query := "q2"; call_response := "a2"; call_time := Qc_of_Z 2;
       call_confidence := (Qc_of_Z 1 / Qc_of_Z 2)%Qc; call_sources := 3 |};
    {| call_query := "q3"; call_response := "a3"; call_time := Qc_of_Z 3;
       call_confidence := 1%Qc; call_sources := 0 |} ].

End Scenario.

(** ** The collection as the interpreter holds it *)

Module Objects.

(** [self.documents] is a list of references to [dict] objects, the loops
    of the retrievers bind [doc] to one of these references, and
    [doc.copy()] makes a new object. A heap is the list of the objects made
    so far, and a reference is the position of its object in it. Both
    lexical files run the same statements on the heap; they differ in the
    total they compute for one document. *)
Abbreviation ref := nat.
Abbreviation heap := (list pydict).

(** The object behind a reference. Every reference that the code holds has
    an object, so the default is not read. *)
Definition get (h : heap) (r : ref) : pydict := default ∅ (h !! r).

(** [doc.copy()]: a new object with the items of [doc]. *)
Definition copy (r : ref) (h : heap) : ref * heap := (length h, h ++ [get h r]).

(** [d[k] = v]: the object behind [d] is changed in place. *)
Definition setitem (r : ref) (k : string) (v : pyval) (h : heap) : heap :=
  alter (λ d : pydict, <[k := v]> d) r h.

(** [[
    for doc in self.documents:
        total_score = ...
        if total_score > 0:
            doc_copy = doc.copy()
            doc_copy['score'] = total_score / max(len(query_words), 1)
            scored_docs.append(doc_copy)
]]
    The heap is returned as the loop leaves it, also when [total_score]
    raises. *)
Fixpoint score_loop (total_score : pydict → result Z) (query_words : gset string)
    (docs scored_docs : list ref) (h : heap) : result (list ref) * heap :=
  match docs with
  | [] => (Ok scored_docs, h)
  | doc :: docs' =>
      match total_score (get h doc) with
      | Raise e => (Raise e, h)
      | Ok total =>
          if decide (total > 0) then
            let '(doc_copy, h) := copy doc h in
            let h := setitem doc_copy "score" (VNum (normalized total query_words)) h in
            score_loop total_score query_words docs' (scored_docs ++ [doc_copy]) h
          else score_loop total_score query_words docs' scored_docs h
      end
  end.

(** [[
    scored_docs.sort(key=lambda x: x['score'], reverse=True)
    return scored_docs[:top_k]
]]
    The list sorted in place is the local list of references; the keys are
    read from the objects. *)
Definition sort_and_cut (scored_docs : list ref) (top_k : Z) (h : heap)
    : result (list ref) :=
  scored_docs ← sort_by_key_reverse (λ x, score_key (get h x)) scored_docs;
  Ok (slice_to scored_docs top_k).

(** The [try] of a lexical retriever and the [except] around it, which
    returns a new empty list. *)
Definition retrieve (total_score : gset string → pydict → result Z)
    (documents : list ref) (query : string) (top_k : Z) (h : heap)
    : result (list ref) * heap :=
  let query_words := word_set (lower query) in
  let '(scored_docs, h) :=
    score_loop (total_score query_words) query_words documents [] h in
  (try_except (scored_docs ← scored_docs; sort_and_cut scored_docs top_k h)
     (λ _, Ok []), h).

(** [SimpleRAGSystem._retrieve_relevant_documents] of
    [src/simple_rag_system.py]. *)
Definition _retrieve_relevant_documents (documents : list ref) (query : string)
    (top_k : Z) (h : heap) : result (list ref) * heap :=
  retrieve SimpleRAGSystem.total_score documents query top_k h.

(** [RAGSystem._retrieve_documents] of [src/src/rag_system.py]; the list it
    walks is the one [get_all_documents] returns, [self.documents] of the
    store itself. *)
Definition _retrieve_documents (documents : list ref) (query : string)
    (top_k : Z) (h : heap) : result (list ref) * heap :=
  retrieve RAGSystem.total_score documents query top_k h.

End Objects.
(** ** Arithmetic on [Qc] through the underlying [Q] *)

Lemma Qc_eq_Qeq (a b : Qc) : a = b ↔ (this a == this b)%Q.
Proof. split; [by intros ->|apply Qc_is_canon]. Qed.

Lemma this_mult (a b : Qc) : (this (a * b)%Qc == this a * this b)%Q.
Proof. apply Qred_correct. Qed.

Lemma this_plus (a b : Qc) : (this (a + b)%Qc == this a + this b)%Q.
Proof. apply Qred_correct. Qed.

Lemma this_inv (a : Qc) : (this (/ a)%Qc == / this a)%Q.
Proof. apply Qred_correct. Qed.

Lemma this_div (a b : Qc) : (this (a / b)%Qc == this a / this b)%Q.
Proof. unfold Qcdiv. by rewrite this_mult, this_inv. Qed.

Lemma this_of_Z (n : Z) : this (Qc_of_Z n) = inject_Z n.
Proof. done. Qed.

Ltac qc_arith :=
  rewrite ?Qc_eq_Qeq in *; unfold Qclt, Qcle in *;
  repeat (rewrite this_mult in * || rewrite this_plus in * || rewrite this_div in *
          || rewrite this_inv in * || rewrite this_of_Z in *);
  cbn [this Q2Qc] in *; unfold inject_Z, Qdiv in *; cbn [Qinv Qnum Qden] in *;
  change (Qred 0) with 0%Q in *; change (Qred 1) with 1%Q in *;
  lra.

(** Closed equations on [Qc] by computation. *)
Ltac qc_compute := apply Qc_is_canon; vm_compute; reflexivity.

(** ** Confidence *)

Section confidence.

Local Open Scope Qc_scope.


Lemma clamp_code_spec (x : Qc) : min_ 1 (max_ 0 x) = Spec.clamp_unit x.
Proof.
  unfold min_, max_, Spec.clamp_unit.
  repeat case_decide; try done; qc_arith.
Qed.

Lemma clamp_unit_range (x : Qc) : 0 ≤ Spec.clamp_unit x ≤ 1.
Proof.
  unfold Spec.clamp_unit. repeat case_decide; split; qc_arith.
Qed.

Lemma weight_at_position (i : nat) : weight_at i = Spec.position_weight i.
Proof.
  do 3 (destruct i as [|i]; [apply Qc_is_canon; vm_compute; reflexivity|]).
  unfold weight_at. rewrite decide_False; [done|simpl; lia].
Qed.

Lemma position_weight_pos (i : nat) : 0 < Spec.position_weight i.
Proof. do 3 (destruct i as [|i]; [vm_compute; reflexivity|]). vm_compute; reflexivity. Qed.

Lemma dict_item_with_score (doc : pydict) (q : Qc) :
  dict_item (with_score doc q) "score" = Ok (VNum q).
Proof. unfold dict_item, with_score. by rewrite lookup_insert_eq. Qed.

Lemma score_key_with_score (doc : pydict) (q : Qc) :
  score_key (with_score doc q) = Ok q.
Proof. unfold score_key. by rewrite dict_item_with_score. Qed.

Lemma sum_weights_nonneg (i : nat) (l : list Qc) :
  0 ≤ Spec.sum_from (λ j _, Spec.position_weight j) i l.
Proof.
  revert i. induction l as [|s l IH]; intros i; simpl; [done|].
  apply Qcplus_nonneg_nonneg; [|apply IH].
  apply Qclt_le_weak, position_weight_pos.
Qed.

Lemma sum_weights_pos (i : nat) (s : Qc) (l : list Qc) :
  0 < Spec.sum_from (λ j _, Spec.position_weight j) i (s :: l).
Proof.
  simpl. apply Qcplus_pos_nonneg; [apply position_weight_pos|].
  apply sum_weights_nonneg.
Qed.

(** The loop adds, to what it has accumulated, the two sums of the formula. *)
Lemma confidence_loop_sums (cap : Qc → Qc) (l : list (pydict * Qc)) :
  ∀ (i : nat) (ws tw : Qc),
    confidence_loop cap i (Spec.scored_documents l) ws tw =
    Ok (ws + Spec.sum_from (λ j s, cap s * Spec.position_weight j) i l.*2,
        tw + Spec.sum_from (λ j _, Spec.position_weight j) i l.*2).
Proof.
  induction l as [|[doc q] l IH]; intros i ws tw; simpl.
  - by rewrite !Qcplus_0_r.
  - rewrite dict_item_with_score. simpl.
    rewrite IH, weight_at_position, !Qcplus_assoc. done.
Qed.

Lemma slice_to_take {A} (l : list A) (k : Z) :
  (0 ≤ k)%Z → slice_to l k = take (Z.to_nat k) l.
Proof. intros. unfold slice_to. by rewrite decide_True. Qed.

Lemma scored_documents_take (n : nat) (l : list (pydict * Qc)) :
  take n (Spec.scored_documents l) = Spec.scored_documents (take n l).
Proof. unfold Spec.scored_documents. by rewrite fmap_take. Qed.

(** The estimator, on any ranked list, computes the formula. *)
Lemma calculate_confidence_formula (cap : Qc → Qc) (l : list (pydict * Qc)) :
  calculate_confidence cap (Spec.scored_documents l) = Ok (Spec.confidence_of cap l.*2).
Proof.
  destruct l as [|[doc q] l]; [done|].
  unfold calculate_confidence, Spec.confidence_of.
  change (Spec.scored_documents ((doc, q) :: l))
    with (with_score doc q :: Spec.scored_documents l) at 1.
  cbv beta iota.
  rewrite slice_to_take by lia.
  rewrite scored_documents_take, confidence_loop_sums.
  rewrite <- fmap_take. simpl.
  rewrite !Qcplus_0_l.
  rewrite decide_True; [by rewrite clamp_code_spec|].
  apply (sum_weights_pos 0 q).
Qed.

(** Where no top score exceeds 1, capping changes nothing. *)
Lemma sum_from_cap_id (i : nat) (l : list Qc) :
  Forall (λ s, s ≤ 1) l →
  Spec.sum_from (λ j s, Spec.at_most_one s * Spec.position_weight j) i l =
  Spec.sum_from (λ j s, s * Spec.position_weight j) i l.
Proof.
  intros H. revert i. induction H as [|s l Hs _ IH]; intros i; simpl; [done|].
  rewrite IH. unfold Spec.at_most_one.
  rewrite decide_False; [done|]. by apply Qcle_not_lt.
Qed.

Lemma confidence_cap_id (l : list Qc) :
  Forall (λ s, s ≤ 1) (take 3 l) →
  Spec.confidence_of (λ s, s) l = Spec.confidence_of Spec.at_most_one l.
Proof.
  intros H. unfold Spec.confidence_of. destruct l; [done|].
  by rewrite sum_from_cap_id.
Qed.

(** C5 (as amended). On every ranked list the two lexical estimators return
    the weighted average of the top three scores, each capped at 1, with
    position weights 1, 0.7 and 0.5, clamped to [0,1]. The dense estimator
    returns the same average of the scores as they are, uncapped; where none
    of the top three scores exceeds 1 the two values are equal. *)
Theorem confidence_weighted_average (l : list (pydict * Qc)) :
  SimpleRAGSystem._calculate_confidence (Spec.scored_documents l)
    = Ok (Spec.confidence_of Spec.at_most_one l.*2) ∧
  RAGSystem._calculate_confidence (Spec.scored_documents l)
    = Ok (Spec.confidence_of Spec.at_most_one l.*2) ∧
  DenseRAGSystem._calculate_confidence (Spec.scored_documents l)
    = Ok (Spec.confidence_of (λ s, s) l.*2) ∧
  (Forall (λ s, s ≤ 1) (take 3 l.*2) →
   DenseRAGSystem._calculate_confidence (Spec.scored_documents l)
     = Ok (Spec.confidence_of Spec.at_most_one l.*2)).
Proof.
  split_and!.
  - exact (calculate_confidence_formula (λ s, min_ s 1) l).
  - exact (calculate_confidence_formula (λ s, min_ s 1) l).
  - exact (calculate_confidence_formula (λ s, s) l).
  - intros Hle. rewrite <- confidence_cap_id by done.
    exact (calculate_confidence_formula (λ s, s) l).
Qed.

Lemma confidence_weighted_average_witness :
  Forall (λ s, s ≤ 1) (take 3 [1 / 2; Qc_of_Z 1 / Qc_of_Z 4]) ∧
  DenseRAGSystem._calculate_confidence
    (Spec.scored_documents [(∅, 1 / 2); (∅, Qc_of_Z 1 / Qc_of_Z 4)])
  = Ok (Spec.confidence_of Spec.at_most_one [1 / 2; Qc_of_Z 1 / Qc_of_Z 4]).
Proof.
  assert (H : Forall (λ s, s ≤ 1) (take 3 [1 / 2; Qc_of_Z 1 / Qc_of_Z 4])).
  { repeat constructor; vm_compute; discriminate. }
  split; [exact H|].
  exact (proj2 (proj2 (proj2
    (confidence_weighted_average [(∅, 1 / 2); (∅, Qc_of_Z 1 / Qc_of_Z 4)]))) H).
Defined.

(** C5, the claim as stated, fails for the dense estimator: on the scores
    2 and 0 the capped formula gives 10/17, the dense code gives 1. *)
Lemma dense_confidence_not_capped :
  let docs := Spec.scored_documents [(∅, Qc_of_Z 2); (∅, 0)] in
  DenseRAGSystem._calculate_confidence docs = Ok 1 ∧
  Spec.confidence_of Spec.at_most_one [Qc_of_Z 2; 0] = Qc_of_Z 10 / Qc_of_Z 17 ∧
  DenseRAGSystem._calculate_confidence docs
    ≠ Ok (Spec.confidence_of Spec.at_most_one [Qc_of_Z 2; 0]).
Proof.
  assert (Hd : DenseRAGSystem._calculate_confidence
                 (Spec.scored_documents [(∅, Qc_of_Z 2); (∅, 0)]) = Ok 1).
  { vm_compute. reflexivity. }
  assert (Hs : Spec.confidence_of Spec.at_most_one [Qc_of_Z 2; 0] = Qc_of_Z 10 / Qc_of_Z 17).
  { apply Qc_is_canon. vm_compute. reflexivity. }
  cbv zeta. split_and!; [exact Hd|exact Hs|].
  rewrite Hd, Hs. intros [=Heq].
Qed.

(** C6. Whatever the scores and the length of the ranked list, each of the
    three estimators returns a confidence, and it lies in [0,1]; on the
    empty list it is 0. *)
Theorem confidence_in_unit_interval (l : list (pydict * Qc)) :
  (∃ c, SimpleRAGSystem._calculate_confidence (Spec.scored_documents l) = Ok c ∧ 0 ≤ c ≤ 1) ∧
  (∃ c, RAGSystem._calculate_confidence (Spec.scored_documents l) = Ok c ∧ 0 ≤ c ≤ 1) ∧
  (∃ c, DenseRAGSystem._calculate_confidence (Spec.scored_documents l) = Ok c ∧ 0 ≤ c ≤ 1) ∧
  SimpleRAGSystem._calculate_confidence [] = Ok 0 ∧
  RAGSystem._calculate_confidence [] = Ok 0 ∧
  DenseRAGSystem._calculate_confidence [] = Ok 0.
Proof.
  assert (Hrange : ∀ cap, 0 ≤ Spec.confidence_of cap l.*2 ≤ 1).
  { intros cap. unfold Spec.confidence_of.
    destruct (l.*2); [split; qc_arith|apply clamp_unit_range]. }
  split_and!; try done.
  - eexists. split; [exact (calculate_confidence_formula (λ s, min_ s 1) l)|apply Hrange].
  - eexists. split; [exact (calculate_confidence_formula (λ s, min_ s 1) l)|apply Hrange].
  - eexists. split; [exact (calculate_confidence_formula (λ s, s) l)|apply Hrange].
Qed.

End confidence.

(** ** Metrics *)

Section metrics.

Import MetricsTracker Spec Examples.
Local Open Scope Qc_scope.

Lemma accuracy_of_recorded (self : MetricsTracker.t) :
  interactions self ≠ [] →
  accuracy (get_current_metrics self) =
    if decide (raw_accuracy self < Qc_of_Z 92)
    then min_ (Qc_of_Z 92) (raw_accuracy self * (Qc_of_Z 12 / Qc_of_Z 10))
    else raw_accuracy self.
Proof.
  intros Hne. unfold get_current_metrics, raw_accuracy.
  destruct (interactions self) as [|i l] eqn:E; done.
Qed.

Lemma boost_differs (raw : Qc) :
  raw < Qc_of_Z 92 → raw ≠ 0 →
  min_ (Qc_of_Z 92) (raw * (Qc_of_Z 12 / Qc_of_Z 10)) ≠ raw.
Proof.
  intros Hlt Hne. unfold min_. case_decide; intros Heq; apply Hne; qc_arith.
Qed.

Lemma boost_at_most (raw : Qc) :
  min_ (Qc_of_Z 92) (raw * (Qc_of_Z 12 / Qc_of_Z 10)) ≤ Qc_of_Z 92.
Proof. unfold min_. case_decide; qc_arith. Qed.

Lemma boost_zero : min_ (Qc_of_Z 92) (0 * (Qc_of_Z 12 / Qc_of_Z 10)) = 0.
Proof. qc_compute. Qed.

(** C10 (as amended). With no interaction recorded the metrics are the
    defaults, accuracy 92 and resolution rate 65. With interactions recorded
    and an average confidence percentage below 92, the reported accuracy is
    that percentage times 1.2, capped at 92; it then differs from the raw
    percentage unless the raw percentage is 0, where it is 0 too. *)
Theorem accuracy_boosted (self : MetricsTracker.t) :
  (interactions self = [] →
     accuracy (get_current_metrics self) = Qc_of_Z 92 ∧
     resolution_rate (get_current_metrics self) = Qc_of_Z 65) ∧
  (interactions self ≠ [] → raw_accuracy self < Qc_of_Z 92 →
     accuracy (get_current_metrics self)
       = min_ (Qc_of_Z 92) (raw_accuracy self * (Qc_of_Z 12 / Qc_of_Z 10)) ∧
     accuracy (get_current_metrics self) ≤ Qc_of_Z 92 ∧
     (raw_accuracy self ≠ 0 → accuracy (get_current_metrics self) ≠ raw_accuracy self) ∧
     (raw_accuracy self = 0 → accuracy (get_current_metrics self) = 0)).
Proof.
  split.
  - intros E. unfold get_current_metrics. by rewrite E.
  - intros Hne Hlt. rewrite accuracy_of_recorded by done.
    rewrite decide_True by done.
    split_and!; [done|apply boost_at_most|by apply boost_differs|].
    intros ->. apply boost_zero.
Qed.

Lemma accuracy_boosted_witness :
  interactions one_half ≠ [] ∧ raw_accuracy one_half < Qc_of_Z 92 ∧
  accuracy (get_current_metrics one_half) = Qc_of_Z 60 ∧
  accuracy (get_current_metrics one_half) ≠ raw_accuracy one_half.
Proof.
  assert (Hne : interactions one_half ≠ []) by (vm_compute; discriminate).
  assert (Hlt : raw_accuracy one_half < Qc_of_Z 92) by (vm_compute; reflexivity).
  destruct (accuracy_boosted one_half) as [_ H].
  destruct (H Hne Hlt) as (Hacc & _ & Hdiff & _).
  split_and!; [exact Hne|exact Hlt| |].
  - rewrite Hacc. qc_compute.
  - apply Hdiff. rewrite Qc_eq_Qeq. vm_compute. discriminate.
Defined.

(** C10, the claim as stated, fails: after one answer of confidence 0 the
    raw percentage is 0, below 92, and the reported accuracy is that raw
    percentage. *)
Lemma accuracy_raw_at_zero :
  interactions one_fallback ≠ [] ∧
  raw_accuracy one_fallback < Qc_of_Z 92 ∧
  accuracy (get_current_metrics one_fallback) = raw_accuracy one_fallback.
Proof.
  split_and!.
  - vm_compute. discriminate.
  - vm_compute. reflexivity.
  - qc_compute.
Qed.

End metrics.

(** ** The orchestrator: totality and fallback *)

Section orchestrator.

Lemma simple_retrieve_returns (self : SimpleRAGSystem.t) (query : string) (top_k : Z) :
  ∃ docs,
    SimpleRAGSystem._retrieve_relevant_documents query top_k self = (Ok docs, self) ∧
    (SimpleRAGSystem.retrieve_body (SimpleRAGSystem.documents self) query top_k = Ok docs ∨
     (∃ e, SimpleRAGSystem.retrieve_body (SimpleRAGSystem.documents self) query top_k
           = Raise e) ∧ docs = []).
Proof.
  unfold SimpleRAGSystem._retrieve_relevant_documents.
  destruct (SimpleRAGSystem.retrieve_body _ _ _); simpl; eauto 6.
Qed.




(** When the call that the generation stage makes fails, the stage
    raises. *)
Lemma simple_generate_raises (client : chat_client) (query : string) (docs : list pydict)
    (context : string) (e : exn) :
  SimpleRAGSystem.context_of docs = Ok context →
  client (SimpleRAGSystem.request_of context query) = Raise e →
  SimpleRAGSystem.generate_body client query docs = Raise e.
Proof.
  intros Hcontext Hfail. unfold SimpleRAGSystem.generate_body.
  rewrite Hcontext. cbn [mbind result_bind]. by rewrite Hfail.
Qed.

(** C4. Whenever the chat-completion call that [_generate_response] makes
    fails, whatever the query and the retrieved documents the request was
    built from, [_generate_response] returns the one fixed fallback: its
    apology text, confidence 0 and no sources. So does [get_response] when
    these documents are the ones it retrieved. Nothing of the failed run,
    neither the retrieved documents nor the exception, is in the response. *)
Theorem generation_failure_fallback (self : SimpleRAGSystem.t) (query : string)
    (context_docs : list pydict) (context : string) (e : exn) :
  SimpleRAGSystem.context_of context_docs = Ok context →
  SimpleRAGSystem.openai_client self (SimpleRAGSystem.request_of context query) = Raise e →
  SimpleRAGSystem._generate_response query context_docs self
    = (Ok SimpleRAGSystem.generation_fallback, self) ∧
  (SimpleRAGSystem._retrieve_relevant_documents query 3 self = (Ok context_docs, self) →
   SimpleRAGSystem.get_response query self
     = (Ok SimpleRAGSystem.generation_fallback, self)) ∧
  answer SimpleRAGSystem.generation_fallback
    = "I apologize, but I'm experiencing technical difficulties. Please try again later or contact our human support team." ∧
  confidence SimpleRAGSystem.generation_fallback = 0%Qc ∧
  sources SimpleRAGSystem.generation_fallback = [].
Proof.
  intros Hcontext Hfail.
  assert (Hgen : SimpleRAGSystem._generate_response query context_docs self
                 = (Ok SimpleRAGSystem.generation_fallback, self)).
  { unfold SimpleRAGSystem._generate_response.
    by rewrite (simple_generate_raises _ query context_docs context e Hcontext Hfail). }
  split_and!; [exact Hgen| |reflexivity|reflexivity|reflexivity].
  intros Hretrieved. unfold SimpleRAGSystem.get_response.
  rewrite Hretrieved, Hgen. reflexivity.
Qed.

End orchestrator.

Section orchestrator_examples.

Import Examples.

Lemma generation_failure_fallback_witness :
  SimpleRAGSystem.openai_client busy_system
    (SimpleRAGSystem.request_of EmptyString "hello") = Ok "Use the forgot password link." ∧
  SimpleRAGSystem.get_response "how do I reset my password" busy_system
    = (Ok SimpleRAGSystem.generation_fallback, busy_system).
Proof.
  split; [vm_compute; reflexivity|].
  assert (Hrun : ∃ docs context,
            SimpleRAGSystem._retrieve_relevant_documents "how do I reset my password" 3
              busy_system = (Ok docs, busy_system) ∧
            SimpleRAGSystem.context_of docs = Ok context ∧
            SimpleRAGSystem.openai_client busy_system
              (SimpleRAGSystem.request_of context "how do I reset my password")
            = Raise APIError).
  { eexists. eexists. split; [vm_compute; reflexivity|].
    split; [vm_compute; reflexivity|]. vm_compute. reflexivity. }
  destruct Hrun as (docs & context & Hretrieved & Hcontext & Hfail).
  exact (proj1 (proj2 (generation_failure_fallback busy_system
                         "how do I reset my password" docs context APIError
                         Hcontext Hfail)) Hretrieved).
Defined.

End orchestrator_examples.

(** ** The empty collection *)

Section empty_collection.

Lemma sort_and_cut_nil (top_k : Z) : sort_and_cut [] top_k = Ok [].
Proof.
  unfold sort_and_cut, sort_by_key_reverse, slice_to. simpl.
  case_decide; by rewrite ?take_nil.
Qed.

Lemma simple_retrieve_nil (query : string) (top_k : Z) :
  SimpleRAGSystem.retrieve_body [] query top_k = Ok [].
Proof. unfold SimpleRAGSystem.retrieve_body. simpl. apply sort_and_cut_nil. Qed.

Lemma refactored_retrieve_nil (query : string) (top_k : Z) :
  RAGSystem.retrieve_body [] query top_k = Ok [].
Proof. unfold RAGSystem.retrieve_body. simpl. apply sort_and_cut_nil. Qed.

(** C7 (as amended). On an empty collection:
    - the refactored lexical system is constructed, and its retrieve returns
      the empty result for every query and every [top_k];
    - the constructor of [SimpleRAGSystem] raises "No documents found in
      knowledge base", as the constructor of the dense system does;
    - the retrieve of [SimpleRAGSystem], on an object whose document list is
      empty, returns the empty result for every query and every [top_k]. *)
Theorem empty_collection_behaviour (client : chat_client) :
  (∀ f, KnowledgeBase._load_data f = [] →
     ∃ sys, RAGSystem.__init__ client f = Ok sys ∧
       ∀ query top_k, RAGSystem._retrieve_documents query top_k sys = (Ok [], sys)) ∧
  (∀ kb, KnowledgeBase.get_all_documents kb = [] →
     SimpleRAGSystem.__init__ client kb
       = Raise (Exception "No documents found in knowledge base") ∧
     ∀ ext, DenseRAGSystem.__init__ ext client kb
       = Raise (Exception "No documents found in knowledge base")) ∧
  (∀ self, SimpleRAGSystem.documents self = [] →
     ∀ query top_k,
       SimpleRAGSystem._retrieve_relevant_documents query top_k self = (Ok [], self)).
Proof.
  split_and!.
  - intros f Hf. eexists. split; [reflexivity|].
    intros query top_k. unfold RAGSystem._retrieve_documents. simpl.
    unfold KnowledgeBase.get_all_documents, KnowledgeBase.__init__. simpl.
    by rewrite Hf, refactored_retrieve_nil.
  - intros kb Hkb. split.
    + unfold SimpleRAGSystem.__init__, SimpleRAGSystem._initialize_document_store.
      by rewrite Hkb.
    + intros ext.
      unfold DenseRAGSystem.__init__, DenseRAGSystem._initialize_vector_db.
      by rewrite Hkb.
  - intros self Hself query top_k.
    unfold SimpleRAGSystem._retrieve_relevant_documents.
    by rewrite Hself, simple_retrieve_nil.
Qed.

Import Examples.

Lemma empty_collection_behaviour_witness :
  KnowledgeBase._load_data KnowledgeBase.Missing = [] ∧
  KnowledgeBase.get_all_documents empty_store = [] ∧
  SimpleRAGSystem.documents empty_system = [] ∧
  (∃ sys, RAGSystem.__init__ answering KnowledgeBase.Missing = Ok sys ∧
     RAGSystem._retrieve_documents "refund" 3 sys = (Ok [], sys)) ∧
  SimpleRAGSystem.__init__ answering empty_store
    = Raise (Exception "No documents found in knowledge base") ∧
  SimpleRAGSystem._retrieve_relevant_documents "refund" 3 empty_system = (Ok [], empty_system).
Proof.
  destruct (empty_collection_behaviour answering) as (H1 & H2 & H3).
  split_and!; [reflexivity..| | |].
  - destruct (H1 KnowledgeBase.Missing eq_refl) as (sys & Hsys & Hret).
    exists sys. split; [exact Hsys|apply Hret].
  - exact (proj1 (H2 empty_store eq_refl)).
  - exact (H3 empty_system eq_refl "refund" 3).
Defined.

(** C7, the claim as stated, fails: on an empty collection the constructor
    of the lexical [SimpleRAGSystem] does not succeed. *)
Lemma simple_init_fails_on_empty :
  KnowledgeBase.get_all_documents empty_store = [] ∧
  ¬ ∃ sys, SimpleRAGSystem.__init__ answering empty_store = Ok sys.
Proof. split; [reflexivity|]. intros [sys H]. discriminate H. Qed.

End empty_collection.

(** ** The stable descending sort *)

Section sorting.

Context {A : Type}.
Implicit Types (x y : Qc * A) (l : list (Qc * A)).

Lemma insert_desc_perm x l : insert_desc x l ≡ₚ x :: l.
Proof.
  induction l as [|y l IH]; simpl; [done|].
  case_decide; [|done]. rewrite IH. apply Permutation_swap.
Qed.

Lemma sort_desc_perm l : sort_desc l ≡ₚ l.
Proof.
  induction l as [|x l IH]; simpl; [done|].
  by rewrite insert_desc_perm, IH.
Qed.

Lemma sort_desc_length l : length (sort_desc l) = length l.
Proof. by rewrite sort_desc_perm. Qed.

(** Sorting looks at the keys only. *)
Lemma insert_desc_fmap {B} (f : A → B) x l :
  insert_desc (prod_map id f x) (prod_map id f <$> l) = prod_map id f <$> insert_desc x l.
Proof.
  induction l as [|y l IH]; [done|].
  rewrite fmap_cons. cbn [insert_desc].
  change (prod_map id f x).1 with x.1. change (prod_map id f y).1 with y.1.
  case_decide; [|done]. by rewrite IH.
Qed.

Lemma sort_desc_fmap {B} (f : A → B) l :
  sort_desc (prod_map id f <$> l) = prod_map id f <$> sort_desc l.
Proof.
  induction l as [|x l IH]; [done|].
  rewrite fmap_cons. cbn [sort_desc]. by rewrite IH, insert_desc_fmap.
Qed.

Variable pos : A → nat.

Local Abbreviation ranked_before := (Spec.ranked_before pos).
Local Abbreviation came_before := (Spec.came_before pos).

Lemma ranked_before_key x y : ranked_before x y → (y.1 ≤ x.1)%Qc.
Proof. intros [H|[-> _]]; [by apply Qclt_le_weak|done]. Qed.

Lemma insert_desc_ranked x l :
  StronglySorted ranked_before l →
  Forall (came_before x) l →
  StronglySorted ranked_before (insert_desc x l).
Proof.
  induction l as [|y l IH]; simpl; intros Hs Hx.
  - repeat constructor.
  - apply StronglySorted_inv in Hs as [Hs Hy].
    apply Forall_cons in Hx as [Hxy Hx].
    case_decide as Hlt.
    + constructor; [by apply IH|].
      rewrite insert_desc_perm. constructor; [by left|done].
    + apply Qcnot_lt_le in Hlt.
      assert (Hyx : ranked_before x y).
      { destruct (Qcle_lt_or_eq _ _ Hlt) as [?|Heq]; [by left|by right]. }
      constructor; [by constructor|].
      constructor; [done|].
      rewrite Forall_forall in Hy, Hx |- *. intros z Hz.
      assert (Hzy := ranked_before_key _ _ (Hy z Hz)).
      assert (Hzx : (z.1 ≤ x.1)%Qc) by (by etrans).
      destruct (Qcle_lt_or_eq _ _ Hzx) as [?|Heq]; [by left|right].
      split; [done|]. by apply Hx.
Qed.

(** Stability: a list given in collection order comes out ranked. *)
Lemma sort_desc_ranked l :
  StronglySorted came_before l → StronglySorted ranked_before (sort_desc l).
Proof.
  induction l as [|x l IH]; simpl; intros Hs; [constructor|].
  apply StronglySorted_inv in Hs as [Hs Hx].
  apply insert_desc_ranked; [by apply IH|].
  by rewrite sort_desc_perm.
Qed.

Lemma ranked_before_asym x y : ranked_before x y → ranked_before y x → False.
Proof.
  intros [H1|[H1 H1']] [H2|[H2 H2']]; [qc_arith..|lia].
Qed.

(** In a ranked list the elements whose key is at least [q] come first:
    they are the first [n], [n] being their number. *)
Lemma ranked_split (q : Qc) l :
  StronglySorted ranked_before l →
  let n := length (filter (λ y, (q ≤ y.1)%Qc) l) in
  Forall (λ y, (q ≤ y.1)%Qc) (take n l) ∧ Forall (λ y, (y.1 < q)%Qc) (drop n l).
Proof.
  induction 1 as [|y l Hl IH Hy]; cbv zeta; [by split; constructor|].
  rewrite filter_cons. case_decide as Hq.
  - simpl. destruct IH as [IH1 IH2]. split; [by constructor|done].
  - apply Qcnot_le_lt in Hq.
    assert (Hall : Forall (λ z, (z.1 < q)%Qc) l).
    { eapply Forall_impl; [exact Hy|]. intros z Hz.
      eapply Qcle_lt_trans; [|exact Hq]. by eapply ranked_before_key. }
    assert (Hnone : filter (λ z, (q ≤ z.1)%Qc) l = []).
    { clear -Hall. induction Hall as [|z l Hz _ IHl]; [done|].
      rewrite filter_cons, decide_False; [done|]. by apply Qclt_not_le. }
    rewrite Hnone. simpl. split; [constructor|by constructor].
Qed.

(** Sorting a collection with one more element at its end: the new element
    goes behind the [n] elements whose key is at least its own, and nothing
    else moves. *)
Lemma sort_desc_snoc x l :
  StronglySorted came_before (l ++ [x]) →
  let n := length (filter (λ y, (x.1 ≤ y.1)%Qc) l) in
  sort_desc (l ++ [x]) = take n (sort_desc l) ++ x :: drop n (sort_desc l).
Proof.
  intros Hs n.
  pose proof Hs as Hsl. apply StronglySorted_app in Hsl as (Hlx & Hl & _).
  assert (Hn : n = length (filter (λ y, (x.1 ≤ y.1)%Qc) (sort_desc l))).
  { unfold n. by rewrite sort_desc_perm. }
  pose proof (ranked_split x.1 (sort_desc l) (sort_desc_ranked l Hl)) as Hsplit.
  cbv zeta in Hsplit. rewrite <- Hn in Hsplit. destruct Hsplit as [Habove Hbelow].
  assert (Hpos : ∀ y, y ∈ sort_desc l → came_before y x).
  { intros y Hy. apply Hlx; [|by left]. by rewrite <- (sort_desc_perm l). }
  apply (StronglySorted_unique_strong ranked_before).
  - intros a b _ _ Hab Hba. by destruct (ranked_before_asym a b).
  - by apply sort_desc_ranked.
  - pose proof (sort_desc_ranked l Hl) as Hranked.
    rewrite <- (take_drop n (sort_desc l)) in Hranked.
    apply StronglySorted_app in Hranked as (Hcross & Htake & Hdrop).
    apply StronglySorted_app. split_and!; [|done|].
    + intros a b Ha Hb. apply elem_of_cons in Hb as [->|Hb]; [|by apply Hcross].
      rewrite Forall_forall in Habove.
      destruct (Qcle_lt_or_eq _ _ (Habove a Ha)) as [?|Heq]; [by left|right].
      split; [done|]. apply Hpos. by eapply (subseteq_take n).
    + constructor; [done|].
      eapply Forall_impl; [exact Hbelow|]. intros b Hb. by left.
  - rewrite sort_desc_perm.
    rewrite <- (Permutation_middle (take n (sort_desc l)) (drop n (sort_desc l)) x).
    rewrite take_drop, sort_desc_perm.
    by rewrite Permutation_app_comm.
Qed.

Lemma StronglySorted_take {B} (R : B → B → Prop) (n : nat) (l : list B) :
  StronglySorted R l → StronglySorted R (take n l).
Proof.
  intros H. rewrite <- (take_drop n l) in H.
  by apply StronglySorted_app_1_l in H.
Qed.

End sorting.

(** ** Lexical retrieval *)

Section scoring.

Lemma str_lower_field (doc : pydict) (k : string) :
  Spec.is_text (doc !! k) = true →
  str_lower (dict_get doc k (VStr EmptyString)) = Ok (Spec.field_lower doc k).
Proof.
  unfold dict_get, Spec.field_lower. destruct (doc !! k) as [[s|q|]|]; simpl; done.
Qed.

(** The loop over the query words counts substring hits. *)
Lemma phrase_bonus_loop (content title : string) (words : list string) (acc : Z) :
  foldl (λ phrase_bonus word,
           let phrase_bonus :=
             if contains word content then phrase_bonus + 1 else phrase_bonus in
           if contains word title then phrase_bonus + 2 else phrase_bonus) acc words
  = acc + 1 * Z.of_nat (length (filter (λ word, contains word content = true) words))
        + 2 * Z.of_nat (length (filter (λ word, contains word title = true) words)).
Proof.
  revert acc. induction words as [|w words IH]; intros acc; simpl; [lia|].
  rewrite IH. rewrite !filter_cons.
  destruct (contains w content), (contains w title); simpl;
    repeat (case_decide; try done); simpl; lia.
Qed.

Lemma substring_count_elements (query_words : gset string) (text : string) :
  Spec.substring_count query_words text
  = Z.of_nat (length (filter (λ word, contains word text = true) (elements query_words))).
Proof.
  unfold Spec.substring_count, len_set, filter at 1, set_filter.
  rewrite size_list_to_set; [done|].
  apply NoDup_filter, NoDup_elements.
Qed.

Lemma phrase_bonus_formula (query_words : gset string) (doc : pydict) :
  SimpleRAGSystem.phrase_bonus query_words
    (Spec.field_lower doc "content") (Spec.field_lower doc "title")
  = Spec.phrase_bonus_of query_words doc.
Proof.
  unfold SimpleRAGSystem.phrase_bonus, Spec.phrase_bonus_of.
  rewrite phrase_bonus_loop, !substring_count_elements. lia.
Qed.

Lemma simple_total_score_formula (query_words : gset string) (doc : pydict) :
  Spec.well_formed doc →
  SimpleRAGSystem.total_score query_words doc = Ok (Spec.lexical_total query_words doc).
Proof.
  intros (Ht & Hc & Hg). unfold SimpleRAGSystem.total_score.
  rewrite !str_lower_field by done. simpl.
  rewrite phrase_bonus_formula. unfold Spec.lexical_total. f_equal. lia.
Qed.

Lemma refactored_total_score_formula (query_words : gset string) (doc : pydict) :
  Spec.well_formed doc →
  RAGSystem.total_score query_words doc = Ok (Spec.title_content_total query_words doc).
Proof.
  intros (Ht & Hc & Hg). unfold RAGSystem.total_score.
  rewrite !str_lower_field by done. simpl.
  unfold Spec.title_content_total. f_equal. lia.
Qed.

End scoring.

Section ranking.

Lemma normalized_pos (total : Z) (query_words : gset string) :
  (0 < normalized total query_words)%Qc ↔ 0 < total.
Proof.
  unfold normalized.
  assert (Hm : 0 < Z.max (len_set query_words) 1) by lia.
  destruct (Z.max (len_set query_words) 1) as [|p|p]; try lia.
  unfold Qclt. rewrite this_div, !this_of_Z.
  unfold Qlt, Qdiv, Qmult, Qinv, inject_Z. simpl. lia.
Qed.

Lemma normalized_not_pos (total : Z) (query_words : gset string) :
  (normalized total query_words ≤ 0)%Qc ↔ ¬ total > 0.
Proof. rewrite Qcle_ngt, normalized_pos. lia. Qed.

Lemma normalized_le (a b : Z) (query_words : gset string) :
  (normalized a query_words ≤ normalized b query_words)%Qc ↔ a ≤ b.
Proof.
  unfold normalized.
  assert (Hm : 0 < Z.max (len_set query_words) 1) by lia.
  destruct (Z.max (len_set query_words) 1) as [|p|p]; try lia.
  unfold Qcle. rewrite !this_div, !this_of_Z.
  unfold Qle, Qdiv, Qmult, Qinv, inject_Z. simpl. nia.
Qed.

Variable total_score : pydict → result Z.
Variable query_words : gset string.

Abbreviation trace := (Spec.score_trace total_score query_words).
Abbreviation position := (fst : nat * pydict → nat).
Abbreviation traced := Spec.traced.
Abbreviation came_before := Spec.came_before.
Abbreviation ranked_before := Spec.ranked_before.

(** The loop appends, to what it was given, the documents of its trace. *)
Lemma score_loop_trace (docs : list pydict) :
  ∀ (i : nat) (acc : list pydict),
    score_loop total_score query_words docs acc
    = (λ tr, acc ++ tr.*2.*2) <$> trace i docs.
Proof.
  induction docs as [|doc docs IH]; intros i acc; simpl.
  - by rewrite app_nil_r.
  - destruct (total_score doc) as [t|e]; simpl; [|done].
    case_decide.
    + rewrite (IH (S i)). destruct (trace (S i) docs); simpl; [|done].
      by rewrite <- app_assoc.
    + rewrite (IH (S i)). by destruct (trace (S i) docs).
Qed.

Lemma score_trace_entries (docs : list pydict) :
  ∀ (i : nat) tr, trace i docs = Ok tr →
    Forall (traced docs i) tr ∧ StronglySorted (came_before position) tr.
Proof.
  induction docs as [|doc docs IH]; intros i tr; simpl.
  - intros [= <-]. split; constructor.
  - destruct (total_score doc) as [t|e]; simpl; [|done].
    destruct (trace (S i) docs) as [rest|e] eqn:E; simpl; [|done].
    intros [= <-]. destruct (IH (S i) rest E) as [Hrest Hsorted].
    assert (Hshift : Forall (traced (doc :: docs) i) rest).
    { eapply Forall_impl; [exact Hrest|]. intros x (Hle & d & Hd & Hx).
      split; [lia|]. exists d. split; [|done].
      replace (x.2.1 - i)%nat with (S (x.2.1 - S i)) by lia. done. }
    case_decide; [|done]. split.
    + constructor; [|done]. split; [simpl; lia|].
      exists doc. simpl. by rewrite Nat.sub_diag.
    + constructor; [done|].
      eapply Forall_impl; [exact Hrest|]. intros x [Hle _].
      unfold Spec.came_before. simpl. lia.
Qed.

Lemma traced_score_key (docs : list pydict) (i : nat) tr :
  Forall (traced docs i) tr → comprehension score_key tr.*2.*2 = Ok tr.*1.
Proof.
  induction 1 as [|x tr (_ & doc & _ & Hx) _ IH]; [done|].
  rewrite !fmap_cons. cbn [comprehension].
  rewrite Hx, score_key_with_score, IH. done.
Qed.

Lemma zip_keys_docs (tr : list (Qc * (nat * pydict))) :
  zip tr.*1 tr.*2.*2 = prod_map id snd <$> tr.
Proof. induction tr as [|[q [p d]] tr IH]; [done|]. csimpl. f_equal. exact IH. Qed.

(** The sort and the cut, on what the loop produced. *)
Lemma sort_and_cut_trace (docs : list pydict) (i : nat) tr (top_k : Z) :
  Forall (traced docs i) tr →
  sort_and_cut tr.*2.*2 top_k = Ok (slice_to (sort_desc tr).*2.*2 top_k).
Proof.
  intros Htr. unfold sort_and_cut, sort_by_key_reverse.
  rewrite (traced_score_key docs i) by done. simpl.
  rewrite zip_keys_docs, sort_desc_fmap.
  do 2 f_equal. rewrite <- !list_fmap_compose. by apply list_fmap_ext.
Qed.

Lemma traced_entry_of (docs : list pydict) (x : Qc * (nat * pydict)) :
  traced docs 0 x → Spec.entry_of docs x.2.2 (x.1, x.2.1).
Proof.
  intros (_ & doc & Hdoc & Hx). exists doc. simpl.
  rewrite Nat.sub_0_r in Hdoc. done.
Qed.

(** What a lexical retrieve returns for a non-negative [top_k]: at most
    [top_k] entries of the collection, ranked. *)
Lemma rank_and_cut (docs : list pydict) (top_k : Z) (res : list pydict) :
  0 ≤ top_k →
  (scored_docs ← score_loop total_score query_words docs [];
   sort_and_cut scored_docs top_k) = Ok res →
  ∃ prov : list (Qc * nat),
    (length res ≤ Z.to_nat top_k)%nat ∧
    Forall2 (Spec.entry_of docs) res prov ∧
    StronglySorted Spec.ranks_before prov.
Proof.
  intros Hk. rewrite (score_loop_trace docs 0 []).
  destruct (trace 0%nat docs) as [tr|e] eqn:E; simpl; [|done].
  destruct (score_trace_entries docs 0 tr E) as [Htr Hsorted].
  rewrite (sort_and_cut_trace docs 0) by done.
  rewrite slice_to_take by done. intros [= <-].
  rewrite <- !fmap_take.
  exists ((λ x, (x.1, x.2.1)) <$> take (Z.to_nat top_k) (sort_desc tr)).
  split_and!.
  - rewrite !length_fmap, length_take. lia.
  - rewrite <- list_fmap_compose. apply Forall2_fmap, Forall_Forall2_diag.
    apply Forall_take. rewrite sort_desc_perm.
    eapply Forall_impl; [exact Htr|]. intros x Hx. by apply traced_entry_of.
  - apply (StronglySorted_fmap _ (ranked_before position)); [by intros x y|].
    by apply StronglySorted_take, sort_desc_ranked.
Qed.

(** With every total defined, the loop keeps the entries of positive
    score, in collection order. *)
Lemma score_loop_entries (total : pydict → Z) (docs : list pydict) :
  Forall (λ doc, total_score doc = Ok (total doc)) docs →
  ∀ acc, score_loop total_score query_words docs acc
         = Ok (acc ++ omap (Spec.ranked_entry total query_words) docs).
Proof.
  induction 1 as [|doc docs Hdoc _ IH]; intros acc; simpl.
  - by rewrite app_nil_r.
  - rewrite Hdoc. simpl. unfold Spec.ranked_entry at 1. cbv zeta.
    change (Spec.normalized_score (total doc) query_words)
      with (normalized (total doc) query_words).
    destruct (decide (total doc > 0)) as [Hpos|Hpos].
    + rewrite decide_False by (by rewrite normalized_not_pos; intros []).
      rewrite IH. by rewrite <- app_assoc.
    + rewrite decide_True by (by rewrite normalized_not_pos).
      apply IH.
Qed.

Lemma rank_and_cut_entries (total : pydict → Z) (docs : list pydict) (top_k : Z) :
  Forall (λ doc, total_score doc = Ok (total doc)) docs →
  ∃ ranked,
    (scored_docs ← score_loop total_score query_words docs [];
     sort_and_cut scored_docs top_k) = Ok (slice_to ranked top_k) ∧
    ranked ≡ₚ omap (Spec.ranked_entry total query_words) docs.
Proof.
  intros Hdocs. pose proof (score_loop_entries total docs Hdocs []) as Hloop.
  rewrite (score_loop_trace docs 0 []) in Hloop |- *.
  destruct (trace 0%nat docs) as [tr|e] eqn:E; simpl in Hloop |- *; [|done].
  injection Hloop as Hloop.
  destruct (score_trace_entries docs 0 tr E) as [Htr _].
  rewrite (sort_and_cut_trace docs 0) by done.
  eexists. split; [done|].
  rewrite <- Hloop. by rewrite sort_desc_perm.
Qed.

(** With no total above zero, the loop keeps nothing. *)
Lemma score_loop_none (docs : list pydict) :
  (∀ doc t, total_score doc = Ok t → ¬ t > 0) →
  ∀ acc, score_loop total_score query_words docs acc = Ok acc ∨
         ∃ e, score_loop total_score query_words docs acc = Raise e.
Proof.
  intros Hnone. induction docs as [|doc docs IH]; intros acc; simpl; [by left|].
  destruct (total_score doc) as [t|e] eqn:E; simpl; [|eauto].
  rewrite decide_False by (by eapply Hnone). apply IH.
Qed.

(** *** Retrieval after one more document *)

Lemma score_trace_snoc (docs : list pydict) (d : pydict) (t : Z) :
  total_score d = Ok t → t > 0 →
  ∀ (i : nat) tr, trace i docs = Ok tr →
    trace i (docs ++ [d])
    = Ok (tr ++ [(normalized t query_words,
                  ((i + length docs)%nat, with_score d (normalized t query_words)))]).
Proof.
  intros Hd Ht. induction docs as [|doc docs IH]; intros i tr; simpl.
  - intros [= <-]. rewrite Hd. simpl. rewrite decide_True by done.
    by rewrite Nat.add_0_r.
  - destruct (total_score doc) as [t'|e]; simpl; [|done].
    destruct (trace (S i) docs) as [rest|e] eqn:E; simpl; [|done].
    intros [= <-]. rewrite (IH (S i) rest E). simpl.
    rewrite Nat.add_succ_r. by case_decide.
Qed.

Lemma score_trace_defined (total : pydict → Z) (docs : list pydict) :
  Forall (λ doc, total_score doc = Ok (total doc)) docs →
  ∀ i, ∃ tr, trace i docs = Ok tr.
Proof.
  induction 1 as [|doc docs Hdoc _ IH]; intros i; simpl; [by eexists|].
  rewrite Hdoc. simpl. destruct (IH (S i)) as [rest ->]. simpl. by eexists.
Qed.

(** The entries whose key is at least that of total [t] are the documents
    whose total is at least [t]. *)
Lemma score_trace_count (total : pydict → Z) (docs : list pydict) (t : Z) :
  t > 0 →
  Forall (λ doc, total_score doc = Ok (total doc)) docs →
  ∀ i tr, trace i docs = Ok tr →
    length (filter (λ y, (normalized t query_words ≤ y.1)%Qc) tr)
    = length (filter (λ doc, t ≤ total doc) docs).
Proof.
  intros Ht. induction 1 as [|doc docs Hdoc _ IH]; intros i tr; simpl.
  - by intros [= <-].
  - rewrite Hdoc. simpl.
    destruct (trace (S i) docs) as [rest|e] eqn:E; simpl; [|done].
    intros [= <-]. specialize (IH (S i) rest E).
    rewrite (filter_cons _ doc). case_decide as Hpos.
    + rewrite filter_cons. simpl.
      destruct (decide (t ≤ total doc)) as [Hle|Hle].
      * rewrite decide_True by (by apply normalized_le). simpl. by rewrite IH.
      * rewrite decide_False by (by rewrite normalized_le). done.
    + rewrite decide_False by lia. done.
Qed.

Lemma retrieve_by_trace (docs : list pydict) (tr : list (Qc * (nat * pydict))) (top_k : Z) :
  trace 0%nat docs = Ok tr →
  (scored_docs ← score_loop total_score query_words docs [];
   sort_and_cut scored_docs top_k) = Ok (slice_to (sort_desc tr).*2.*2 top_k).
Proof.
  intros E. rewrite (score_loop_trace docs 0 []), E. simpl.
  destruct (score_trace_entries docs 0 tr E) as [Htr _].
  by apply (sort_and_cut_trace docs 0).
Qed.

(** One more document [d], of total above zero, at the end of the
    collection: let [n] be the number of earlier documents whose total is at
    least its own. If [n < top_k] the new document is result number [n]; if
    not, the result is what it was without [d]. *)
Lemma rank_after_append (total : pydict → Z) (docs : list pydict) (d : pydict) (top_k : Z) :
  0 ≤ top_k →
  Forall (λ doc, total_score doc = Ok (total doc)) (docs ++ [d]) →
  total d > 0 →
  let n := length (filter (λ doc, total d ≤ total doc) docs) in
  let retrieve := λ documents,
    (scored_docs ← score_loop total_score query_words documents [];
     sort_and_cut scored_docs top_k) in
  (Z.of_nat n < top_k → ∃ res,
     retrieve (docs ++ [d]) = Ok res ∧
     res !! n = Some (with_score d (normalized (total d) query_words))) ∧
  (top_k ≤ Z.of_nat n → retrieve (docs ++ [d]) = retrieve docs).
Proof.
  intros Hk Hall Hpos n retrieve.
  apply Forall_app in Hall as [Hdocs Hd]. apply Forall_inv in Hd.
  destruct (score_trace_defined total docs Hdocs 0) as [tr Htr].
  pose proof (score_trace_snoc docs d (total d) Hd Hpos 0 tr Htr) as Htr'.
  simpl in Htr'.
  set (x := (normalized (total d) query_words,
             (length docs, with_score d (normalized (total d) query_words)))) in *.
  assert (Hn : n = length (filter (λ y, (x.1 ≤ y.1)%Qc) tr)).
  { symmetry. by apply (score_trace_count total docs (total d) Hpos Hdocs 0). }
  destruct (score_trace_entries _ _ _ Htr') as [_ Hsorted].
  pose proof (sort_desc_snoc position x tr Hsorted) as Hsort.
  cbv zeta in Hsort. rewrite <- Hn in Hsort.
  assert (Hlen : (n ≤ length (sort_desc tr))%nat).
  { rewrite Hn, sort_desc_length. apply length_filter. }
  unfold retrieve.
  rewrite (retrieve_by_trace _ _ top_k Htr'), (retrieve_by_trace _ _ top_k Htr).
  rewrite !slice_to_take by done. rewrite Hsort. split.
  - intros Hlt. eexists. split; [done|].
    rewrite <- !fmap_take, !list_lookup_fmap.
    rewrite lookup_take_lt by lia.
    rewrite lookup_app_r by (rewrite length_take; lia).
    rewrite length_take_le by done. by rewrite Nat.sub_diag.
  - intros Hge. rewrite <- !fmap_take.
    rewrite take_app_le by (rewrite length_take; lia).
    rewrite take_take. do 4 f_equal. lia.
Qed.

End ranking.

(** ** The retrieval theorems *)

Section retrieval_theorems.

Import Examples.

Lemma len_set_empty_inter (words : gset string) : len_set (∅ ∩ words) = 0.
Proof. unfold len_set. by rewrite (left_absorb_L ∅ (∩)), size_empty. Qed.

Lemma substring_count_empty (text : string) : Spec.substring_count ∅ text = 0.
Proof.
  unfold Spec.substring_count, len_set.
  rewrite filter_empty_L by apply _. by rewrite size_empty.
Qed.

Lemma lexical_total_empty (doc : pydict) : Spec.lexical_total ∅ doc = 0.
Proof.
  unfold Spec.lexical_total, Spec.phrase_bonus_of.
  by rewrite !len_set_empty_inter, !substring_count_empty.
Qed.

Lemma title_content_total_empty (doc : pydict) : Spec.title_content_total ∅ doc = 0.
Proof. unfold Spec.title_content_total. by rewrite !len_set_empty_inter. Qed.

Lemma ranked_entry_none (total : pydict → Z) (query_words : gset string) (docs : list pydict) :
  (∀ doc, total doc = 0) → omap (Spec.ranked_entry total query_words) docs = [].
Proof.
  intros Hzero. induction docs as [|doc docs IH]; [done|].
  simpl. unfold Spec.ranked_entry at 1. cbv zeta.
  rewrite decide_True; [exact IH|].
  change (Spec.normalized_score ?t ?q) with (normalized t q).
  rewrite normalized_not_pos, Hzero. lia.
Qed.

Lemma slice_to_nil {A} (k : Z) : slice_to (@nil A) k = [].
Proof. unfold slice_to. case_decide; by rewrite ?take_nil. Qed.

(** On any collection, well-formed or not, a query without a token
    retrieves nothing. *)
Lemma simple_total_score_no_words (doc : pydict) (t : Z) :
  SimpleRAGSystem.total_score ∅ doc = Ok t → t = 0.
Proof.
  unfold SimpleRAGSystem.total_score.
  destruct (str_lower (dict_get doc "title" _)); simpl; [|done].
  destruct (str_lower (dict_get doc "content" _)); simpl; [|done].
  destruct (str_lower (dict_get doc "category" _)); simpl; [|done].
  intros [= <-]. rewrite !len_set_empty_inter.
  unfold SimpleRAGSystem.phrase_bonus. by rewrite elements_empty.
Qed.

Lemma refactored_total_score_no_words (doc : pydict) (t : Z) :
  RAGSystem.total_score ∅ doc = Ok t → t = 0.
Proof.
  unfold RAGSystem.total_score.
  destruct (str_lower (dict_get doc "title" _)); simpl; [|done].
  destruct (str_lower (dict_get doc "content" _)); simpl; [|done].
  intros [= <-]. by rewrite !len_set_empty_inter.
Qed.

Lemma no_token_no_result (query : string) (top_k : Z) :
  findall_w (lower query) = [] →
  (∀ self, SimpleRAGSystem._retrieve_relevant_documents query top_k self = (Ok [], self)) ∧
  (∀ self, RAGSystem._retrieve_documents query top_k self = (Ok [], self)).
Proof.
  intros Hnone.
  assert (Hempty : word_set (lower query) = ∅) by (unfold word_set; by rewrite Hnone).
  split; intros self.
  - unfold SimpleRAGSystem._retrieve_relevant_documents, SimpleRAGSystem.retrieve_body.
    cbv zeta. rewrite Hempty.
    destruct (score_loop_none (SimpleRAGSystem.total_score ∅) ∅
                (SimpleRAGSystem.documents self)) with (acc := @nil pydict)
      as [-> | [e ->]]; [|by rewrite (sort_and_cut_nil top_k : (Ok [] ≫= λ s, sort_and_cut s top_k) = Ok [])|done].
    intros doc t Ht. apply simple_total_score_no_words in Ht. lia.
  - unfold RAGSystem._retrieve_documents, RAGSystem.retrieve_body.
    cbv zeta. rewrite Hempty.
    destruct (score_loop_none (RAGSystem.total_score ∅) ∅
                (KnowledgeBase.get_all_documents (RAGSystem.knowledge_base self)))
      with (acc := @nil pydict)
      as [-> | [e ->]]; [|by rewrite (sort_and_cut_nil top_k : (Ok [] ≫= λ s, sort_and_cut s top_k) = Ok [])|done].
    intros doc t Ht. apply refactored_total_score_no_words in Ht. lia.
Qed.

Lemma str_lower_not_text (doc : pydict) (k : string) :
  Spec.is_text (doc !! k) = false →
  str_lower (dict_get doc k (VStr EmptyString)) = Raise AttributeError.
Proof. unfold dict_get. destruct (doc !! k) as [[s|q|]|]; simpl; done. Qed.

Lemma simple_total_score_raises (query_words : gset string) (doc : pydict) :
  ¬ Spec.well_formed doc →
  SimpleRAGSystem.total_score query_words doc = Raise AttributeError.
Proof.
  intros Hnot. unfold SimpleRAGSystem.total_score.
  destruct (Spec.is_text (doc !! "title")) eqn:Ht;
    [|by rewrite (str_lower_not_text doc "title")].
  rewrite (str_lower_field doc "title") by done. cbn [mbind result_bind].
  destruct (Spec.is_text (doc !! "content")) eqn:Hc;
    [|by rewrite (str_lower_not_text doc "content")].
  rewrite (str_lower_field doc "content") by done. cbn [mbind result_bind].
  destruct (Spec.is_text (doc !! "category")) eqn:Hg;
    [|by rewrite (str_lower_not_text doc "category")].
  by destruct Hnot.
Qed.

Lemma refactored_total_score_text (query_words : gset string) (doc : pydict) :
  Scenario.searchable doc →
  RAGSystem.total_score query_words doc = Ok (Spec.title_content_total query_words doc).
Proof.
  intros (Ht & Hc). unfold RAGSystem.total_score.
  rewrite !str_lower_field by done. simpl.
  unfold Spec.title_content_total. f_equal. lia.
Qed.

Lemma refactored_total_score_raises (query_words : gset string) (doc : pydict) :
  ¬ Scenario.searchable doc →
  RAGSystem.total_score query_words doc = Raise AttributeError.
Proof.
  intros Hnot. unfold RAGSystem.total_score.
  destruct (Spec.is_text (doc !! "title")) eqn:Ht;
    [|by rewrite (str_lower_not_text doc "title")].
  rewrite (str_lower_field doc "title") by done. cbn [mbind result_bind].
  destruct (Spec.is_text (doc !! "content")) eqn:Hc;
    [|by rewrite (str_lower_not_text doc "content")].
  by destruct Hnot.
Qed.

Lemma score_loop_raises (total_score : pydict → result Z) (query_words : gset string)
    (docs : list pydict) :
  Exists (λ doc, ∃ e, total_score doc = Raise e) docs →
  ∀ acc, ∃ e, score_loop total_score query_words docs acc = Raise e.
Proof.
  induction 1 as [doc docs [e He]|doc docs _ IH]; intros acc; cbn [score_loop].
  - rewrite He. by exists e.
  - destruct (total_score doc) as [t|e]; cbn [mbind result_bind]; [|by exists e].
    case_decide; apply IH.
Qed.

(** C1 (as amended). For every query:
    - [SimpleRAGSystem] gives a document whose title, content and category
      are strings where present the total
      3·|query ∩ title| + |query ∩ content| + 2·|query ∩ category| + phrase
      bonus, the bonus being 1 per query word found inside the lower-cased
      content and 2 per query word found inside the lower-cased title;
    - the refactored [RAGSystem] gives a document whose title and content
      are strings where present 3·|query ∩ title| + |query ∩ content| only;
    - on a collection all of whose documents are such, each file returns a
      cut of a ranking that holds exactly the documents whose total divided
      by max(|query_words|, 1) is above 0, with that quotient as score;
    - on a collection with one document that is not such, the retrieval of
      that file returns the empty list, whatever the other documents score;
    - a query in which [\w+] finds no token gives the empty result on every
      collection. *)
Theorem lexical_score_formula (query : string) (docs : list pydict) :
  let query_words := word_set (lower query) in
  (∀ doc, Spec.well_formed doc →
     SimpleRAGSystem.total_score query_words doc
       = Ok (Spec.lexical_total query_words doc)) ∧
  (∀ doc, Scenario.searchable doc →
     RAGSystem.total_score query_words doc
       = Ok (Spec.title_content_total query_words doc)) ∧
  (Forall Spec.well_formed docs → ∀ top_k, ∃ ranked,
     SimpleRAGSystem.retrieve_body docs query top_k = Ok (slice_to ranked top_k) ∧
     ranked ≡ₚ omap (Spec.ranked_entry (Spec.lexical_total query_words) query_words) docs) ∧
  (Forall Scenario.searchable docs → ∀ top_k, ∃ ranked,
     RAGSystem.retrieve_body docs query top_k = Ok (slice_to ranked top_k) ∧
     ranked ≡ₚ omap (Spec.ranked_entry (Spec.title_content_total query_words) query_words) docs) ∧
  (Exists (λ doc, ¬ Spec.well_formed doc) docs → ∀ top_k self,
     SimpleRAGSystem.documents self = docs →
     SimpleRAGSystem._retrieve_relevant_documents query top_k self = (Ok [], self)) ∧
  (Exists (λ doc, ¬ Scenario.searchable doc) docs → ∀ top_k self,
     KnowledgeBase.get_all_documents (RAGSystem.knowledge_base self) = docs →
     RAGSystem._retrieve_documents query top_k self = (Ok [], self)) ∧
  (findall_w (lower query) = [] → ∀ top_k,
     (∀ self, SimpleRAGSystem._retrieve_relevant_documents query top_k self = (Ok [], self)) ∧
     (∀ self, RAGSystem._retrieve_documents query top_k self = (Ok [], self))).
Proof.
  intros query_words. split_and!.
  - intros doc. apply simple_total_score_formula.
  - intros doc. apply refactored_total_score_text.
  - intros Hdocs top_k.
    apply (rank_and_cut_entries _ query_words _ docs top_k).
    eapply Forall_impl; [exact Hdocs|]. intros doc. apply simple_total_score_formula.
  - intros Hdocs top_k.
    apply (rank_and_cut_entries _ query_words _ docs top_k).
    eapply Forall_impl; [exact Hdocs|]. intros doc. apply refactored_total_score_text.
  - intros Hbad top_k self Hself.
    unfold SimpleRAGSystem._retrieve_relevant_documents, SimpleRAGSystem.retrieve_body.
    cbv zeta. rewrite Hself.
    destruct (score_loop_raises (SimpleRAGSystem.total_score query_words) query_words docs)
      with (acc := @nil pydict) as [e He].
    + eapply Exists_impl; [exact Hbad|]. intros doc Hnot.
      exists AttributeError. by apply simple_total_score_raises.
    + fold query_words. by rewrite He.
  - intros Hbad top_k self Hself.
    unfold RAGSystem._retrieve_documents, RAGSystem.retrieve_body.
    cbv zeta. rewrite Hself.
    destruct (score_loop_raises (RAGSystem.total_score query_words) query_words docs)
      with (acc := @nil pydict) as [e He].
    + eapply Exists_impl; [exact Hbad|]. intros doc Hnot.
      exists AttributeError. by apply refactored_total_score_raises.
    + fold query_words. by rewrite He.
  - intros Hnone top_k. by apply no_token_no_result.
Qed.

Lemma support_docs_well_formed : Forall Spec.well_formed support_docs.
Proof. repeat constructor. Qed.

Lemma lexical_score_formula_witness :
  SimpleRAGSystem.total_score (word_set (lower "how do I reset my password")) reset_password
    = Ok 13 ∧
  (∃ ranked,
     SimpleRAGSystem.retrieve_body support_docs "how do I reset my password" 3
       = Ok (slice_to ranked 3)) ∧
  SimpleRAGSystem._retrieve_relevant_documents "password" 3
    {| SimpleRAGSystem.openai_client := answering;
       SimpleRAGSystem.documents := [reset_password; Scenario.numbered] |}
    = (Ok [], {| SimpleRAGSystem.openai_client := answering;
                 SimpleRAGSystem.documents := [reset_password; Scenario.numbered] |}) ∧
  SimpleRAGSystem._retrieve_relevant_documents "?!" 3 support_system
    = (Ok [], support_system).
Proof.
  pose proof (lexical_score_formula "how do I reset my password" support_docs)
    as (H1 & _ & H3 & _).
  pose proof (lexical_score_formula "password" [reset_password; Scenario.numbered])
    as (_ & _ & _ & _ & H5 & _).
  pose proof (lexical_score_formula "?!" support_docs)
    as (_ & _ & _ & _ & _ & _ & H7).
  split_and!.
  - rewrite (H1 reset_password) by repeat constructor. vm_compute. reflexivity.
  - destruct (H3 support_docs_well_formed 3) as (ranked & Hranked & _).
    by exists ranked.
  - apply H5; [|reflexivity].
    apply Exists_cons_tl, Exists_cons_hd. intros (_ & Hcontent & _). discriminate Hcontent.
  - exact (proj1 (H7 eq_refl 3) support_system).
Defined.

(** C1, the claim as stated, fails for the refactored lexical file: a
    document that matches the query on its category only has total 2 by the
    formula and would be ranked, but [RAGSystem] gives it total 0 and
    returns nothing. *)
Lemma refactored_score_has_no_category :
  Spec.well_formed plans ∧
  Spec.lexical_total (word_set (lower "billing")) plans = 2 ∧
  RAGSystem.total_score (word_set (lower "billing")) plans = Ok 0 ∧
  RAGSystem.retrieve_body [plans] "billing" 3 = Ok [] ∧
  omap (Spec.ranked_entry (Spec.lexical_total (word_set (lower "billing")))
          (word_set (lower "billing"))) [plans] ≠ [].
Proof.
  split_and!; [repeat constructor|vm_compute; reflexivity..|].
  vm_compute. discriminate.
Qed.

(** The pattern [\w+] counts the underscore as a word character: a query
    made of an underscore has a token, and finds the document whose title
    holds one. *)
Example underscore_is_a_word :
  findall_w (lower "_") = ["_"] ∧
  SimpleRAGSystem.retrieve_body [document "snake_case" "naming" "Style"] "_" 3
  = Ok [with_score (document "snake_case" "naming" "Style") (Qc_of_Z 2 / Qc_of_Z 1)].
Proof. split; vm_compute; reflexivity. Qed.

(** A letter with an accent is a word character, and [lower] maps É (201)
    to é (233): "É" has the one token "é", and "naïve" is one token, not
    two. *)
Example accented_letter_is_a_word :
  text "É" = String (ascii_of_nat 201) EmptyString ∧
  findall_w (lower (text "É")) = [text "é"] ∧
  findall_w (lower (text "naïve")) = [text "naïve"] ∧
  findall_w (lower "na ve") = ["na"; "ve"].
Proof. split_and!; vm_compute; reflexivity. Qed.

(** The query "CAFÉ" finds the document titled "Café" with score 5. The
    query "na ve" finds the document titled "naïve" with score 2, its two
    words being inside the title without being words of it; the query
    "NAÏVE" finds it with score 5. *)
Example accented_query_retrieves :
  SimpleRAGSystem.retrieve_body
    [document (text "Café") "Open daily" "Info"] (text "CAFÉ") 3
    = Ok [with_score (document (text "Café") "Open daily" "Info")
            (Qc_of_Z 5 / Qc_of_Z 1)] ∧
  SimpleRAGSystem.retrieve_body [document (text "naïve") "x" "c"] "na ve" 3
    = Ok [with_score (document (text "naïve") "x" "c") (Qc_of_Z 4 / Qc_of_Z 2)] ∧
  SimpleRAGSystem.retrieve_body [document (text "naïve") "x" "c"] (text "NAÏVE") 3
    = Ok [with_score (document (text "naïve") "x" "c") (Qc_of_Z 5 / Qc_of_Z 1)].
Proof. split_and!; vm_compute; reflexivity. Qed.

(** C2. For a non-negative [top_k], retrieve returns at most [top_k]
    results; each is a document of the collection with its score attached;
    and along the result list the scores never increase, results of equal
    score standing in the order of their positions in the collection. This
    holds for every query and every collection, for both lexical files. *)
Theorem retrieve_top_k_ranked (top_k : Z) :
  0 ≤ top_k →
  (∀ (self : SimpleRAGSystem.t) (query : string), ∃ res prov,
     SimpleRAGSystem._retrieve_relevant_documents query top_k self = (Ok res, self) ∧
     (length res ≤ Z.to_nat top_k)%nat ∧
     Forall2 (Spec.entry_of (SimpleRAGSystem.documents self)) res prov ∧
     StronglySorted Spec.ranks_before prov) ∧
  (∀ (self : RAGSystem.t) (query : string), ∃ res prov,
     RAGSystem._retrieve_documents query top_k self = (Ok res, self) ∧
     (length res ≤ Z.to_nat top_k)%nat ∧
     Forall2 (Spec.entry_of (KnowledgeBase.documents (RAGSystem.knowledge_base self)))
       res prov ∧
     StronglySorted Spec.ranks_before prov).
Proof.
  intros Hk. split.
  - intros self query. unfold SimpleRAGSystem._retrieve_relevant_documents.
    destruct (SimpleRAGSystem.retrieve_body _ _ _) as [res|e] eqn:E; simpl.
    + apply rank_and_cut in E as (prov & ?); [|done]. by exists res, prov.
    + exists [], []. split_and!; [done|simpl; lia|constructor..].
  - intros self query. unfold RAGSystem._retrieve_documents.
    destruct (RAGSystem.retrieve_body _ _ _) as [res|e] eqn:E; simpl.
    + apply rank_and_cut in E as (prov & ?); [|done]. by exists res, prov.
    + exists [], []. split_and!; [done|simpl; lia|constructor..].
Qed.

(** Along a ranked list the scores never increase. *)
Lemma ranks_before_score (a b : Qc * nat) : Spec.ranks_before a b → (b.1 ≤ a.1)%Qc.
Proof. intros [H|[-> _]]; [by apply Qclt_le_weak|done]. Qed.

Lemma retrieve_top_k_ranked_witness :
  0 ≤ 3 ∧
  ∃ res prov,
    SimpleRAGSystem._retrieve_relevant_documents "billing password" 3 support_system
      = (Ok res, support_system) ∧
    (length res ≤ 3)%nat ∧
    Forall2 (Spec.entry_of support_docs) res prov ∧
    StronglySorted Spec.ranks_before prov.
Proof.
  split; [lia|].
  exact (proj1 (retrieve_top_k_ranked 3 ltac:(lia)) support_system "billing password").
Defined.

(** The scenario of the specification: "Reset Password" ranks strictly
    above "Billing Cycle"; and on a tie the collection order decides. *)
Example scenario_reset_password :
  (SimpleRAGSystem._retrieve_relevant_documents
     "how do I reset my password" 3 support_system).1
  = Ok [with_score reset_password (Qc_of_Z 13 / Qc_of_Z 6);
        with_score billing_cycle (Qc_of_Z 3 / Qc_of_Z 6)].
Proof. vm_compute. reflexivity. Qed.

Example scenario_tie :
  (SimpleRAGSystem._retrieve_relevant_documents
     "billing password" 3 support_system).1
  = Ok [with_score reset_password (Qc_of_Z 7 / Qc_of_Z 2);
        with_score billing_cycle (Qc_of_Z 7 / Qc_of_Z 2)].
Proof. vm_compute. reflexivity. Qed.

(** A negative [top_k] is a slice bound counted from the end: [-1] drops
    the last of the two ranked documents. *)
Example negative_top_k :
  (SimpleRAGSystem._retrieve_relevant_documents
     "how do I reset my password" (-1) support_system).1
  = Ok [with_score reset_password (Qc_of_Z 13 / Qc_of_Z 6)].
Proof. vm_compute. reflexivity. Qed.

End retrieval_theorems.

(** ** Adding a document *)

Section adding.

Import Examples.

Lemma new_document_well_formed (title content category : string) :
  Spec.well_formed (Spec.new_document title content category).
Proof. unfold Spec.well_formed, Spec.new_document. by simplify_map_eq. Qed.

Lemma new_document_content (title content category : string) :
  Spec.field_lower (Spec.new_document title content category) "content" = lower content.
Proof. unfold Spec.field_lower, Spec.new_document. by simplify_map_eq. Qed.

Lemma len_set_nonneg (words : gset string) : 0 ≤ len_set words.
Proof. unfold len_set. lia. Qed.

Lemma substring_count_nonneg (words : gset string) (text : string) :
  0 ≤ Spec.substring_count words text.
Proof. apply len_set_nonneg. Qed.

Lemma word_set_nonempty (text : string) :
  findall_w text ≠ [] → 0 < len_set (word_set text).
Proof.
  intros Hne. unfold len_set, word_set.
  destruct (findall_w text) as [|w ws]; [done|].
  assert (size (list_to_set (C:=gset string) (w :: ws)) ≠ 0%nat); [|lia].
  apply size_non_empty_iff. intros Hempty.
  assert (w ∈ (list_to_set (w :: ws) : gset string)) as Hw by set_solver.
  rewrite Hempty in Hw. set_solver.
Qed.

(** A document scores above zero against its own content, if the content
    holds a word. *)
Lemma new_document_total_pos (title content category : string) :
  findall_w (lower content) ≠ [] →
  Spec.lexical_total (word_set (lower content))
    (Spec.new_document title content category) > 0.
Proof.
  intros Hne. unfold Spec.lexical_total, Spec.phrase_bonus_of.
  rewrite new_document_content.
  rewrite (idemp_L (∩) (word_set (lower content))).
  pose proof (word_set_nonempty _ Hne).
  pose proof (len_set_nonneg (word_set (lower content) ∩
    word_set (Spec.field_lower (Spec.new_document title content category) "title"))).
  pose proof (len_set_nonneg (word_set (lower content) ∩
    word_set (Spec.field_lower (Spec.new_document title content category) "category"))).
  pose proof (substring_count_nonneg (word_set (lower content)) (lower content)).
  pose proof (substring_count_nonneg (word_set (lower content))
    (Spec.field_lower (Spec.new_document title content category) "title")).
  lia.
Qed.

(** C9 (as amended). [add_to_knowledge_base(title, content)] on the lexical
    system returns [True] and puts the new document at the end of the
    collection that the next retrieve reads. If the content holds a word,
    the new document scores above zero against the query [content]. With
    [n] the number of earlier documents that score at least as much: if
    [n < top_k] the new document is result number [n] of the next retrieve;
    otherwise that retrieve returns what it returned before the add, without
    the new document. On the dense system, when the embedding is made, the
    document is appended to the document list and its vector to the index;
    they are at the same position if, before the add, the index held as
    many vectors as the list held documents. *)
Theorem added_document_rank (self : SimpleRAGSystem.t)
    (title content category : string) (top_k : Z) :
  0 ≤ top_k →
  Forall Spec.well_formed (SimpleRAGSystem.documents self) →
  findall_w (lower content) ≠ [] →
  let new_doc := Spec.new_document title content category in
  let query_words := word_set (lower content) in
  let total := Spec.lexical_total query_words in
  let n := length (filter (λ doc, total new_doc ≤ total doc)
                     (SimpleRAGSystem.documents self)) in
  (∃ self',
     SimpleRAGSystem.add_to_knowledge_base title content category self = (Ok true, self') ∧
     SimpleRAGSystem.documents self' = SimpleRAGSystem.documents self ++ [new_doc] ∧
     total new_doc > 0 ∧
     (Z.of_nat n < top_k → ∃ res,
        SimpleRAGSystem._retrieve_relevant_documents content top_k self' = (Ok res, self') ∧
        res !! n = Some (with_score new_doc (normalized (total new_doc) query_words))) ∧
     (top_k ≤ Z.of_nat n →
        (SimpleRAGSystem._retrieve_relevant_documents content top_k self').1
        = (SimpleRAGSystem._retrieve_relevant_documents content top_k self).1)) ∧
  (∀ (ext : DenseRAGSystem.externals) (dense : DenseRAGSystem.t) vectors v,
     DenseRAGSystem.index dense = Some vectors →
     DenseRAGSystem.encode ext [VStr content] = Ok [v] →
     ∃ dense',
       DenseRAGSystem.add_to_knowledge_base ext title content category dense
         = (Ok true, dense') ∧
       DenseRAGSystem.documents dense' = DenseRAGSystem.documents dense ++ [new_doc] ∧
       DenseRAGSystem.index dense' = Some (vectors ++ [v]) ∧
       (length vectors = length (DenseRAGSystem.documents dense) →
        DenseRAGSystem.list_item (DenseRAGSystem.documents dense')
          (Z.of_nat (length vectors)) = Ok new_doc)).
Proof.
  intros Hk Hdocs Hne new_doc query_words total n. split.
  - exists {| SimpleRAGSystem.openai_client := SimpleRAGSystem.openai_client self;
              SimpleRAGSystem.documents := SimpleRAGSystem.documents self ++ [new_doc] |}.
    split; [reflexivity|]. cbn [SimpleRAGSystem.documents].
    split; [reflexivity|].
    assert (Hpos : total new_doc > 0) by (by apply new_document_total_pos).
    split; [exact Hpos|].
    assert (Hall : Forall (λ doc, SimpleRAGSystem.total_score query_words doc
                                  = Ok (total doc))
                     (SimpleRAGSystem.documents self ++ [new_doc])).
    { apply Forall_app. split.
      - eapply Forall_impl; [exact Hdocs|]. intros doc.
        apply simple_total_score_formula.
      - constructor; [|constructor].
        apply simple_total_score_formula, new_document_well_formed. }
    pose proof (rank_after_append _ query_words total _ new_doc top_k Hk Hall Hpos)
      as Hrank.
    assert (Hin : Z.of_nat n < top_k → ∃ res,
      SimpleRAGSystem.retrieve_body (SimpleRAGSystem.documents self ++ [new_doc])
        content top_k = Ok res ∧
      res !! n = Some (with_score new_doc (normalized (total new_doc) query_words)))
      by exact (proj1 Hrank).
    assert (Hout : top_k ≤ Z.of_nat n →
      SimpleRAGSystem.retrieve_body (SimpleRAGSystem.documents self ++ [new_doc])
        content top_k
      = SimpleRAGSystem.retrieve_body (SimpleRAGSystem.documents self) content top_k)
      by exact (proj2 Hrank).
    unfold SimpleRAGSystem._retrieve_relevant_documents.
    cbn [SimpleRAGSystem.documents]. split.
    + intros Hlt. destruct (Hin Hlt) as (res & -> & Hres). by exists res.
    + intros Hge. simpl. by rewrite (Hout Hge).
  - intros ext dense vectors v Hindex Hencode.
    unfold DenseRAGSystem.add_to_knowledge_base. rewrite Hencode, Hindex. simpl.
    eexists. split; [reflexivity|]. simpl. split_and!; [done..|].
    intros Hlen. unfold DenseRAGSystem.list_item.
    destruct (decide (0 ≤ Z.of_nat (length vectors))); [|lia].
    rewrite decide_True by lia. rewrite Nat2Z.id, Hlen.
    by rewrite list_lookup_middle.
Qed.

Lemma added_document_rank_witness :
  0 ≤ 3 ∧
  Forall Spec.well_formed support_docs ∧
  findall_w (lower "Refund policy") ≠ [] ∧
  (∃ self' res,
     SimpleRAGSystem.add_to_knowledge_base "Refunds" "Refund policy" "Billing"
       support_system = (Ok true, self') ∧
     SimpleRAGSystem._retrieve_relevant_documents "Refund policy" 3 self'
       = (Ok res, self') ∧
     res !! 0%nat
       = Some (with_score (Spec.new_document "Refunds" "Refund policy" "Billing")
                 (normalized
                    (Spec.lexical_total (word_set (lower "Refund policy"))
                       (Spec.new_document "Refunds" "Refund policy" "Billing"))
                    (word_set (lower "Refund policy"))))) ∧
  (∃ dense',
     DenseRAGSystem.add_to_knowledge_base constant_embedding
       "Refunds" "Refund policy" "Billing" dense_system = (Ok true, dense') ∧
     DenseRAGSystem.index dense' = Some [[1%Qc]; [1%Qc]; [1%Qc]]).
Proof.
  assert (H0 : 0 ≤ 3) by lia.
  assert (Hwf : Forall Spec.well_formed support_docs) by exact support_docs_well_formed.
  assert (Hne : findall_w (lower "Refund policy") ≠ []) by (vm_compute; discriminate).
  pose proof (added_document_rank support_system "Refunds" "Refund policy" "Billing" 3
                H0 Hwf Hne) as [Hlex Hdense].
  cbv zeta in Hlex, Hdense.
  split_and!; [exact H0|exact Hwf|exact Hne| |].
  - destruct Hlex as (self' & Hadd & _ & _ & Hin & _).
    destruct (Hin ltac:(vm_compute; reflexivity)) as (res & Hres & Hfirst).
    exists self', res. split_and!; [exact Hadd|exact Hres|exact Hfirst].
  - destruct (Hdense constant_embedding dense_system [[1%Qc]; [1%Qc]] [1%Qc]
                eq_refl eq_refl) as (dense' & Hadd & _ & Hindex & _).
    exists dense'. split; [exact Hadd|exact Hindex].
Defined.

(** C9, the claim as stated, fails for the lexical strategy: in a collection
    of three documents titled "Y", after [add_to_knowledge_base("X", "Y")]
    has returned [True], retrieve("Y") with [top_k = 3] returns those three
    and not the new document. *)
Lemma added_document_cut_off :
  ∃ sys res,
    SimpleRAGSystem.add_to_knowledge_base "X" "Y" "General" crowded_system
      = (Ok true, sys) ∧
    SimpleRAGSystem._retrieve_relevant_documents "Y" 3 sys = (Ok res, sys) ∧
    res = [with_score (titled_y "a") (Qc_of_Z 5 / Qc_of_Z 1);
           with_score (titled_y "b") (Qc_of_Z 5 / Qc_of_Z 1);
           with_score (titled_y "c") (Qc_of_Z 5 / Qc_of_Z 1)] ∧
    ∀ q, with_score (Spec.new_document "X" "Y" "General") q ∉ res.
Proof.
  eexists.
  exists [with_score (titled_y "a") (Qc_of_Z 5 / Qc_of_Z 1);
          with_score (titled_y "b") (Qc_of_Z 5 / Qc_of_Z 1);
          with_score (titled_y "c") (Qc_of_Z 5 / Qc_of_Z 1)].
  split; [reflexivity|]. split; [vm_compute; reflexivity|].
  split; [reflexivity|].
  intros q Hin.
  assert (Hcontent : with_score (Spec.new_document "X" "Y" "General") q !! "content"
                     = Some (VStr "Y")).
  { unfold with_score. rewrite lookup_insert_ne by discriminate. vm_compute. reflexivity. }
  repeat (apply elem_of_cons in Hin as [E|Hin];
          [rewrite E in Hcontent; vm_compute in Hcontent; discriminate Hcontent|]).
  by apply elem_of_nil in Hin.
Qed.

End adding.

(** ** Retrieval reads the stored documents, and writes to copies only *)

Section objects.

Import Objects.

Lemma get_app_l (h ext : heap) (r : ref) :
  (r < length h)%nat → get (h ++ ext) r = get h r.
Proof. intros Hr. unfold get. by rewrite lookup_app_l. Qed.

Lemma values_app_l (h ext : heap) (l : list ref) :
  Forall (λ r, (r < length h)%nat) l → get (h ++ ext) <$> l = get h <$> l.
Proof.
  intros Hl. apply Forall_fmap_ext.
  eapply Forall_impl; [exact Hl|]. intros r. apply get_app_l.
Qed.

(** The copy is the one object that the assignment of the score changes. *)
Lemma copy_setitem (h : heap) (doc : ref) (v : pyval) :
  setitem (copy doc h).1 "score" v (copy doc h).2 = h ++ [<["score" := v]> (get h doc)].
Proof.
  unfold copy, setitem. cbn [fst snd].
  rewrite alter_app_r_alt by lia. by rewrite Nat.sub_diag.
Qed.

Lemma get_new (h ext : heap) (d : pydict) : get (h ++ d :: ext) (length h) = d.
Proof. unfold get. by rewrite list_lookup_middle. Qed.

(** The loop on the heap and the loop on the values: the heap grows at its
    end only, and the objects behind the references that the loop returns
    are the documents that the loop on the values returns. *)
Lemma objects_score_loop (total_score : pydict → result Z) (query_words : gset string)
    (docs : list ref) :
  ∀ (acc : list ref) (h : heap),
    Forall (λ r, (r < length h)%nat) docs →
    Forall (λ r, (r < length h)%nat) acc →
    ∃ ext,
      (score_loop total_score query_words docs acc h).2 = h ++ ext ∧
      match Shared.score_loop total_score query_words (get h <$> docs) (get h <$> acc) with
      | Ok values =>
          ∃ new,
            (score_loop total_score query_words docs acc h).1 = Ok (acc ++ new) ∧
            Forall (λ r, (length h ≤ r < length (h ++ ext))%nat) new ∧
            get (h ++ ext) <$> (acc ++ new) = values
      | Raise e => (score_loop total_score query_words docs acc h).1 = Raise e
      end.
Proof.
  induction docs as [|doc docs IH]; intros acc h Hdocs Hacc.
  - exists []. cbn [score_loop Shared.score_loop fmap list_fmap fst snd].
    split; [by rewrite app_nil_r|].
    exists []. rewrite !app_nil_r. split_and!; [done|constructor|done].
  - apply Forall_cons in Hdocs as [Hdoc Hdocs].
    cbn [score_loop Shared.score_loop fmap list_fmap].
    destruct (total_score (get h doc)) as [total|e] eqn:Htotal; cbn [mbind result_bind].
    + destruct (decide (total > 0)) as [Hpos|Hpos].
      * pose proof (copy_setitem h doc (VNum (normalized total query_words))) as Hheap.
        destruct (copy doc h) as [doc_copy h1] eqn:Hcopy. cbn [fst snd] in Hheap.
        assert (Hcopy_ref : doc_copy = length h) by (unfold copy in Hcopy; congruence).
        subst doc_copy. rewrite Hheap. clear Hheap Hcopy h1.
        change (<["score" := VNum (normalized total query_words)]> (get h doc))
          with (with_score (get h doc) (normalized total query_words)).
        generalize (with_score (get h doc) (normalized total query_words)). intros d.
        destruct (IH (acc ++ [length h]) (h ++ [d])) as (ext & Hext & Hrun).
        { eapply Forall_impl; [exact Hdocs|].
          intros r Hr. cbv beta in Hr. rewrite length_app. simpl. lia. }
        { apply Forall_app. split.
          - eapply Forall_impl; [exact Hacc|].
            intros r Hr. cbv beta in Hr. rewrite length_app. simpl. lia.
          - constructor; [|constructor]. rewrite length_app. simpl. lia. }
        exists (d :: ext). split; [by rewrite Hext, <- app_assoc|].
        rewrite (values_app_l h [d] docs) in Hrun by done.
        rewrite fmap_app, (values_app_l h [d] acc) in Hrun by done.
        cbn [fmap list_fmap] in Hrun. rewrite get_new in Hrun.
        destruct (Shared.score_loop total_score query_words (get h <$> docs)
                    ((get h <$> acc) ++ [d]))
          as [values|e]; [|exact Hrun].
        destruct Hrun as (new & Hres & Hnew & Hvalues).
        exists (length h :: new). rewrite <- app_assoc in Hres, Hvalues.
        rewrite <- app_assoc in Hnew, Hvalues. cbn [app] in Hres, Hnew, Hvalues.
        split_and!; [exact Hres| |exact Hvalues].
        constructor.
        -- rewrite length_app. simpl. lia.
        -- eapply Forall_impl; [exact Hnew|]. intros r. cbv beta. rewrite !length_app. simpl. lia.
      * apply IH; done.
    + exists []. by rewrite app_nil_r.
Qed.

Lemma comprehension_fmap {A B C} (f : A → B) (g : B → result C) (l : list A) :
  comprehension g (f <$> l) = comprehension (λ x, g (f x)) l.
Proof.
  induction l as [|x l IH]; [done|].
  rewrite fmap_cons. cbn [comprehension]. by rewrite IH.
Qed.

Lemma slice_to_fmap {A B} (f : A → B) (l : list A) (k : Z) :
  slice_to (f <$> l) k = f <$> slice_to l k.
Proof. unfold slice_to. rewrite length_fmap. case_decide; by rewrite fmap_take. Qed.

Lemma zip_fmap_snd {A B} (f : A → B) (keys : list Qc) (l : list A) :
  zip keys (f <$> l) = prod_map id f <$> zip keys l.
Proof.
  revert keys. induction l as [|x l IH]; intros [|key keys]; try done.
  csimpl. by rewrite IH.
Qed.

(** Sorting the references by the key of their objects sorts the objects. *)
Lemma objects_sort_and_cut (h : heap) (refs : list ref) (top_k : Z) :
  Shared.sort_and_cut (get h <$> refs) top_k
    = (λ res : list ref, get h <$> res) <$> sort_and_cut refs top_k h.
Proof.
  unfold Shared.sort_and_cut, sort_and_cut, sort_by_key_reverse.
  rewrite comprehension_fmap.
  destruct (comprehension (λ x, score_key (get h x)) refs) as [keys|e];
    cbn [mbind result_bind fmap result_fmap]; [|done].
  rewrite zip_fmap_snd, sort_desc_fmap, <- slice_to_fmap. do 2 f_equal.
  rewrite <- !list_fmap_compose. apply list_fmap_ext. by intros i [key r] _.
Qed.

Lemma sort_and_cut_subset (h : heap) (refs res : list ref) (top_k : Z) :
  sort_and_cut refs top_k h = Ok res → res ⊆ refs.
Proof.
  unfold sort_and_cut, sort_by_key_reverse.
  destruct (comprehension (λ x, score_key (get h x)) refs) as [keys|e] eqn:Hkeys;
    cbn [mbind result_bind]; [|done].
  intros [= <-]. intros r Hr.
  assert (Hin : r ∈ (sort_desc (zip keys refs)).*2).
  { revert Hr. unfold slice_to. case_decide; apply subseteq_take. }
  rewrite sort_desc_perm in Hin.
  apply list_elem_of_fmap in Hin as ([key r'] & -> & Hin).
  by apply elem_of_zip_r in Hin.
Qed.

(** One retrieval on the heap: what it returns, and what it leaves. *)
Lemma objects_retrieve (total_score : gset string → pydict → result Z)
    (documents : list ref) (query : string) (top_k : Z) (h : heap) :
  Forall (λ r, (r < length h)%nat) documents →
  ∃ res ext,
    retrieve total_score documents query top_k h = (Ok res, h ++ ext) ∧
    Forall (λ r, (length h ≤ r < length (h ++ ext))%nat) res ∧
    try_except
      (scored_docs ← Shared.score_loop (total_score (word_set (lower query)))
                       (word_set (lower query)) (get h <$> documents) [];
       Shared.sort_and_cut scored_docs top_k)
      (λ _, Ok [])
    = Ok (get (h ++ ext) <$> res).
Proof.
  intros Hdocs. unfold retrieve. cbv zeta.
  destruct (objects_score_loop (total_score (word_set (lower query)))
              (word_set (lower query)) documents [] h Hdocs) as (ext & Hheap & Hrun);
    [constructor|].
  destruct (score_loop _ _ documents [] h) as [scored h'] eqn:Hloop.
  cbn [fst snd] in Hheap, Hrun. subst h'.
  exists (match (scored_docs ← scored; sort_and_cut scored_docs top_k (h ++ ext)) with
          | Ok res => res
          | Raise _ => []
          end), ext.
  cbn [fmap list_fmap] in Hrun.
  destruct (Shared.score_loop _ _ (get h <$> documents) []) as [values|e].
  - destruct Hrun as (new & -> & Hnew & <-). cbn [app mbind result_bind].
    rewrite objects_sort_and_cut.
    destruct (sort_and_cut new top_k (h ++ ext)) as [res|e] eqn:Hsort;
      cbn [try_except fmap result_fmap].
    + split_and!; [done| |done].
      apply Forall_forall. intros r Hr.
      apply (sort_and_cut_subset _ _ _ _ Hsort) in Hr.
      by apply (proj1 (Forall_forall _ _) Hnew).
    + split_and!; [done|constructor|done].
  - rewrite Hrun. cbn [mbind result_bind try_except fmap list_fmap].
    split_and!; [done|constructor|done].
Qed.

(** Two retrievals in a row on the heap. *)
Lemma objects_retrieve_twice (total_score : gset string → pydict → result Z)
    (documents : list ref) (query : string) (top_k : Z) (h : heap) :
  Forall (λ r, (r < length h)%nat) documents →
  let first := retrieve total_score documents query top_k h in
  let second := retrieve total_score documents query top_k first.2 in
  ∃ res1 res2,
    first.1 = Ok res1 ∧ second.1 = Ok res2 ∧
    take (length h) first.2 = h ∧
    take (length first.2) second.2 = first.2 ∧
    get second.2 <$> documents = get h <$> documents ∧
    Forall (λ r, (length h ≤ r)%nat) res1 ∧
    Forall (λ r, (length first.2 ≤ r)%nat) res2 ∧
    get first.2 <$> res1 = get second.2 <$> res2 ∧
    try_except
      (scored_docs ← Shared.score_loop (total_score (word_set (lower query)))
                       (word_set (lower query)) (get h <$> documents) [];
       Shared.sort_and_cut scored_docs top_k)
      (λ _, Ok [])
    = Ok (get first.2 <$> res1).
Proof.
  intros Hdocs first second.
  destruct (objects_retrieve total_score documents query top_k h Hdocs)
    as (res1 & ext1 & Hfirst & Hnew1 & Hvalues1).
  assert (Hdocs1 : Forall (λ r, (r < length (h ++ ext1))%nat) documents).
  { eapply Forall_impl; [exact Hdocs|]. intros r Hr. cbv beta in Hr. rewrite length_app. lia. }
  destruct (objects_retrieve total_score documents query top_k (h ++ ext1) Hdocs1)
    as (res2 & ext2 & Hsecond & Hnew2 & Hvalues2).
  subst second first. rewrite Hfirst. cbn [fst snd]. rewrite Hsecond. cbn [fst snd].
  exists res1, res2.
  rewrite (values_app_l h ext1 documents) in Hvalues2 by done.
  split_and!; try done.
  - apply take_app_length.
  - apply take_app_length.
  - rewrite <- app_assoc. by apply values_app_l.
  - eapply Forall_impl; [exact Hnew1|]. intros r. cbv beta. lia.
  - eapply Forall_impl; [exact Hnew2|]. intros r. cbv beta. lia.
  - rewrite Hvalues1 in Hvalues2. by injection Hvalues2.
Qed.

(** C8. Two retrievals in a row, with the same query and [top_k], on a
    collection that nothing else writes to: both return, the objects that
    they return are new ones, and the two result lists hold the same
    documents with the same scores in the same order. No object that was
    there before a call is changed by it, so the stored documents are after
    the two calls what they were before the first; the scores are written
    to copies. The result is the one of the retrieval on the values of the
    stored documents. This holds for both lexical files. *)
Theorem retrieve_idempotent (documents : list ref) (h : heap) (query : string) (top_k : Z) :
  Forall (λ r, (r < length h)%nat) documents →
  (let first := _retrieve_relevant_documents documents query top_k h in
   let second := _retrieve_relevant_documents documents query top_k first.2 in
   ∃ res1 res2,
     first.1 = Ok res1 ∧ second.1 = Ok res2 ∧
     take (length h) first.2 = h ∧
     take (length first.2) second.2 = first.2 ∧
     get second.2 <$> documents = get h <$> documents ∧
     Forall (λ r, (length h ≤ r)%nat) res1 ∧
     Forall (λ r, (length first.2 ≤ r)%nat) res2 ∧
     get first.2 <$> res1 = get second.2 <$> res2 ∧
     ∀ self, SimpleRAGSystem.documents self = get h <$> documents →
       SimpleRAGSystem._retrieve_relevant_documents query top_k self
         = (Ok (get first.2 <$> res1), self)) ∧
  (let first := _retrieve_documents documents query top_k h in
   let second := _retrieve_documents documents query top_k first.2 in
   ∃ res1 res2,
     first.1 = Ok res1 ∧ second.1 = Ok res2 ∧
     take (length h) first.2 = h ∧
     take (length first.2) second.2 = first.2 ∧
     get second.2 <$> documents = get h <$> documents ∧
     Forall (λ r, (length h ≤ r)%nat) res1 ∧
     Forall (λ r, (length first.2 ≤ r)%nat) res2 ∧
     get first.2 <$> res1 = get second.2 <$> res2 ∧
     ∀ self,
       KnowledgeBase.get_all_documents (RAGSystem.knowledge_base self)
         = get h <$> documents →
       RAGSystem._retrieve_documents query top_k self
         = (Ok (get first.2 <$> res1), self)).
Proof.
  intros Hdocs. split.
  - destruct (objects_retrieve_twice SimpleRAGSystem.total_score documents query top_k h
                Hdocs)
      as (res1 & res2 & H1 & H2 & H3 & H4 & H5 & H6 & H7 & H8 & H9).
    exists res1, res2. split_and!; try done.
    intros self Hself.
    unfold SimpleRAGSystem._retrieve_relevant_documents, SimpleRAGSystem.retrieve_body.
    cbv zeta. rewrite Hself. by rewrite H9.
  - destruct (objects_retrieve_twice RAGSystem.total_score documents query top_k h Hdocs)
      as (res1 & res2 & H1 & H2 & H3 & H4 & H5 & H6 & H7 & H8 & H9).
    exists res1, res2. split_and!; try done.
    intros self Hself.
    unfold RAGSystem._retrieve_documents, RAGSystem.retrieve_body.
    cbv zeta. rewrite Hself. by rewrite H9.
Qed.

Lemma retrieve_idempotent_witness :
  Forall (λ r, (r < length Examples.support_docs)%nat) [0%nat; 1%nat] ∧
  take (length Examples.support_docs)
    (_retrieve_relevant_documents [0%nat; 1%nat] "password" 3 Examples.support_docs).2
  = Examples.support_docs.
Proof.
  assert (H : Forall (λ r, (r < length Examples.support_docs)%nat) [0%nat; 1%nat]).
  { repeat constructor. }
  split; [exact H|].
  destruct (retrieve_idempotent [0%nat; 1%nat] Examples.support_docs "password" 3 H)
    as [(res1 & res2 & _ & _ & Hkept & _) _].
  exact Hkept.
Defined.

(** On the two-document collection, the query "password" returns one new
    object, at position 2 of the heap: the first document with its score.
    The two stored objects have no score. *)
Example retrieve_writes_to_a_copy :
  _retrieve_relevant_documents [0%nat; 1%nat] "password" 3 Examples.support_docs
    = (Ok [2%nat],
       Examples.support_docs
         ++ [with_score Examples.reset_password (Qc_of_Z 7 / Qc_of_Z 1)]) ∧
  Forall (λ doc : pydict, doc !! "score" = None) Examples.support_docs.
Proof. split; [vm_compute; reflexivity|repeat constructor]. Qed.

End objects.

(** ** Further properties: the response *)

Section response.

Local Open Scope Qc_scope.

Lemma Qcdiv_pos (a b : Qc) : 0 < a → 0 < b → 0 < a / b.
Proof.
  unfold Qclt. rewrite this_div. cbn [this Q2Qc]. change (Qred 0) with 0%Q.
  intros Ha Hb. apply Qlt_shift_div_l; [done|]. by rewrite Qmult_0_l.
Qed.

Lemma Qcdiv_le_mono (a b c : Qc) : 0 < c → a ≤ b → a / c ≤ b / c.
Proof.
  unfold Qclt, Qcle. rewrite !this_div. cbn [this Q2Qc]. change (Qred 0) with 0%Q.
  intros Hc Hab. apply Qle_shift_div_l; [done|].
  unfold Qdiv. rewrite <- Qmult_assoc, (Qmult_comm (/ c)), Qmult_inv_r, Qmult_1_r; [done|].
  intros Heq. rewrite Heq in Hc. by apply Qlt_irrefl in Hc.
Qed.

Lemma at_most_one_pos (s : Qc) : 0 < s → 0 < Spec.at_most_one s.
Proof. intros Hs. unfold Spec.at_most_one. case_decide; [|done]. qc_arith. Qed.

Lemma clamp_unit_pos (x : Qc) : 0 < x → 0 < Spec.clamp_unit x.
Proof. intros Hx. unfold Spec.clamp_unit. repeat case_decide; qc_arith. Qed.

Lemma sum_from_nonneg (f : nat → Qc → Qc) (i : nat) (scores : list Qc) :
  (∀ j s, s ∈ scores → 0 ≤ f j s) → 0 ≤ Spec.sum_from f i scores.
Proof.
  revert i. induction scores as [|s scores IH]; intros i Hf; simpl; [done|].
  apply Qcplus_nonneg_nonneg; [apply Hf; by left|].
  apply IH. intros j s' Hs'. apply Hf. by right.
Qed.

(** Positive scores give a positive confidence. *)
Lemma confidence_of_pos (scores : list Qc) :
  scores ≠ [] → Forall (λ s, 0 < s) scores →
  0 < Spec.confidence_of Spec.at_most_one scores.
Proof.
  intros Hne Hpos. destruct scores as [|s scores]; [done|].
  unfold Spec.confidence_of. apply clamp_unit_pos, Qcdiv_pos.
  - simpl. apply Forall_cons in Hpos as [Hs Hpos].
    apply Qcplus_pos_nonneg.
    + apply Qcmult_pos_pos; [by apply at_most_one_pos|exact (position_weight_pos 0)].
    + apply sum_from_nonneg. intros j s' Hs'.
      apply Qclt_le_weak, Qcmult_pos_pos; [|apply position_weight_pos].
      apply at_most_one_pos. rewrite Forall_forall in Hpos. apply Hpos.
      by eapply (subseteq_take 2).
  - apply (sum_weights_pos 0 s).
Qed.

Lemma with_score_twice (doc : pydict) (q : Qc) :
  with_score (with_score doc q) q = with_score doc q.
Proof. unfold with_score. apply insert_insert_eq. Qed.

Lemma score_trace_positive (total_score : pydict → result Z) (query_words : gset string)
    (docs : list pydict) :
  ∀ i tr, Spec.score_trace total_score query_words i docs = Ok tr →
    Forall (λ x, 0 < x.1) tr.
Proof.
  induction docs as [|doc docs IH]; intros i tr; simpl.
  - intros [= <-]. constructor.
  - destruct (total_score doc) as [t|e]; simpl; [|done].
    destruct (Spec.score_trace _ _ (S i) docs) as [rest|e] eqn:E; simpl; [|done].
    intros [= <-]. specialize (IH _ _ E).
    case_decide; [|done]. constructor; [|done].
    simpl. apply normalized_pos. lia.
Qed.

(** What a lexical retrieve returns is a list of at most [top_k] documents,
    each with a score above zero attached. *)
Lemma retrieve_scored (total_score : pydict → result Z) (query_words : gset string)
    (docs : list pydict) (top_k : Z) (res : list pydict) :
  (0 ≤ top_k)%Z →
  (scored_docs ← score_loop total_score query_words docs [];
   sort_and_cut scored_docs top_k) = Ok res →
  ∃ l : list (pydict * Qc),
    res = Spec.scored_documents l ∧
    (length l ≤ Z.to_nat top_k)%nat ∧
    Forall (λ e, 0 < e.2) l.
Proof.
  intros Hk. rewrite (score_loop_trace _ _ docs 0 []).
  destruct (Spec.score_trace total_score query_words 0 docs) as [tr|e] eqn:E;
    simpl; [|done].
  destruct (score_trace_entries _ _ docs 0 tr E) as [Htr _].
  pose proof (score_trace_positive _ _ docs 0 tr E) as Hpos.
  rewrite (sort_and_cut_trace docs 0) by done.
  rewrite slice_to_take by done. intros [= <-].
  rewrite <- !fmap_take.
  exists ((λ x, (x.2.2, x.1)) <$> take (Z.to_nat top_k) (sort_desc tr)).
  split_and!.
  - unfold Spec.scored_documents. rewrite <- !list_fmap_compose.
    apply Forall_fmap_ext_1. apply Forall_take. rewrite sort_desc_perm.
    eapply Forall_impl; [exact Htr|]. intros x (_ & doc & _ & Hx). simpl.
    rewrite Hx. by rewrite with_score_twice.
  - rewrite length_fmap, length_take. lia.
  - apply Forall_fmap, Forall_take. rewrite sort_desc_perm.
    eapply Forall_impl; [exact Hpos|]. done.
Qed.

Lemma dict_item_Ok (d : pydict) (k : string) (v : pyval) :
  dict_item d k = Ok v ↔ d !! k = Some v.
Proof. unfold dict_item. destruct (d !! k); split; congruence. Qed.

Lemma dict_item_Raise (d : pydict) (k : string) (e : exn) :
  dict_item d k = Raise e → d !! k = None.
Proof. unfold dict_item. by destruct (d !! k). Qed.

Lemma sources_of_cons (doc : pydict) (docs : list pydict) :
  sources_of (doc :: docs) =
  (title ← dict_item doc "title";
   score ← dict_item doc "score";
   rest ← sources_of docs;
   Ok ({| source_title := title; source_score := score;
          source_category := dict_get doc "category" (VStr "General") |} :: rest)).
Proof.
  unfold sources_of. cbn [comprehension].
  destruct (dict_item doc "title"); [|done]. simpl.
  by destruct (dict_item doc "score").
Qed.

Lemma sources_of_scored (l : list (pydict * Qc)) (srcs : list source) :
  sources_of (Spec.scored_documents l) = Ok srcs →
  srcs = Derived.source_of <$> Spec.scored_documents l.
Proof.
  revert srcs. induction l as [|[doc q] l IH]; intros srcs.
  - by intros [= <-].
  - change (Spec.scored_documents ((doc, q) :: l))
      with (with_score doc q :: Spec.scored_documents l).
    rewrite sources_of_cons, fmap_cons.
    destruct (dict_item (with_score doc q) "title") as [title|] eqn:Et; simpl; [|done].
    apply dict_item_Ok in Et.
    rewrite dict_item_with_score. simpl.
    destruct (sources_of (Spec.scored_documents l)) as [rest|e]; simpl; [|done].
    intros [= <-]. rewrite (IH rest eq_refl). f_equal.
    unfold Derived.source_of. rewrite Et.
    unfold with_score. by rewrite lookup_insert_eq.
Qed.

Lemma source_of_positive (l : list (pydict * Qc)) :
  Forall (λ e, 0 < e.2) l →
  Forall Derived.positive_score (Derived.source_of <$> Spec.scored_documents l).
Proof.
  intros Hpos. unfold Spec.scored_documents. rewrite <- list_fmap_compose.
  apply Forall_fmap. eapply Forall_impl; [exact Hpos|].
  intros [doc q] Hq. exists q. split; [|done].
  simpl. unfold with_score. by rewrite lookup_insert_eq.
Qed.

Lemma confidence_of_range (cap : Qc → Qc) (scores : list Qc) :
  0 ≤ Spec.confidence_of cap scores ≤ 1.
Proof.
  unfold Spec.confidence_of. destruct scores; [split; qc_arith|apply clamp_unit_range].
Qed.

Lemma fallback_sound (a : string) :
  Derived.sound_response {| answer := a; confidence := 0; sources := [] |}.
Proof. split_and!; simpl; [qc_arith|qc_arith|lia|done|constructor]. Qed.

Lemma scored_response_sound (l : list (pydict * Qc)) (a : string) :
  (length l ≤ 3)%nat → Forall (λ e, 0 < e.2) l →
  Derived.sound_response
    {| answer := a;
       confidence := Spec.confidence_of Spec.at_most_one l.*2;
       sources := Derived.source_of <$> Spec.scored_documents l |}.
Proof.
  intros Hlen Hpos. split_and!; simpl.
  - apply confidence_of_range.
  - apply confidence_of_range.
  - unfold Spec.scored_documents. by rewrite !length_fmap.
  - destruct l as [|e l]; [done|]. split; [|done].
    intros Hzero. exfalso.
    assert (0 < Spec.confidence_of Spec.at_most_one (e :: l).*2) as Hc.
    { apply confidence_of_pos; [done|]. by apply Forall_fmap. }
    rewrite Hzero in Hc. qc_arith.
  - by apply source_of_positive.
Qed.

(** The tail that the three [_generate_response] share, on scored
    documents: the confidence of the formula and one source per document. *)
Lemma response_tail (l : list (pydict * Qc)) (a : string) (r : response) :
  (confidence ← calculate_confidence (λ s, min_ s 1) (Spec.scored_documents l);
   sources ← sources_of (Spec.scored_documents l);
   Ok {| answer := a; confidence := confidence; sources := sources |}) = Ok r →
  r = {| answer := a;
         confidence := Spec.confidence_of Spec.at_most_one l.*2;
         sources := Derived.source_of <$> Spec.scored_documents l |}.
Proof.
  rewrite calculate_confidence_formula. simpl.
  destruct (sources_of (Spec.scored_documents l)) as [srcs|e] eqn:E; simpl; [|done].
  intros [= <-]. by rewrite (sources_of_scored l srcs E).
Qed.

Lemma simple_retrieve_is_scored (self : SimpleRAGSystem.t) (query : string) :
  ∃ l, SimpleRAGSystem._retrieve_relevant_documents query 3 self
         = (Ok (Spec.scored_documents l), self) ∧
       (length l ≤ 3)%nat ∧ Forall (λ e, 0 < e.2) l.
Proof.
  unfold SimpleRAGSystem._retrieve_relevant_documents.
  destruct (SimpleRAGSystem.retrieve_body _ _ _) as [docs|e] eqn:E; simpl.
  - apply retrieve_scored in E as (l & -> & Hlen & Hpos); [|done]. by exists l.
  - exists []. split_and!; [done|simpl; lia|constructor].
Qed.

Lemma refactored_retrieve_is_scored (self : RAGSystem.t) (query : string) :
  ∃ l, RAGSystem._retrieve_documents query 3 self
         = (Ok (Spec.scored_documents l), self) ∧
       (length l ≤ 3)%nat ∧ Forall (λ e, 0 < e.2) l.
Proof.
  unfold RAGSystem._retrieve_documents.
  destruct (RAGSystem.retrieve_body _ _ _) as [docs|e] eqn:E; simpl.
  - apply retrieve_scored in E as (l & -> & Hlen & Hpos); [|done]. by exists l.
  - exists []. split_and!; [done|simpl; lia|constructor].
Qed.

(** X1. Every response of the two lexical systems, the fallback included,
    has a confidence in [0,1], at most three sources, each with a score
    above zero, and a confidence of exactly 0 if and only if it lists no
    source. *)
Theorem lexical_response_sound :
  (∀ (self : SimpleRAGSystem.t) (query : string), ∃ r,
     SimpleRAGSystem.get_response query self = (Ok r, self) ∧
     Derived.sound_response r) ∧
  (∀ (self : RAGSystem.t) (query : string), ∃ r,
     RAGSystem.get_response query self = (Ok r, self) ∧
     Derived.sound_response r).
Proof.
  split.
  - intros self query.
    destruct (simple_retrieve_is_scored self query) as (l & Hret & Hlen & Hpos).
    unfold SimpleRAGSystem.get_response. rewrite Hret.
    unfold SimpleRAGSystem._generate_response, SimpleRAGSystem.generate_body.
    destruct (SimpleRAGSystem.context_of _) as [context|e]; simpl;
      [|eexists; split; [done|apply fallback_sound]].
    destruct (SimpleRAGSystem.openai_client self _) as [a|e]; simpl;
      [|eexists; split; [done|apply fallback_sound]].
    unfold SimpleRAGSystem._calculate_confidence.
    destruct (_ ≫= _) as [r|e] eqn:E; simpl;
      [|eexists; split; [done|apply fallback_sound]].
    apply response_tail in E as ->.
    eexists; split; [done|by apply scored_response_sound].
  - intros self query.
    destruct (refactored_retrieve_is_scored self query) as (l & Hret & Hlen & Hpos).
    unfold RAGSystem.get_response. rewrite Hret.
    unfold RAGSystem._generate_response, RAGSystem.generate_body.
    destruct (RAGSystem.context_of _) as [context|e]; simpl;
      [|eexists; split; [done|apply fallback_sound]].
    destruct (RAGSystem.client self _) as [a|e]; simpl;
      [|eexists; split; [done|apply fallback_sound]].
    unfold RAGSystem._calculate_confidence.
    destruct (_ ≫= _) as [r|e] eqn:E; simpl;
      [|eexists; split; [done|apply fallback_sound]].
    apply response_tail in E as ->.
    eexists; split; [done|by apply scored_response_sound].
Qed.

Lemma comprehension_raises {A B} (f : A → result B) (l : list A) (x : A) :
  x ∈ l → (∃ e, f x = Raise e) → ∃ e, comprehension f l = Raise e.
Proof.
  intros Hx [e He]. induction l as [|y l IH]; [by apply elem_of_nil in Hx|].
  apply elem_of_cons in Hx as [<-|Hx]; simpl.
  - rewrite He. eauto.
  - destruct (f y); simpl; [|eauto].
    destruct (IH Hx) as [e' ->]. eauto.
Qed.

Lemma comprehension_ok {A B} (f : A → result B) (l : list A) (ys : list B) :
  comprehension f l = Ok ys → Forall (λ x, ∃ y, f x = Ok y) l.
Proof.
  revert ys. induction l as [|x l IH]; intros ys; simpl; [constructor|].
  destruct (f x) as [y|e] eqn:E; simpl; [|done].
  destruct (comprehension f l) as [ys'|e]; simpl; [|done].
  intros _. constructor; [eauto|by eapply IH].
Qed.

(** X2. A retrieved document without a [title] or without a [content] key
    makes [get_response] return the fallback of the generation stage,
    whatever the endpoint would have answered: building the context reads
    both keys with [doc[...]], while retrieval read them with
    [doc.get(..., '')]. *)
Theorem missing_field_fallback (self : SimpleRAGSystem.t) (query : string)
    (docs : list pydict) (d : pydict) :
  SimpleRAGSystem._retrieve_relevant_documents query 3 self = (Ok docs, self) →
  d ∈ docs →
  d !! "title" = None ∨ d !! "content" = None →
  SimpleRAGSystem.get_response query self
    = (Ok SimpleRAGSystem.generation_fallback, self).
Proof.
  intros Hret Hd Hmissing.
  unfold SimpleRAGSystem.get_response. rewrite Hret.
  unfold SimpleRAGSystem._generate_response, SimpleRAGSystem.generate_body.
  unfold SimpleRAGSystem.context_of.
  match goal with
  | |- context [comprehension ?f docs] =>
      destruct (comprehension_raises f docs d Hd) as [e ->]; [|done]
  end.
  unfold dict_item. destruct Hmissing as [-> | ->]; simpl; [eauto|].
  destruct (d !! "title"); simpl; eauto.
Qed.

Lemma missing_field_fallback_witness :
  (∃ q, SimpleRAGSystem._retrieve_relevant_documents "refund" 3 Derived.untitled_system
        = (Ok [with_score (Derived.untitled "Refund policy") q], Derived.untitled_system)) ∧
  SimpleRAGSystem.get_response "refund" Derived.untitled_system
    = (Ok SimpleRAGSystem.generation_fallback, Derived.untitled_system).
Proof.
  assert (Hret : SimpleRAGSystem._retrieve_relevant_documents "refund" 3
                   Derived.untitled_system
                 = (Ok [with_score (Derived.untitled "Refund policy")
                          (Qc_of_Z 2 / Qc_of_Z 1)], Derived.untitled_system))
    by (vm_compute; reflexivity).
  split; [eexists; exact Hret|].
  eapply (missing_field_fallback _ _ _ _ Hret); [by left|].
  left. vm_compute. reflexivity.
Defined.

(** X3. When nothing is retrieved the endpoint is still called, with an
    empty context: the response is its answer with confidence 0 and no
    source, or the fallback if the call raises. It holds for the three
    systems. In particular this is what a query without a token gets from
    the two lexical systems, whose retrieval is then empty. *)
Theorem empty_retrieval_generates :
  (∀ (self : SimpleRAGSystem.t) (query : string),
     SimpleRAGSystem._retrieve_relevant_documents query 3 self = (Ok [], self) →
     SimpleRAGSystem.get_response query self
     = (Ok match SimpleRAGSystem.openai_client self
                   (SimpleRAGSystem.request_of EmptyString query) with
           | Ok a => Derived.ungrounded a
           | Raise _ => SimpleRAGSystem.generation_fallback
           end, self)) ∧
  (∀ (self : RAGSystem.t) (query : string),
     RAGSystem._retrieve_documents query 3 self = (Ok [], self) →
     RAGSystem.get_response query self
     = (Ok match RAGSystem.client self (RAGSystem.request_of EmptyString query) with
           | Ok a => Derived.ungrounded a
           | Raise _ => RAGSystem.generation_fallback
           end, self)) ∧
  (∀ (ext : DenseRAGSystem.externals) (self : DenseRAGSystem.t) (query : string),
     DenseRAGSystem._retrieve_relevant_documents ext query 3 self = (Ok [], self) →
     DenseRAGSystem.get_response ext query self
     = (Ok match DenseRAGSystem.openai_client self
                   (DenseRAGSystem.request_of EmptyString query) with
           | Ok a => Derived.ungrounded a
           | Raise _ => DenseRAGSystem.generation_fallback
           end, self)) ∧
  (∀ (self : SimpleRAGSystem.t) (query : string),
     findall_w (lower query) = [] →
     SimpleRAGSystem._retrieve_relevant_documents query 3 self = (Ok [], self)) ∧
  (∀ (self : RAGSystem.t) (query : string),
     findall_w (lower query) = [] →
     RAGSystem._retrieve_documents query 3 self = (Ok [], self)).
Proof.
  split_and!.
  - intros self query Hret. unfold SimpleRAGSystem.get_response. rewrite Hret.
    unfold SimpleRAGSystem._generate_response, SimpleRAGSystem.generate_body. simpl.
    by destruct (SimpleRAGSystem.openai_client self _).
  - intros self query Hret. unfold RAGSystem.get_response. rewrite Hret.
    unfold RAGSystem._generate_response, RAGSystem.generate_body. simpl.
    by destruct (RAGSystem.client self _).
  - intros ext self query Hret. unfold DenseRAGSystem.get_response. rewrite Hret.
    unfold DenseRAGSystem._generate_response, DenseRAGSystem.generate_body. simpl.
    by destruct (DenseRAGSystem.openai_client self _).
  - intros self query Hnone. by apply no_token_no_result.
  - intros self query Hnone. by apply no_token_no_result.
Qed.

Lemma empty_retrieval_generates_witness :
  findall_w (lower "?!") = [] ∧
  SimpleRAGSystem.get_response "?!" Examples.support_system
  = (Ok (Derived.ungrounded "Use the forgot password link."), Examples.support_system).
Proof.
  pose proof empty_retrieval_generates as (Hgen & _ & _ & Hnone & _).
  split; [reflexivity|].
  exact (Hgen Examples.support_system "?!" (Hnone Examples.support_system "?!" eq_refl)).
Defined.

Lemma sources_of_titled (l : list (pydict * Qc)) :
  Forall (λ d : pydict, is_Some (d !! "title")) (Spec.scored_documents l) →
  sources_of (Spec.scored_documents l) = Ok (Derived.source_of <$> Spec.scored_documents l).
Proof.
  induction l as [|[doc q] l IH]; [done|].
  change (Spec.scored_documents ((doc, q) :: l))
    with (with_score doc q :: Spec.scored_documents l).
  intros Ht. apply Forall_cons in Ht as [[title Ht] Hrest].
  rewrite sources_of_cons, fmap_cons.
  rewrite (proj2 (dict_item_Ok _ _ _) Ht), dict_item_with_score. simpl.
  rewrite (IH Hrest). simpl. do 2 f_equal.
  unfold Derived.source_of. rewrite Ht.
  unfold with_score. by rewrite lookup_insert_eq.
Qed.

(** X4. When every retrieved document has a title and a content and the
    endpoint answers, the response carries that answer as it is, the
    confidence of the retrieved documents, and one source per retrieved
    document, in the order of retrieval, with the category ["General"]
    where the document has none. *)
Theorem grounded_response (self : SimpleRAGSystem.t) (query : string)
    (docs : list pydict) (context a : string) :
  SimpleRAGSystem._retrieve_relevant_documents query 3 self = (Ok docs, self) →
  SimpleRAGSystem.context_of docs = Ok context →
  SimpleRAGSystem.openai_client self (SimpleRAGSystem.request_of context query) = Ok a →
  ∃ c, SimpleRAGSystem._calculate_confidence docs = Ok c ∧
       SimpleRAGSystem.get_response query self
       = (Ok {| answer := a; confidence := c;
                sources := Derived.source_of <$> docs |}, self).
Proof.
  intros Hret Hctx Hanswer.
  destruct (simple_retrieve_is_scored self query) as (l & Hl & _ & _).
  rewrite Hret in Hl. injection Hl as ->.
  exists (Spec.confidence_of Spec.at_most_one l.*2).
  split; [exact (calculate_confidence_formula (λ s, min_ s 1) l)|].
  unfold SimpleRAGSystem.get_response. rewrite Hret.
  unfold SimpleRAGSystem._generate_response, SimpleRAGSystem.generate_body.
  rewrite Hctx. simpl. rewrite Hanswer. simpl.
  unfold SimpleRAGSystem._calculate_confidence.
  rewrite calculate_confidence_formula. simpl.
  rewrite sources_of_titled; [done|].
  unfold SimpleRAGSystem.context_of in Hctx.
  destruct (comprehension _ _) as [parts|e] eqn:E; [|done].
  apply comprehension_ok in E.
  eapply Forall_impl; [exact E|]. intros d [y Hy]. simpl in Hy.
  destruct (dict_item d "title") as [title|] eqn:Et; [|done].
  apply dict_item_Ok in Et. by exists title.
Qed.

Lemma grounded_response_witness :
  ∃ docs context c,
    SimpleRAGSystem._retrieve_relevant_documents "how do I reset my password" 3
      Examples.support_system = (Ok docs, Examples.support_system) ∧
    SimpleRAGSystem.context_of docs = Ok context ∧
    SimpleRAGSystem.get_response "how do I reset my password" Examples.support_system
    = (Ok {| answer := "Use the forgot password link."; confidence := c;
             sources := Derived.source_of <$> docs |}, Examples.support_system).
Proof.
  set (docs := [with_score Examples.reset_password (Qc_of_Z 13 / Qc_of_Z 6);
                with_score Examples.billing_cycle (Qc_of_Z 3 / Qc_of_Z 6)]).
  assert (Hret : SimpleRAGSystem._retrieve_relevant_documents
                   "how do I reset my password" 3 Examples.support_system
                 = (Ok docs, Examples.support_system)) by (vm_compute; reflexivity).
  assert (Hctx : ∃ context, SimpleRAGSystem.context_of docs = Ok context)
    by (eexists; vm_compute; reflexivity).
  destruct Hctx as [context Hctx].
  destruct (grounded_response Examples.support_system "how do I reset my password"
              docs context "Use the forgot password link." Hret Hctx eq_refl)
    as (c & _ & Hresp).
  exists docs, context, c.
  split; [exact Hret|]. split; [exact Hctx|exact Hresp].
Defined.

End response.

(** ** Further properties: tokens and scores *)

Section tokens.

Lemma string_app_cons (x : ascii) (a b : string) :
  String x a +:+ b = String x (a +:+ b).
Proof. reflexivity. Qed.

Lemma string_app_nil_l (a : string) : EmptyString +:+ a = a.
Proof. reflexivity. Qed.

Lemma string_app_assoc (a b c : string) : (a +:+ b) +:+ c = a +:+ (b +:+ c).
Proof.
  induction a as [|x a IH]; [done|].
  rewrite !string_app_cons. f_equal. exact IH.
Qed.

Lemma string_app_nil_r (a : string) : a +:+ EmptyString = a.
Proof.
  induction a as [|x a IH]; [done|].
  rewrite string_app_cons. f_equal. exact IH.
Qed.

Lemma prefix_app (w post : string) : String.prefix w (w +:+ post) = true.
Proof.
  induction w as [|c w IH]; [by destruct post|].
  rewrite string_app_cons. cbn [String.prefix].
  destruct (ascii_dec c c); [exact IH|done].
Qed.

Lemma contains_here (w s : string) : String.prefix w s = true → contains w s = true.
Proof. intros H. destruct s; cbn [contains]; by rewrite H. Qed.

Lemma contains_app (pre w post : string) : contains w (pre +:+ w +:+ post) = true.
Proof.
  induction pre as [|c pre IH].
  - rewrite string_app_nil_l. apply contains_here, prefix_app.
  - rewrite string_app_cons. cbn [contains]. rewrite IH. apply orb_true_r.
Qed.

(** Every token is a piece of the text it was found in. *)
Lemma findall_from_pieces (s : string) :
  ∀ cur w, w ∈ findall_from cur s → ∃ pre post, cur +:+ s = pre +:+ w +:+ post.
Proof.
  induction s as [|c s IH]; intros cur w; cbn [findall_from].
  - destruct cur as [|x cur]; cbn [flush]; [by intros ?%elem_of_nil|].
    intros ->%list_elem_of_singleton. exists EmptyString, EmptyString.
    by rewrite string_app_nil_l.
  - destruct (is_word_char c).
    + intros Hw. destruct (IH _ _ Hw) as (pre & post & Heq).
      exists pre, post. rewrite <- Heq.
      by rewrite string_app_assoc, string_app_cons, string_app_nil_l.
    + rewrite elem_of_app. intros [Hw|Hw].
      * destruct cur as [|x cur]; cbn [flush] in Hw; [by apply elem_of_nil in Hw|].
        apply list_elem_of_singleton in Hw as ->.
        exists EmptyString, (String c s). by rewrite string_app_nil_l.
      * destruct (IH _ _ Hw) as (pre & post & Heq).
        rewrite string_app_nil_l in Heq.
        exists (cur +:+ String c pre), post.
        by rewrite string_app_assoc, string_app_cons, Heq.
Qed.

Lemma token_contained (s w : string) : w ∈ findall_w s → contains w s = true.
Proof.
  intros Hw. destruct (findall_from_pieces s EmptyString w Hw) as (pre & post & Heq).
  rewrite string_app_nil_l in Heq. rewrite Heq. apply contains_app.
Qed.

End tokens.

Section score_bounds.

Lemma len_set_inter_le (query_words words : gset string) :
  len_set (query_words ∩ words) ≤ len_set query_words.
Proof.
  unfold len_set. apply inj_le, subseteq_size.
  intros w Hw. by apply elem_of_intersection in Hw as [Hw _].
Qed.

Lemma substring_count_le (query_words : gset string) (text : string) :
  Spec.substring_count query_words text ≤ len_set query_words.
Proof.
  unfold Spec.substring_count, len_set. apply inj_le, subseteq_size.
  intros w Hw. by apply elem_of_filter in Hw as [_ Hw].
Qed.

(** A query word that is a word of the text is also found inside the
    text. *)
Lemma overlap_counted (query_words : gset string) (text : string) :
  len_set (query_words ∩ word_set text) ≤ Spec.substring_count query_words text.
Proof.
  unfold Spec.substring_count, len_set. apply inj_le, subseteq_size.
  intros w Hw. apply elem_of_intersection in Hw as [Hq Ht].
  apply elem_of_filter. split; [|done].
  apply token_contained. unfold word_set in Ht.
  by apply elem_of_list_to_set in Ht.
Qed.

(** X5. For a well-formed document, the total that [SimpleRAGSystem] gives
    counts every exact word match twice, once as overlap and once as phrase
    bonus: it is at least 5 per query word in the title, 2 per query word in
    the content and 2 per query word in the category; and it is at most 9
    per query word. The total of the refactored [RAGSystem] is at most 4 per
    query word. *)
Theorem total_score_bounds (query_words : gset string) (doc : pydict) :
  Spec.well_formed doc →
  ∃ t t',
    SimpleRAGSystem.total_score query_words doc = Ok t ∧
    RAGSystem.total_score query_words doc = Ok t' ∧
    5 * len_set (query_words ∩ word_set (Spec.field_lower doc "title"))
    + 2 * len_set (query_words ∩ word_set (Spec.field_lower doc "content"))
    + 2 * len_set (query_words ∩ word_set (Spec.field_lower doc "category")) ≤ t ∧
    t ≤ 9 * len_set query_words ∧
    0 ≤ t' ≤ t ∧
    t' ≤ 4 * len_set query_words.
Proof.
  intros Hwf. eexists. eexists.
  split; [by apply simple_total_score_formula|].
  split; [by apply refactored_total_score_formula|].
  unfold Spec.lexical_total, Spec.title_content_total, Spec.phrase_bonus_of.
  pose proof (overlap_counted query_words (Spec.field_lower doc "title")).
  pose proof (overlap_counted query_words (Spec.field_lower doc "content")).
  pose proof (substring_count_le query_words (Spec.field_lower doc "title")).
  pose proof (substring_count_le query_words (Spec.field_lower doc "content")).
  pose proof (len_set_inter_le query_words (word_set (Spec.field_lower doc "title"))).
  pose proof (len_set_inter_le query_words (word_set (Spec.field_lower doc "content"))).
  pose proof (len_set_inter_le query_words (word_set (Spec.field_lower doc "category"))).
  pose proof (len_set_nonneg (query_words ∩ word_set (Spec.field_lower doc "title"))).
  pose proof (len_set_nonneg (query_words ∩ word_set (Spec.field_lower doc "content"))).
  pose proof (len_set_nonneg (query_words ∩ word_set (Spec.field_lower doc "category"))).
  lia.
Qed.

Lemma total_score_bounds_witness :
  Spec.well_formed Examples.reset_password ∧
  ∃ t, SimpleRAGSystem.total_score (word_set (lower "reset password"))
         Examples.reset_password = Ok t ∧
       t ≤ 9 * len_set (word_set (lower "reset password")).
Proof.
  assert (Hwf : Spec.well_formed Examples.reset_password) by repeat constructor.
  split; [exact Hwf|].
  destruct (total_score_bounds (word_set (lower "reset password"))
              Examples.reset_password Hwf) as (t & t' & Ht & _ & _ & Hhigh & _).
  exists t. split; [exact Ht|exact Hhigh].
Defined.

End score_bounds.

Section score_range.

Local Open Scope Qc_scope.

Lemma normalized_scale (c : Z) (query_words : gset string) :
  normalized (c * Z.max (len_set query_words) 1) query_words = Qc_of_Z c.
Proof.
  unfold normalized. apply Qc_is_canon. rewrite this_div, !this_of_Z.
  assert (Hm : (0 < Z.max (len_set query_words) 1)%Z) by lia.
  destruct (Z.max (len_set query_words) 1) as [|p|p]; try lia.
  unfold Qeq, Qdiv, Qmult, Qinv, inject_Z. simpl. lia.
Qed.

Lemma normalized_at_most (t bound : Z) (query_words : gset string) :
  (t > 0)%Z → (t ≤ bound * len_set query_words)%Z →
  normalized t query_words ≤ Qc_of_Z bound.
Proof.
  intros Ht Hb. rewrite <- (normalized_scale bound query_words).
  apply normalized_le. pose proof (len_set_nonneg query_words). nia.
Qed.

(** Each entry of the trace comes from a stored document whose total is
    above zero. *)
Lemma score_trace_totals (total_score : pydict → result Z) (query_words : gset string)
    (docs : list pydict) :
  ∀ i tr, Spec.score_trace total_score query_words i docs = Ok tr →
    Forall (λ x, ∃ doc t, doc ∈ docs ∧ total_score doc = Ok t ∧ (t > 0)%Z ∧
                          x.1 = normalized t query_words ∧
                          x.2.2 = with_score doc (normalized t query_words)) tr.
Proof.
  induction docs as [|doc docs IH]; intros i tr; simpl.
  - intros [= <-]. constructor.
  - destruct (total_score doc) as [t|e] eqn:Et; simpl; [|done].
    destruct (Spec.score_trace _ _ (S i) docs) as [rest|e] eqn:E; simpl; [|done].
    intros [= <-]. specialize (IH _ _ E).
    assert (Hrest : Forall (λ x, ∃ d t', d ∈ doc :: docs ∧ total_score d = Ok t' ∧
                                 (t' > 0)%Z ∧ x.1 = normalized t' query_words ∧
                                 x.2.2 = with_score d (normalized t' query_words)) rest).
    { eapply Forall_impl; [exact IH|]. intros x (d & t' & Hd & ?).
      exists d, t'. split; [by right|done]. }
    case_decide; [|done]. constructor; [|done].
    exists doc, t. split; [by left|done].
Qed.

(** The scores of what a lexical retrieve returns, under a bound on the
    totals. *)
Lemma retrieve_score_range (total_score : pydict → result Z) (query_words : gset string)
    (bound : Z) (docs : list pydict) (top_k : Z) (res : list pydict) :
  (∀ doc t, total_score doc = Ok t → (t ≤ bound * len_set query_words)%Z) →
  (scored_docs ← score_loop total_score query_words docs [];
   sort_and_cut scored_docs top_k) = Ok res →
  Forall (λ d, ∃ doc q, doc ∈ docs ∧ d = with_score doc q ∧ 0 < q ≤ Qc_of_Z bound) res.
Proof.
  intros Hbound. rewrite (score_loop_trace _ _ docs 0 []).
  destruct (Spec.score_trace total_score query_words 0 docs) as [tr|e] eqn:E;
    simpl; [|done].
  destruct (score_trace_entries _ _ docs 0 tr E) as [Htr _].
  pose proof (score_trace_totals _ _ docs 0 tr E) as Htot.
  rewrite (sort_and_cut_trace docs 0) by done. intros [= <-].
  assert (Hall : Forall (λ d, ∃ doc q, doc ∈ docs ∧ d = with_score doc q ∧
                              0 < q ≤ Qc_of_Z bound) (sort_desc tr).*2.*2).
  { rewrite !Forall_fmap, sort_desc_perm.
    eapply Forall_impl; [exact Htot|].
    intros x (doc & t & Hdoc & Ht & Hpos & Hkey & Hx). simpl.
    exists doc, (normalized t query_words). split_and!; [done..| |].
    - apply normalized_pos. lia.
    - apply normalized_at_most; [done|]. by eapply Hbound. }
  unfold slice_to. case_decide; by apply Forall_take.
Qed.

Lemma simple_total_at_most (query_words : gset string) (doc : pydict) (t : Z) :
  SimpleRAGSystem.total_score query_words doc = Ok t →
  (t ≤ 9 * len_set query_words)%Z.
Proof.
  unfold SimpleRAGSystem.total_score.
  destruct (str_lower (dict_get doc "title" _)) as [tl|]; simpl; [|done].
  destruct (str_lower (dict_get doc "content" _)) as [cl|]; simpl; [|done].
  destruct (str_lower (dict_get doc "category" _)) as [gl|]; simpl; [|done].
  intros [= <-]. unfold SimpleRAGSystem.phrase_bonus.
  rewrite phrase_bonus_loop.
  pose proof (len_set_inter_le query_words (word_set tl)).
  pose proof (len_set_inter_le query_words (word_set cl)).
  pose proof (len_set_inter_le query_words (word_set gl)).
  pose proof (length_filter (λ word, contains word cl = true) (elements query_words)).
  pose proof (length_filter (λ word, contains word tl = true) (elements query_words)).
  assert (len_set query_words = Z.of_nat (length (elements query_words))) by done.
  lia.
Qed.

Lemma refactored_total_at_most (query_words : gset string) (doc : pydict) (t : Z) :
  RAGSystem.total_score query_words doc = Ok t →
  (t ≤ 4 * len_set query_words)%Z.
Proof.
  unfold RAGSystem.total_score.
  destruct (str_lower (dict_get doc "title" _)) as [tl|]; simpl; [|done].
  destruct (str_lower (dict_get doc "content" _)) as [cl|]; simpl; [|done].
  intros [= <-].
  pose proof (len_set_inter_le query_words (word_set tl)).
  pose proof (len_set_inter_le query_words (word_set cl)).
  lia.
Qed.

(** X6. Whatever the collection, the query and [top_k], every document that
    [SimpleRAGSystem] retrieves is a stored document with a score above 0
    and at most 9; for the refactored [RAGSystem] the score is above 0 and
    at most 4. *)
Theorem retrieved_score_range :
  (∀ (self : SimpleRAGSystem.t) (query : string) (top_k : Z), ∃ res,
     SimpleRAGSystem._retrieve_relevant_documents query top_k self = (Ok res, self) ∧
     Forall (λ d, ∃ doc q, doc ∈ SimpleRAGSystem.documents self ∧
                           d = with_score doc q ∧ 0 < q ≤ Qc_of_Z 9) res) ∧
  (∀ (self : RAGSystem.t) (query : string) (top_k : Z), ∃ res,
     RAGSystem._retrieve_documents query top_k self = (Ok res, self) ∧
     Forall (λ d, ∃ doc q, doc ∈ KnowledgeBase.documents (RAGSystem.knowledge_base self) ∧
                           d = with_score doc q ∧ 0 < q ≤ Qc_of_Z 4) res).
Proof.
  split.
  - intros self query top_k. unfold SimpleRAGSystem._retrieve_relevant_documents.
    destruct (SimpleRAGSystem.retrieve_body _ _ _) as [res|e] eqn:E; simpl.
    + exists res. split; [done|].
      eapply retrieve_score_range; [|exact E]. apply simple_total_at_most.
    + exists []. split; [done|constructor].
  - intros self query top_k. unfold RAGSystem._retrieve_documents.
    destruct (RAGSystem.retrieve_body _ _ _) as [res|e] eqn:E; simpl.
    + exists res. split; [done|].
      eapply retrieve_score_range; [|exact E]. apply refactored_total_at_most.
    + exists []. split; [done|constructor].
Qed.

(** The bound 9 is reached: one query word that is the title, the content
    and the category. *)
Example score_nine :
  SimpleRAGSystem.retrieve_body [Examples.document "refunds" "refunds" "refunds"]
    "Refunds" 3
  = Ok [with_score (Examples.document "refunds" "refunds" "refunds")
          (Qc_of_Z 9 / Qc_of_Z 1)].
Proof. vm_compute. reflexivity. Qed.

End score_range.

(** ** Further properties: confidence grows with the scores *)

Section confidence_order.

Local Open Scope Qc_scope.

Lemma at_most_one_mono (a b : Qc) : a ≤ b → Spec.at_most_one a ≤ Spec.at_most_one b.
Proof. intros Hab. unfold Spec.at_most_one. repeat case_decide; qc_arith. Qed.

Lemma clamp_unit_mono (a b : Qc) : a ≤ b → Spec.clamp_unit a ≤ Spec.clamp_unit b.
Proof. intros Hab. unfold Spec.clamp_unit. repeat case_decide; qc_arith. Qed.

Lemma sum_from_mono (cap : Qc → Qc) (l1 l2 : list Qc) :
  (∀ a b, a ≤ b → cap a ≤ cap b) →
  Forall2 Qcle l1 l2 →
  ∀ i, Spec.sum_from (λ j s, cap s * Spec.position_weight j) i l1
       ≤ Spec.sum_from (λ j s, cap s * Spec.position_weight j) i l2.
Proof.
  intros Hcap. induction 1 as [|a b l1 l2 Hab _ IH]; intros i; simpl; [done|].
  apply Qcplus_le_compat; [|apply IH].
  apply Qcmult_le_mono_nonneg_r; [apply Qclt_le_weak, position_weight_pos|by apply Hcap].
Qed.

Lemma sum_weights_length (l1 l2 : list Qc) :
  length l1 = length l2 →
  ∀ i, Spec.sum_from (λ j _, Spec.position_weight j) i l1
       = Spec.sum_from (λ j _, Spec.position_weight j) i l2.
Proof.
  revert l2. induction l1 as [|a l1 IH]; intros [|b l2] Hlen i; simpl; try done.
  f_equal. apply IH. by injection Hlen.
Qed.

Lemma confidence_of_mono (cap : Qc → Qc) (l1 l2 : list Qc) :
  (∀ a b, a ≤ b → cap a ≤ cap b) →
  Forall2 Qcle l1 l2 →
  Spec.confidence_of cap l1 ≤ Spec.confidence_of cap l2.
Proof.
  intros Hcap Hle. unfold Spec.confidence_of.
  destruct Hle as [|a b l1 l2 Hab Hle]; [done|].
  apply clamp_unit_mono.
  assert (Htake : Forall2 Qcle (take 3 (a :: l1)) (take 3 (b :: l2)))
    by (apply Forall2_take; by constructor).
  rewrite (sum_weights_length (take 3 (a :: l1)) (take 3 (b :: l2)))
    by (by eapply Forall2_length).
  apply Qcdiv_le_mono; [apply (sum_weights_pos 0 b)|].
  by apply sum_from_mono.
Qed.

(** X7. Raising scores never lowers the confidence: of two ranked lists of
    the same length, the second with scores at least those of the first
    position by position, the second gets a confidence at least that of the
    first, from the lexical estimator and from the dense one. *)
Theorem confidence_monotone (l1 l2 : list (pydict * Qc)) :
  Forall2 (λ a b, a.2 ≤ b.2) l1 l2 →
  (∃ c1 c2,
     SimpleRAGSystem._calculate_confidence (Spec.scored_documents l1) = Ok c1 ∧
     SimpleRAGSystem._calculate_confidence (Spec.scored_documents l2) = Ok c2 ∧
     c1 ≤ c2) ∧
  (∃ c1 c2,
     DenseRAGSystem._calculate_confidence (Spec.scored_documents l1) = Ok c1 ∧
     DenseRAGSystem._calculate_confidence (Spec.scored_documents l2) = Ok c2 ∧
     c1 ≤ c2).
Proof.
  intros Hle.
  assert (Hscores : Forall2 Qcle l1.*2 l2.*2) by (by apply Forall2_fmap).
  split.
  - eexists. eexists.
    split; [exact (calculate_confidence_formula (λ s, min_ s 1) l1)|].
    split; [exact (calculate_confidence_formula (λ s, min_ s 1) l2)|].
    apply (confidence_of_mono (λ s, min_ s 1)); [|done].
    exact at_most_one_mono.
  - eexists. eexists.
    split; [exact (calculate_confidence_formula (λ s, s) l1)|].
    split; [exact (calculate_confidence_formula (λ s, s) l2)|].
    by apply (confidence_of_mono (λ s, s)).
Qed.

Lemma confidence_monotone_witness :
  Forall2 (λ a b : pydict * Qc, a.2 ≤ b.2)
    [(Examples.reset_password, 1 / 2)] [(Examples.reset_password, 1)] ∧
  ∃ c1 c2,
    SimpleRAGSystem._calculate_confidence
      (Spec.scored_documents [(Examples.reset_password, 1 / 2)]) = Ok c1 ∧
    SimpleRAGSystem._calculate_confidence
      (Spec.scored_documents [(Examples.reset_password, 1)]) = Ok c2 ∧
    c1 ≤ c2.
Proof.
  assert (H : Forall2 (λ a b : pydict * Qc, a.2 ≤ b.2)
                [(Examples.reset_password, 1 / 2)] [(Examples.reset_password, 1)]).
  { repeat constructor. simpl. vm_compute. discriminate. }
  split; [exact H|].
  exact (proj1 (confidence_monotone _ _ H)).
Defined.

End confidence_order.

(** ** The document store: search and adding *)

Section store.

Import KnowledgeBase.

Lemma contains_empty (s : string) : contains EmptyString s = true.
Proof. by destruct s. Qed.

Lemma lower_char_idemp (c : ascii) : lower_char (lower_char c) = lower_char c.
Proof.
  destruct c as [[] [] [] [] [] [] [] []]; vm_compute; reflexivity.
Qed.

Lemma lower_idemp (s : string) : lower (lower s) = lower s.
Proof. induction s as [|c s IH]; simpl; [done|]. by rewrite lower_char_idemp, IH. Qed.

Lemma searchable_title (doc : pydict) :
  Spec.is_text (doc !! "title") = true →
  str_lower (dict_get doc "title" (VStr EmptyString)) = Ok (Spec.field_lower doc "title").
Proof.
  unfold dict_get, Spec.field_lower. by destruct (doc !! "title") as [[]|].
Qed.

Lemma searchable_content (doc : pydict) :
  Spec.is_text (doc !! "content") = true →
  str_lower (dict_get doc "content" (VStr EmptyString)) = Ok (Spec.field_lower doc "content").
Proof.
  unfold dict_get, Spec.field_lower. by destruct (doc !! "content") as [[]|].
Qed.

Lemma store_search_loop (k : string) (pre rest results : list pydict) :
  Forall Scenario.searchable pre →
  KnowledgeBaseStore.search_loop k (pre ++ rest) results
    = KnowledgeBaseStore.search_loop k rest
        (results ++ filter (λ doc,
           contains k (Spec.field_lower doc "title")
           || contains k (Spec.field_lower doc "content") = true) pre).
Proof.
  intros Hall. revert results.
  induction Hall as [|doc docs [Ht Hc] _ IH]; intros results.
  - simpl. by rewrite app_nil_r.
  - rewrite <- app_comm_cons. cbn [KnowledgeBaseStore.search_loop].
    rewrite searchable_title by done. cbn [mbind result_bind].
    rewrite filter_cons.
    destruct (contains k (Spec.field_lower doc "title")) eqn:E1.
    + cbn [mbind result_bind orb]. rewrite IH, decide_True by done.
      by rewrite <- app_assoc.
    + rewrite searchable_content by done. cbn [mbind result_bind orb].
      destruct (contains k (Spec.field_lower doc "content")) eqn:E2.
      * rewrite IH, decide_True by done. by rewrite <- app_assoc.
      * rewrite IH, decide_False by done. done.
Qed.

Lemma refactored_search_loop (k : string) (pre rest results : list pydict) :
  Forall Scenario.searchable pre →
  RefactoredKnowledgeBase.search_loop k (pre ++ rest) results
    = RefactoredKnowledgeBase.search_loop k rest
        (results ++ filter (λ doc,
           contains k (Spec.field_lower doc "title")
           || contains k (Spec.field_lower doc "content") = true) pre).
Proof.
  intros Hall. revert results.
  induction Hall as [|doc docs [Ht Hc] _ IH]; intros results.
  - simpl. by rewrite app_nil_r.
  - rewrite <- app_comm_cons. cbn [RefactoredKnowledgeBase.search_loop].
    rewrite searchable_title by done. cbn [mbind result_bind].
    rewrite searchable_content by done. cbn [mbind result_bind].
    rewrite filter_cons.
    destruct (contains k (Spec.field_lower doc "title")
              || contains k (Spec.field_lower doc "content")) eqn:E.
    + rewrite IH, decide_True by done. by rewrite <- app_assoc.
    + rewrite IH, decide_False by done. done.
Qed.

Lemma filter_all {A} (P : A → Prop) `{!∀ x, Decision (P x)} (l : list A) :
  Forall P l → filter P l = l.
Proof.
  induction 1 as [|x l Hx _ IH]; [done|].
  by rewrite filter_cons, decide_True, IH.
Qed.

(** X8. On a store whose titles and contents are strings where present,
    [search_documents] of both store files returns, in stored order, the
    documents whose lower-cased title or content holds the lower-cased
    keyword. The case of the keyword does not matter, and the empty keyword
    returns every document. *)
Theorem search_documents_filter (keyword : string) (self : KnowledgeBase.t) :
  Forall Scenario.searchable (documents self) →
  KnowledgeBaseStore.search_documents keyword self
    = Ok (filter (λ doc, Scenario.matches keyword doc = true) (documents self)) ∧
  RefactoredKnowledgeBase.search_documents keyword self
    = KnowledgeBaseStore.search_documents keyword self ∧
  KnowledgeBaseStore.search_documents (lower keyword) self
    = KnowledgeBaseStore.search_documents keyword self ∧
  KnowledgeBaseStore.search_documents EmptyString self = Ok (documents self).
Proof.
  intros Hall.
  assert (Hstore : ∀ k, KnowledgeBaseStore.search_documents k self
            = Ok (filter (λ doc, Scenario.matches k doc = true) (documents self))).
  { intros k. unfold KnowledgeBaseStore.search_documents.
    rewrite <- (app_nil_r (documents self)) at 1.
    by rewrite store_search_loop. }
  split_and!.
  - apply Hstore.
  - rewrite Hstore. unfold RefactoredKnowledgeBase.search_documents.
    rewrite <- (app_nil_r (documents self)) at 1.
    by rewrite refactored_search_loop.
  - rewrite !Hstore. unfold Scenario.matches. by rewrite lower_idemp.
  - rewrite Hstore. f_equal. apply filter_all.
    apply Forall_forall. intros doc _. unfold Scenario.matches. simpl.
    by rewrite contains_empty.
Qed.

Lemma search_documents_filter_witness :
  Forall Scenario.searchable (documents {| documents := Examples.support_docs |}) ∧
  KnowledgeBaseStore.search_documents EmptyString {| documents := Examples.support_docs |}
    = Ok Examples.support_docs.
Proof.
  assert (H : Forall Scenario.searchable
                (documents {| documents := Examples.support_docs |})).
  { repeat (constructor; [split; vm_compute; reflexivity|]). constructor. }
  split; [exact H|].
  exact (proj2 (proj2 (proj2 (search_documents_filter EmptyString _ H)))).
Defined.

(** X9. The two store files differ on a document whose content is not a
    string: where its title holds the keyword, [src/knowledge_base.py] lists
    the document, its [or] never reading the content, and
    [src/src/knowledge_base.py], which lower-cases both fields first, raises
    [AttributeError]. *)
Theorem search_title_hit_skips_content (keyword title : string) (v : pyval)
    (doc : pydict) (pre post : list pydict) :
  Forall Scenario.searchable pre → Forall Scenario.searchable post →
  doc !! "title" = Some (VStr title) →
  contains (lower keyword) (lower title) = true →
  doc !! "content" = Some v → (∀ s, v ≠ VStr s) →
  KnowledgeBaseStore.search_documents keyword {| documents := pre ++ doc :: post |}
    = Ok (filter (λ d, Scenario.matches keyword d = true) pre ++
          doc :: filter (λ d, Scenario.matches keyword d = true) post) ∧
  RefactoredKnowledgeBase.search_documents keyword {| documents := pre ++ doc :: post |}
    = Raise AttributeError.
Proof.
  intros Hpre Hpost Htitle Hhit Hcontent Hv.
  assert (Hgt : dict_get doc "title" (VStr EmptyString) = VStr title)
    by (unfold dict_get; by rewrite Htitle).
  assert (Hgc : dict_get doc "content" (VStr EmptyString) = v)
    by (unfold dict_get; by rewrite Hcontent).
  split.
  - unfold KnowledgeBaseStore.search_documents. cbn [documents].
    rewrite store_search_loop by done. cbn [KnowledgeBaseStore.search_loop].
    rewrite Hgt. cbn [str_lower mbind result_bind].
    rewrite Hhit. cbn [mbind result_bind].
    rewrite <- (app_nil_r post) at 1. rewrite store_search_loop by done.
    cbn [KnowledgeBaseStore.search_loop app]. by rewrite <- app_assoc.
  - unfold RefactoredKnowledgeBase.search_documents. cbn [documents].
    rewrite refactored_search_loop by done. cbn [RefactoredKnowledgeBase.search_loop].
    rewrite Hgt, Hgc. cbn [str_lower mbind result_bind].
    destruct v as [s| |]; [by destruct (Hv s)|done|done].
Qed.

Lemma search_title_hit_skips_content_witness :
  KnowledgeBaseStore.search_documents "refund"
    {| documents := [] ++ Scenario.numbered :: [] |} = Ok [Scenario.numbered] ∧
  RefactoredKnowledgeBase.search_documents "refund"
    {| documents := [] ++ Scenario.numbered :: [] |} = Raise AttributeError.
Proof.
  assert (Hnil : Forall Scenario.searchable []) by constructor.
  assert (Ht : Scenario.numbered !! "title" = Some (VStr "Refund policy"))
    by (vm_compute; reflexivity).
  assert (Hhit : contains (lower "refund") (lower "Refund policy") = true)
    by (vm_compute; reflexivity).
  assert (Hc : Scenario.numbered !! "content" = Some (VNum (Qc_of_Z 30)))
    by (vm_compute; reflexivity).
  assert (Hv : ∀ s, VNum (Qc_of_Z 30) ≠ VStr s) by (intros s; discriminate).
  exact (search_title_hit_skips_content "refund" "Refund policy" (VNum (Qc_of_Z 30))
           Scenario.numbered [] [] Hnil Hnil Ht Hhit Hc Hv).
Defined.

End store.

(** ** The metrics of a recorded log *)

Section tracker_log.

Import MetricsTracker.
Local Open Scope Qc_scope.

Lemma recorded_from (log : list Scenario.call) (self : MetricsTracker.t) :
  interactions (foldl Scenario.record self log)
    = interactions self ++ (Scenario.interaction_of <$> log).
Proof.
  revert self. induction log as [|c log IH]; intros self; simpl.
  - by rewrite app_nil_r.
  - rewrite IH. unfold Scenario.record, add_interaction. cbn [interactions].
    by rewrite <- app_assoc.
Qed.

Lemma recorded_interactions (log : list Scenario.call) :
  interactions (Scenario.recorded log) = Scenario.interaction_of <$> log.
Proof. unfold Scenario.recorded. by rewrite recorded_from. Qed.

Lemma resolved_count (log : list Scenario.call) :
  length (filter (λ i, resolved i = true) (Scenario.interaction_of <$> log))
    = length (filter Scenario.resolved_call log).
Proof.
  induction log as [|c log IH]; [done|].
  rewrite fmap_cons, !filter_cons.
  destruct (decide (Scenario.resolved_call c)) as [Hr|Hr].
  - rewrite decide_True; [simpl; by rewrite IH|].
    destruct Hr as [Hc Hs]. cbn [Scenario.interaction_of resolved].
    by rewrite !bool_decide_eq_true_2.
  - rewrite decide_False; [done|].
    cbn [Scenario.interaction_of resolved]. intros Hb.
    apply andb_true_iff in Hb as [Hc Hs].
    apply bool_decide_eq_true in Hc, Hs. by apply Hr.
Qed.

Lemma Qc_of_Z_le (a b : Z) : (a ≤ b)%Z → Qc_of_Z a ≤ Qc_of_Z b.
Proof.
  intros Hab. unfold Qcle. rewrite !this_of_Z. by rewrite <- Zle_Qle.
Qed.

Lemma Qc_of_Z_pos (a : Z) : (0 < a)%Z → 0 < Qc_of_Z a.
Proof.
  intros Ha. unfold Qclt. rewrite this_of_Z. cbn [this Q2Qc].
  change (Qred 0) with (inject_Z 0). by rewrite <- Zlt_Qlt.
Qed.

Lemma Qc_of_Z_succ (n : nat) :
  Qc_of_Z (Z.of_nat (S n)) = Qc_of_Z (Z.of_nat n) + 1.
Proof.
  apply Qc_is_canon. rewrite this_plus, !this_of_Z.
  rewrite Nat2Z.inj_succ. unfold Z.succ. rewrite inject_Z_plus. reflexivity.
Qed.

Lemma rate_range (r n : Z) :
  (0 ≤ r ≤ n)%Z → (0 < n)%Z →
  0 ≤ Qc_of_Z r / Qc_of_Z n * Qc_of_Z 100 ≤ Qc_of_Z 100.
Proof.
  intros [Hr Hrn] Hn.
  assert (Hpos : 0 < Qc_of_Z n) by (by apply Qc_of_Z_pos).
  assert (Hne : Qc_of_Z n ≠ 0) by (intros E; rewrite E in Hpos; by apply Qclt_not_le in Hpos).
  assert (H0 : 0 ≤ Qc_of_Z r / Qc_of_Z n).
  { replace 0 with (Qc_of_Z 0 / Qc_of_Z n) by (unfold Qcdiv; apply Qcmult_0_l).
    apply Qcdiv_le_mono; [done|]. by apply Qc_of_Z_le. }
  assert (H1 : Qc_of_Z r / Qc_of_Z n ≤ 1).
  { replace 1 with (Qc_of_Z n / Qc_of_Z n) by (unfold Qcdiv; by apply Qcmult_inv_r).
    apply Qcdiv_le_mono; [done|]. by apply Qc_of_Z_le. }
  revert H0 H1. generalize (Qc_of_Z r / Qc_of_Z n). intros x H0 H1.
  split; qc_arith.
Qed.

Lemma sum_bounds (a b : Qc) (l : list Qc) :
  Forall (λ x, a ≤ x ≤ b) l →
  Qc_of_Z (Z.of_nat (length l)) * a ≤ foldr Qcplus 0 l
  ∧ foldr Qcplus 0 l ≤ Qc_of_Z (Z.of_nat (length l)) * b.
Proof.
  induction 1 as [|x l [Hax Hxb] _ [IHa IHb]].
  - assert (E : Qc_of_Z (Z.of_nat (length (@nil Qc))) = 0) by qc_compute.
    rewrite E. cbn [foldr].
    rewrite !Qcmult_0_l. split; apply Qcle_refl.
  - cbn [length foldr]. rewrite Qc_of_Z_succ.
    revert IHa IHb. generalize (Qc_of_Z (Z.of_nat (length l))) (foldr Qcplus 0 l).
    intros n s IHa IHb. split; qc_arith.
Qed.

Lemma mean_bounds (a b : Qc) (l : list Qc) :
  l ≠ [] → Forall (λ x, a ≤ x ≤ b) l → a ≤ mean l ≤ b.
Proof.
  intros Hne Hall. destruct (sum_bounds a b l Hall) as [Ha Hb].
  assert (Hpos : 0 < Qc_of_Z (Z.of_nat (length l))).
  { apply Qc_of_Z_pos. destruct l; [done|simpl; lia]. }
  assert (Hn0 : Qc_of_Z (Z.of_nat (length l)) ≠ 0)
    by (intros E; rewrite E in Hpos; by apply Qclt_not_le in Hpos).
  unfold mean. split.
  - rewrite <- (Qcdiv_mult_l a (Qc_of_Z (Z.of_nat (length l)))) at 1 by done.
    apply Qcdiv_le_mono; [done|]. by rewrite Qcmult_comm.
  - rewrite <- (Qcdiv_mult_l b (Qc_of_Z (Z.of_nat (length l)))) at 1 by done.
    apply Qcdiv_le_mono; [done|]. by rewrite (Qcmult_comm b).
Qed.

(** X11. After a log of calls of [add_interaction] on a new tracker, the
    metrics count one query per call, count as resolved the calls with a
    confidence above 0.7 and at least one source, report as resolution rate
    the resolved share times 100, a number between 0 and 100, and report the
    means of the confidences and of the response times of the calls. *)
Theorem recorded_metrics (log : list Scenario.call) :
  log ≠ [] →
  let m := get_current_metrics (Scenario.recorded log) in
  total_queries m = Z.of_nat (length log) ∧
  resolved_queries m = Z.of_nat (length (filter Scenario.resolved_call log)) ∧
  (resolved_queries m ≤ total_queries m)%Z ∧
  resolution_rate m
    = Qc_of_Z (resolved_queries m) / Qc_of_Z (total_queries m) * Qc_of_Z 100 ∧
  0 ≤ resolution_rate m ≤ Qc_of_Z 100 ∧
  avg_confidence m = mean (Scenario.call_confidence <$> log) ∧
  avg_response_time m = mean (Scenario.call_time <$> log).
Proof.
  intros Hne m. subst m. unfold get_current_metrics.
  rewrite recorded_interactions.
  destruct log as [|c log]; [done|].
  rewrite fmap_cons. rewrite <- fmap_cons.
  cbn [total_queries resolved_queries resolution_rate avg_confidence avg_response_time].
  rewrite resolved_count, length_fmap.
  assert (Hle : (length (filter Scenario.resolved_call (c :: log)) ≤ length (c :: log))%nat)
    by apply length_filter.
  assert (Hpos : (Z.of_nat (length (c :: log)) > 0)%Z) by (simpl; lia).
  rewrite decide_True by done.
  split_and!; [done|done|lia|done| | | |].
  - apply rate_range; lia.
  - apply rate_range; lia.
  - by rewrite <- list_fmap_compose.
  - by rewrite <- list_fmap_compose.
Qed.

Lemma recorded_metrics_witness :
  Scenario.three_calls ≠ [] ∧
  total_queries (get_current_metrics (Scenario.recorded Scenario.three_calls)) = 3%Z ∧
  resolved_queries (get_current_metrics (Scenario.recorded Scenario.three_calls)) = 1%Z.
Proof.
  assert (Hne : Scenario.three_calls ≠ []) by discriminate.
  destruct (recorded_metrics Scenario.three_calls Hne) as (Ht & Hr & _).
  split; [exact Hne|]. split.
  - rewrite Ht. reflexivity.
  - rewrite Hr. vm_compute. reflexivity.
Defined.

(** X12. With interactions recorded whose confidences lie between 0 and 1,
    the average confidence as a percentage lies between 0 and 100, and the
    reported accuracy lies between that percentage and 100: the boost never
    lowers it. From 230/3 (76.67) to 92 the reported accuracy is 92, and from
    92 on it is the percentage itself. *)
Theorem accuracy_range (self : MetricsTracker.t) :
  interactions self ≠ [] →
  Forall (λ i, 0 ≤ i_confidence i ≤ 1) (interactions self) →
  0 ≤ Spec.raw_accuracy self ≤ Qc_of_Z 100 ∧
  Spec.raw_accuracy self ≤ accuracy (get_current_metrics self) ≤ Qc_of_Z 100 ∧
  (Qc_of_Z 230 / Qc_of_Z 3 ≤ Spec.raw_accuracy self ≤ Qc_of_Z 92 →
     accuracy (get_current_metrics self) = Qc_of_Z 92) ∧
  (Qc_of_Z 92 ≤ Spec.raw_accuracy self →
     accuracy (get_current_metrics self) = Spec.raw_accuracy self).
Proof.
  intros Hne Hall. rewrite accuracy_of_recorded by done.
  assert (Hmean : 0 ≤ mean (i_confidence <$> interactions self) ≤ 1).
  { apply mean_bounds.
    - by destruct (interactions self).
    - by apply Forall_fmap. }
  unfold Spec.raw_accuracy.
  revert Hmean. generalize (mean (i_confidence <$> interactions self)).
  intros x [H0 H1]. unfold min_.
  split_and!.
  - qc_arith.
  - qc_arith.
  - repeat case_decide; qc_arith.
  - repeat case_decide; qc_arith.
  - intros [Hlo Hhi]. repeat case_decide; qc_arith.
  - intros Hlo. repeat case_decide; qc_arith.
Qed.

Lemma accuracy_range_witness :
  interactions Examples.one_half ≠ [] ∧
  Forall (λ i, 0 ≤ i_confidence i ≤ 1) (interactions Examples.one_half) ∧
  Spec.raw_accuracy Examples.one_half
    ≤ accuracy (get_current_metrics Examples.one_half) ≤ Qc_of_Z 100.
Proof.
  assert (Hne : interactions Examples.one_half ≠ []) by (vm_compute; discriminate).
  assert (Hall : Forall (λ i, 0 ≤ i_confidence i ≤ 1) (interactions Examples.one_half)).
  { repeat constructor; vm_compute; discriminate. }
  split; [exact Hne|]. split; [exact Hall|].
  exact (proj1 (proj2 (accuracy_range Examples.one_half Hne Hall))).
Defined.

End tracker_log.

(** ** The dense strategy: hits, and adding a document *)

Section dense.

Import DenseRAGSystem.

Lemma list_item_in_range {A} (l : list A) (i : Z) :
  0 ≤ i < Z.of_nat (length l) →
  ∃ x, l !! Z.to_nat i = Some x ∧ list_item l i = Ok x.
Proof.
  intros [H0 Hlt]. unfold list_item. cbv zeta.
  rewrite (decide_True (P := 0 ≤ i)) by done. rewrite decide_True by done.
  destruct (lookup_lt_is_Some_2 l (Z.to_nat i)) as [x Hx]; [lia|].
  exists x. by rewrite Hx.
Qed.

Lemma list_item_from_end {A} (l : list A) (i : Z) :
  - Z.of_nat (length l) ≤ i < 0 →
  ∃ x, l !! Z.to_nat (Z.of_nat (length l) + i) = Some x ∧ list_item l i = Ok x.
Proof.
  intros [Hge Hlt]. unfold list_item. cbv zeta.
  rewrite (decide_False (P := 0 ≤ i)) by lia. rewrite decide_True by lia.
  destruct (lookup_lt_is_Some_2 l (Z.to_nat (Z.of_nat (length l) + i))) as [x Hx]; [lia|].
  exists x. by rewrite Hx.
Qed.

Lemma list_item_out_of_range {A} (l : list A) (i : Z) :
  Z.of_nat (length l) ≤ i ∨ i < - Z.of_nat (length l) →
  list_item l i = Raise IndexError.
Proof.
  intros [Hge|Hlt]; unfold list_item; cbv zeta.
  - rewrite (decide_True (P := 0 ≤ i)) by lia. rewrite decide_True by lia.
    by rewrite lookup_ge_None_2 by lia.
  - rewrite (decide_False (P := 0 ≤ i)) by lia. by rewrite decide_False by lia.
Qed.

Lemma list_item_raises {A} (l : list A) (i : Z) (e : exn) :
  list_item l i = Raise e → e = IndexError.
Proof.
  unfold list_item. cbv zeta. intros H.
  destruct (decide (0 ≤ (if decide (0 ≤ i) then i else Z.of_nat (length l) + i)));
    [|congruence].
  destruct (l !! _); congruence.
Qed.

Lemma hit_document_item (docs : list pydict) (score : Qc) (idx : Z) :
  idx ≠ -1 →
  - Z.of_nat (length docs) ≤ idx < Z.of_nat (length docs) →
  ∃ doc, list_item docs idx = Ok doc ∧
         Scenario.hit_document docs (score, idx) = Some (with_score doc score).
Proof.
  intros Hne [Hlo Hhi]. unfold Scenario.hit_document. cbn [fst snd].
  rewrite decide_False by done.
  destruct (decide (0 ≤ idx)) as [H0|H0].
  - destruct (list_item_in_range docs idx) as (doc & Hdoc & Hitem); [lia|].
    exists doc. by rewrite Hdoc.
  - rewrite decide_True by done.
    destruct (list_item_from_end docs idx) as (doc & Hdoc & Hitem); [lia|].
    exists doc. by rewrite Hdoc.
Qed.

Lemma hits_loop_in_range (docs : list pydict) (hits : list (Qc * Z)) (acc : list pydict) :
  Forall (Scenario.in_range docs) hits →
  hits_loop docs hits acc = Ok (acc ++ omap (Scenario.hit_document docs) hits).
Proof.
  intros Hall. revert acc.
  induction Hall as [|[score idx] hits Hin _ IH]; intros acc.
  - simpl. by rewrite app_nil_r.
  - cbn [hits_loop omap list_omap].
    destruct (decide (idx = -1)) as [->|Hne].
    + rewrite decide_False by (intros H; by apply H).
      unfold Scenario.hit_document at 1. cbn [fst snd].
      rewrite decide_True by done. apply IH.
    + rewrite decide_True by done.
      destruct Hin as [E|Hin]; [done|]. cbn [snd] in Hin.
      destruct (hit_document_item docs score idx Hne Hin) as (doc & -> & ->).
      cbn [mbind result_bind]. rewrite IH. by rewrite <- app_assoc.
Qed.

Lemma hits_loop_out_of_range (docs : list pydict) (hits : list (Qc * Z)) (acc : list pydict) :
  Exists (Scenario.out_of_range docs) hits →
  hits_loop docs hits acc = Raise IndexError.
Proof.
  intros Hex. revert acc.
  induction Hex as [[score idx] hits [Hne Hout]|[score idx] hits _ IH]; intros acc.
  - cbn [hits_loop]. cbn [snd] in Hne, Hout.
    rewrite decide_True by done. by rewrite list_item_out_of_range.
  - cbn [hits_loop]. destruct (decide (idx ≠ -1)); [|apply IH].
    destruct (list_item docs idx) as [doc|e] eqn:E; cbn [mbind result_bind]; [apply IH|].
    by rewrite (list_item_raises _ _ _ E).
Qed.

Lemma in_or_out_of_range (docs : list pydict) (hits : list (Qc * Z)) :
  Forall (Scenario.in_range docs) hits ∨ Exists (Scenario.out_of_range docs) hits.
Proof.
  induction hits as [|hit hits [IH|IH]].
  - left. constructor.
  - destruct (decide (hit.2 = -1)) as [E|Hne].
    + left. constructor; [by left|done].
    + destruct (decide (- Z.of_nat (length docs) ≤ hit.2 < Z.of_nat (length docs)))
        as [Hin|Hout].
      * left. constructor; [by right|done].
      * right. apply Exists_cons_hd. split; [done|lia].
  - right. by apply Exists_cons_tl.
Qed.

(** X13. When the query is embedded and the index search returns its hits,
    the dense retrieval resolves the hits in order, as [self.documents[idx]]
    does: a hit at position [-1] is skipped; a hit at a position that the
    stored list has, from the front or, for a negative position, from the
    end, gives the stored document there with the score of the hit. If one
    hit other than [-1] is at a position that the stored list does not
    have, the retrieval returns no document at all, whatever the other hits
    are. Every list of hits is of one of these two kinds. *)
Theorem dense_retrieve_hits (ext : externals) (self : t) (query : string) (top_k : Z)
    (q : vec) (rest : list vec) (vectors : list vec) (hits : list (Qc * Z)) :
  encode ext [VStr query] = Ok (q :: rest) →
  index self = Some vectors →
  search ext vectors q top_k = Ok hits →
  (Forall (Scenario.in_range (documents self)) hits →
     _retrieve_relevant_documents ext query top_k self
       = (Ok (omap (Scenario.hit_document (documents self)) hits), self)) ∧
  (Exists (Scenario.out_of_range (documents self)) hits →
     _retrieve_relevant_documents ext query top_k self = (Ok [], self)) ∧
  (Forall (Scenario.in_range (documents self)) hits
   ∨ Exists (Scenario.out_of_range (documents self)) hits).
Proof.
  intros Henc Hidx Hsearch.
  assert (Hbody : retrieve_body ext self query top_k = hits_loop (documents self) hits []).
  { unfold retrieve_body. rewrite Henc. cbn [mbind result_bind first_row].
    rewrite Hidx. cbn [mbind result_bind]. by rewrite Hsearch. }
  unfold _retrieve_relevant_documents. rewrite Hbody. split_and!.
  - intros Hall. by rewrite hits_loop_in_range.
  - intros Hex. by rewrite hits_loop_out_of_range.
  - apply in_or_out_of_range.
Qed.

Lemma dense_retrieve_hits_witness :
  _retrieve_relevant_documents (Scenario.failing_on "Refunds take five days" (-2))
    "password" 3 Examples.dense_system
  = (Ok [with_score Examples.reset_password 1%Qc], Examples.dense_system).
Proof.
  assert (Henc : encode (Scenario.failing_on "Refunds take five days" (-2)) [VStr "password"]
                 = Ok ([1%Qc] :: [])) by (vm_compute; reflexivity).
  assert (Hidx : index Examples.dense_system = Some [[1%Qc]; [1%Qc]]) by reflexivity.
  assert (Hsearch : search (Scenario.failing_on "Refunds take five days" (-2))
                      [[1%Qc]; [1%Qc]] [1%Qc] 3 = Ok [(1%Qc, -2)]) by reflexivity.
  assert (Hin : Forall (Scenario.in_range (documents Examples.dense_system))
                  [(1%Qc, -2)]).
  { constructor; [|constructor]. right. simpl. lia. }
  exact (proj1 (dense_retrieve_hits _ _ _ _ _ _ _ _ Henc Hidx Hsearch) Hin).
Defined.

Lemma retrieve_one_hit (ext : externals) (self : t) (query : string) (top_k : Z)
    (q : vec) (rest vectors : list vec) (score : Qc) (position : nat) (doc : pydict) :
  encode ext [VStr query] = Ok (q :: rest) →
  index self = Some vectors →
  search ext vectors q top_k = Ok [(score, Z.of_nat position)] →
  documents self !! position = Some doc →
  _retrieve_relevant_documents ext query top_k self = (Ok [with_score doc score], self).
Proof.
  intros Henc Hidx Hsearch Hdoc.
  unfold _retrieve_relevant_documents, retrieve_body.
  rewrite Henc. cbn [mbind result_bind first_row].
  rewrite Hidx. cbn [mbind result_bind]. rewrite Hsearch.
  cbn [mbind result_bind hits_loop].
  rewrite decide_True by lia.
  unfold list_item. cbv zeta.
  rewrite (decide_True (P := 0 ≤ Z.of_nat position)) by lia.
  rewrite decide_True by lia.
  rewrite Nat2Z.id, Hdoc. done.
Qed.

(** X14. Adding to an aligned dense system, one whose index holds one
    vector per stored document, where the embedding of the content succeeds
    with one vector: the call returns [True], the index and the stored list
    both grow by one, and a later search that hits the new vector retrieves
    the new document with the score of the hit. *)
Theorem dense_add_retrievable (ext : externals) (self : t)
    (title content category : string) (vectors : list vec) (v : vec) :
  index self = Some vectors →
  length vectors = length (documents self) →
  encode ext [VStr content] = Ok [v] →
  let added := add_to_knowledge_base ext title content category self in
  added.1 = Ok true ∧
  index added.2 = Some (vectors ++ [v]) ∧
  documents added.2 = documents self ++ [Spec.new_document title content category] ∧
  ∀ query top_k q rest score,
    encode ext [VStr query] = Ok (q :: rest) →
    search ext (vectors ++ [v]) q top_k = Ok [(score, Z.of_nat (length vectors))] →
    _retrieve_relevant_documents ext query top_k added.2
      = (Ok [with_score (Spec.new_document title content category) score], added.2).
Proof.
  intros Hidx Hlen Henc added.
  assert (Hadded : added =
    (Ok true, {| openai_client := openai_client self;
                 index := Some (vectors ++ [v]);
                 documents := documents self
                                ++ [Spec.new_document title content category] |})).
  { subst added. unfold add_to_knowledge_base.
    rewrite Henc. cbn [mbind result_bind]. by rewrite Hidx. }
  rewrite Hadded. cbn [fst snd index documents].
  split_and!; [done|done|done|].
  intros query top_k q rest score Hq Hsearch.
  apply (retrieve_one_hit _ _ _ _ q rest (vectors ++ [v]) score (length vectors));
    [done|done|done|].
  cbn [documents]. rewrite Hlen. by rewrite lookup_app_r, Nat.sub_diag.
Qed.

Lemma dense_add_retrievable_witness :
  (add_to_knowledge_base (Scenario.failing_on "Refunds take five days" 1)
     "Invoices" "Invoices are monthly" "Billing" Scenario.one_document_index).1 = Ok true.
Proof.
  assert (Hidx : index Scenario.one_document_index = Some [[1%Qc]]) by reflexivity.
  assert (Hlen : length [[1%Qc]] = length (documents Scenario.one_document_index))
    by reflexivity.
  assert (Henc : encode (Scenario.failing_on "Refunds take five days" 1)
                   [VStr "Invoices are monthly"] = Ok [[1%Qc]])
    by (vm_compute; reflexivity).
  exact (proj1 (dense_add_retrievable _ _ "Invoices" "Invoices are monthly" "Billing"
                  _ _ Hidx Hlen Henc)).
Defined.

(** X15. A failed add shifts the documents added after it. On an aligned
    dense system, when the embedding of a first content raises, the call
    returns [False] but its document stays in the stored list while the
    index does not grow. When a second add then succeeds, the stored list
    holds both documents but the index one vector more only, and a search
    that hits the vector of the second document retrieves the first one. *)
Theorem dense_failed_add_shifts (ext : externals) (self : t)
    (title_a content_a category_a title_b content_b category_b : string)
    (vectors : list vec) (v : vec) (e : exn) :
  index self = Some vectors →
  length vectors = length (documents self) →
  encode ext [VStr content_a] = Raise e →
  encode ext [VStr content_b] = Ok [v] →
  let first := add_to_knowledge_base ext title_a content_a category_a self in
  let second := add_to_knowledge_base ext title_b content_b category_b first.2 in
  first.1 = Ok false ∧
  index first.2 = Some vectors ∧
  documents first.2 = documents self ++ [Spec.new_document title_a content_a category_a] ∧
  second.1 = Ok true ∧
  index second.2 = Some (vectors ++ [v]) ∧
  documents second.2
    = documents self ++ [Spec.new_document title_a content_a category_a;
                         Spec.new_document title_b content_b category_b] ∧
  ∀ query top_k q rest score,
    encode ext [VStr query] = Ok (q :: rest) →
    search ext (vectors ++ [v]) q top_k = Ok [(score, Z.of_nat (length vectors))] →
    _retrieve_relevant_documents ext query top_k second.2
      = (Ok [with_score (Spec.new_document title_a content_a category_a) score], second.2).
Proof.
  intros Hidx Hlen Hfail Henc first second.
  assert (Hfirst : first =
    (Ok false, {| openai_client := openai_client self;
                  index := Some vectors;
                  documents := documents self
                                 ++ [Spec.new_document title_a content_a category_a] |})).
  { subst first. unfold add_to_knowledge_base.
    rewrite Hfail. cbn [mbind result_bind]. by rewrite Hidx. }
  assert (Hsecond : second =
    (Ok true, {| openai_client := openai_client self;
                 index := Some (vectors ++ [v]);
                 documents := documents self
                                ++ [Spec.new_document title_a content_a category_a;
                                    Spec.new_document title_b content_b category_b] |})).
  { subst second. rewrite Hfirst. unfold add_to_knowledge_base. cbn [fst snd].
    rewrite Henc. cbn [mbind result_bind index openai_client documents].
    by rewrite <- app_assoc. }
  rewrite Hsecond, Hfirst. cbn [fst snd index documents].
  split_and!; [done|done|done|done|done|done|].
  intros query top_k q rest score Hq Hsearch.
  apply (retrieve_one_hit _ _ _ _ q rest (vectors ++ [v]) score (length vectors));
    [done|done|done|].
  cbn [documents]. rewrite Hlen. by rewrite lookup_app_r, Nat.sub_diag.
Qed.

Lemma dense_failed_add_shifts_witness :
  _retrieve_relevant_documents (Scenario.failing_on "Refunds take five days" 1) "invoice" 3
    (add_to_knowledge_base (Scenario.failing_on "Refunds take five days" 1)
       "Invoices" "Invoices are monthly" "Billing"
       (add_to_knowledge_base (Scenario.failing_on "Refunds take five days" 1)
          "Refunds" "Refunds take five days" "Billing" Scenario.one_document_index).2).2
  = (Ok [with_score (Spec.new_document "Refunds" "Refunds take five days" "Billing") 1%Qc],
     (add_to_knowledge_base (Scenario.failing_on "Refunds take five days" 1)
        "Invoices" "Invoices are monthly" "Billing"
        (add_to_knowledge_base (Scenario.failing_on "Refunds take five days" 1)
           "Refunds" "Refunds take five days" "Billing" Scenario.one_document_index).2).2).
Proof.
  assert (Hidx : index Scenario.one_document_index = Some [[1%Qc]]) by reflexivity.
  assert (Hlen : length [[1%Qc]] = length (documents Scenario.one_document_index))
    by reflexivity.
  assert (Hfail : encode (Scenario.failing_on "Refunds take five days" 1)
                    [VStr "Refunds take five days"] = Raise (Exception "out of memory"))
    by (vm_compute; reflexivity).
  assert (Henc : encode (Scenario.failing_on "Refunds take five days" 1)
                   [VStr "Invoices are monthly"] = Ok [[1%Qc]])
    by (vm_compute; reflexivity).
  assert (Hq : encode (Scenario.failing_on "Refunds take five days" 1)
                 [VStr "invoice"] = Ok ([1%Qc] :: []))
    by (vm_compute; reflexivity).
  assert (Hsearch : search (Scenario.failing_on "Refunds take five days" 1)
                      ([[1%Qc]] ++ [[1%Qc]]) [1%Qc] 3
                    = Ok [(1%Qc, Z.of_nat (length [[1%Qc]]))]) by reflexivity.
  destruct (dense_failed_add_shifts _ _ "Refunds" "Refunds take five days" "Billing"
              "Invoices" "Invoices are monthly" "Billing" _ _ _ Hidx Hlen Hfail Henc)
    as (_ & _ & _ & _ & _ & _ & Hhit).
  exact (Hhit "invoice" 3 [1%Qc] [] 1%Qc Hq Hsearch).
Defined.

End dense.

(** ** The chat turn of the application *)

Section chat.

Import App.

Lemma simple_get_response_returns (self : SimpleRAGSystem.t) (query : string) :
  ∃ r, SimpleRAGSystem.get_response query self = (Ok r, self).
Proof.
  unfold SimpleRAGSystem.get_response.
  destruct (simple_retrieve_returns self query 3) as (docs & -> & _).
  unfold SimpleRAGSystem._generate_response.
  destruct (SimpleRAGSystem.generate_body _ _ _); simpl; eauto.
Qed.

Lemma e_is_unbound : name_bound "e" = false.
Proof. vm_compute. reflexivity. Qed.

Lemma chat_turn_state (prompt : string) (response_time : Qc) (st : session_state) :
  ∃ r,
    SimpleRAGSystem.get_response prompt (rag_system st) = (Ok r, rag_system st) ∧
    chat_turn prompt response_time st
      = {| messages := messages st ++ Scenario.turn_messages prompt response_time r;
           rag_system := rag_system st;
           metrics := metrics st |}.
Proof.
  destruct (simple_get_response_returns (rag_system st) prompt) as [r Hr].
  exists r. split; [done|].
  unfold chat_turn, try_body. cbn [rag_system messages metrics].
  rewrite Hr, e_is_unbound. cbn [rag_system messages metrics str].
  unfold Scenario.turn_messages. rewrite <- !app_assoc. reflexivity.
Qed.

Lemma conversation_cons (prompt : string) (rt : Qc) (turns : list (string * Qc))
    (st : session_state) :
  conversation ((prompt, rt) :: turns) st = conversation turns (chat_turn prompt rt st).
Proof. reflexivity. Qed.

Lemma conversation_state (turns : list (string * Qc)) (st : session_state) :
  metrics (conversation turns st) = metrics st ∧
  rag_system (conversation turns st) = rag_system st ∧
  length (messages (conversation turns st))
    = (length (messages st) + 3 * length turns)%nat.
Proof.
  revert st. induction turns as [|[prompt rt] turns IH]; intros st.
  - simpl. split_and!; [done|done|lia].
  - rewrite conversation_cons.
    destruct (chat_turn_state prompt rt st) as (r & _ & ->).
    destruct (IH {| messages := messages st ++ Scenario.turn_messages prompt rt r;
                    rag_system := rag_system st; metrics := metrics st |})
      as (Hm & Hr & Hl).
    rewrite Hm, Hr, Hl. cbn [messages rag_system metrics].
    rewrite length_app. cbn [Scenario.turn_messages length]. split_and!; [done|done|lia].
Qed.

(** X16. One chat turn of [src/app.py] appends three messages: the prompt,
    the answer of [get_response] with its response time, confidence and
    sources, and then the apology of the [except] branch ending in "name 'e'
    is not defined": the [try] block reads [e] before any handler has bound
    it. The call of [add_interaction] after that line is never reached, so
    the metrics tracker is left as it was. *)
Theorem chat_turn_reports_error (prompt : string) (response_time : Qc)
    (st : session_state) :
  ∃ r,
    SimpleRAGSystem.get_response prompt (rag_system st) = (Ok r, rag_system st) ∧
    messages (chat_turn prompt response_time st)
      = messages st ++ Scenario.turn_messages prompt response_time r ∧
    metrics (chat_turn prompt response_time st) = metrics st.
Proof.
  destruct (chat_turn_state prompt response_time st) as (r & Hr & ->).
  by exists r.
Qed.

(** X17. However many turns a conversation has, the metrics tracker of the
    session records none of them: a session started on a new tracker keeps
    showing the default metrics, accuracy 92, resolution rate 65 and no
    query, while the message list grows by three messages per turn. *)
Theorem conversation_never_recorded (turns : list (string * Qc))
    (rag : SimpleRAGSystem.t) (st : session_state) :
  metrics (conversation turns st) = metrics st ∧
  length (messages (conversation turns st))
    = (length (messages st) + 3 * length turns)%nat ∧
  MetricsTracker.get_current_metrics (metrics (conversation turns (Scenario.initial rag)))
    = MetricsTracker.get_current_metrics MetricsTracker.__init__ ∧
  MetricsTracker.total_queries
    (MetricsTracker.get_current_metrics (metrics (conversation turns (Scenario.initial rag))))
    = 0.
Proof.
  destruct (conversation_state turns st) as (Hm & _ & Hl).
  destruct (conversation_state turns (Scenario.initial rag)) as (Hi & _ & _).
  rewrite Hi. by split_and!.
Qed.

End chat.
